(** * Calculator: the calculation state engine, verified against its specification

    Shallow embedding of the JavaScript sources of the calculator
    (strategy tables, command history, event emitter, model and controller)
    together with the properties its specification states about them.

    JavaScript numbers are IEEE 754 binary64 values: they are modelled by
    Rocq's primitive floats, whose arithmetic is the same round-to-nearest-even
    binary64 arithmetic.  Strings are modelled by [string]; every string the
    program builds is ASCII, where a JavaScript string's [length] and the
    length of the Rocq string agree. *)

From Stdlib Require Import ZArith Lia Bool List Ascii String DecimalString.
From Stdlib Require Import PrimFloat SpecFloat FloatOps.
From Stdlib Require FloatAxioms Uint63 DecimalFacts DecimalPos DecimalN.
From stdpp Require Import base option list gmap strings.

Local Open Scope string_scope.
Local Open Scope list_scope.
Local Open Scope Z_scope.

(** ** The JavaScript number type and the built-ins the program calls *)

Module JS.

Definition number : Type := float.

(** How a call completes: normally with a value, or abruptly with a thrown
    [new Error(message)] (every exception of the program is one). *)
Inductive completion (A : Type) : Type :=
| Normal (a : A)
| Throw (message : string).
Arguments Normal {A} a.
Arguments Throw {A} message.

(** [isNaN(x)], [isFinite(x)] on a number. *)
Definition isNaN (x : number) : bool := PrimFloat.is_nan x.
Definition isFinite (x : number) : bool := PrimFloat.is_finite x.

(** Strict equality and the comparisons on numbers (IEEE: [-0 === 0], and
    every comparison with NaN is false). *)
Definition strict_eq (x y : number) : bool := PrimFloat.eqb x y.
Definition lt (x y : number) : bool := PrimFloat.ltb x y.
Definition le (x y : number) : bool := PrimFloat.leb x y.
Definition gt (x y : number) : bool := PrimFloat.ltb y x.
Definition ge (x y : number) : bool := PrimFloat.leb y x.

Definition of_Z (n : Z) : number :=
  SF2Prim (binary_normalize prec emax n 0 false).

(** [Math.abs]. *)
Definition Math_abs (x : number) : number := PrimFloat.abs x.

(** [Number.isInteger(x)]: [x] is finite and has no fractional part. *)
Definition Number_isInteger (x : number) : bool :=
  match Prim2SF x with
  | S754_zero _ => true
  | S754_finite _ m e =>
      if 0 <=? e then true else Z.eqb (Z.pos m mod 2 ^ (- e)) 0
  | _ => false
  end.

(** The remainder operator [a % b] (the sign of the dividend, truncated
    quotient; exact, so no rounding takes place). *)
Definition rem (a b : number) : number :=
  match Prim2SF a, Prim2SF b with
  | S754_nan, _ | _, S754_nan => PrimFloat.nan
  | S754_infinity _, _ => PrimFloat.nan
  | _, S754_zero _ => PrimFloat.nan
  | _, S754_infinity _ => a
  | S754_zero _, _ => a
  | S754_finite sa ma ea, S754_finite _ mb eb =>
      let e := Z.min ea eb in
      let r := Z.rem (Z.pos ma * 2 ^ (ea - e)) (Z.pos mb * 2 ^ (eb - e)) in
      match r with
      | Z0 => if sa then PrimFloat.neg_zero else PrimFloat.zero
      | _ => SF2Prim (binary_normalize prec emax (if sa then - r else r) e false)
      end
  end.

(** *** Number to string

    Exact integer arithmetic on the float's mantissa and binary exponent: a
    positive finite double is [m * 2^e]. *)

Definition digits_of_Z (n : Z) : string :=
  DecimalString.NilZero.string_of_uint (N.to_uint (Z.to_N n)).

Fixpoint zeros (n : nat) : string :=
  match n with
  | O => EmptyString
  | S n' => String "0" (zeros n')
  end.

Definition pow2_num (e : Z) : Z := if 0 <=? e then 2 ^ e else 1.
Definition pow2_den (e : Z) : Z := if 0 <=? e then 1 else 2 ^ (- e).
Definition pow10_num (q : Z) : Z := if 0 <=? q then 10 ^ q else 1.
Definition pow10_den (q : Z) : Z := if 0 <=? q then 1 else 10 ^ (- q).

Definition ceil_div (a b : Z) : Z := - ((- a) / b).

(** The multiples [s * 10^q] that read back as the double [m * 2^e]: with
    [N := 4 * m] and the unit [2^(e-2)], they lie between the midpoints to
    the neighbouring doubles, the bounds included when [m] is even.  The
    result is the candidate nearest to the double itself, if there is one. *)
Definition shortest_at (m : positive) (e q : Z) : option Z :=
  let X := 4 * Z.pos m in
  let HI := X + 2 in
  let LO := if andb (Z.pos m =? 2 ^ 52) (-1074 <? e) then X - 1 else X - 2 in
  let U := pow10_num q * pow2_den (e - 2) in
  let V := pow2_num (e - 2) * pow10_den q in
  let incl := Z.even (Z.pos m) in
  let smin := if incl then ceil_div (LO * V) U else (LO * V) / U + 1 in
  let smax := if incl then (HI * V) / U else ceil_div (HI * V) U - 1 in
  if smin <=? smax then
    let f := (X * V) / U in
    let r := 2 * ((X * V) mod U) in
    let near := if r <? U then f
                else if U <? r then f + 1
                else if Z.even f then f else f + 1 in
    Some (Z.max smin (Z.min smax near))
  else None.

(** The largest [q] with a candidate gives the fewest digits.  The search
    starts above it and ends within some twenty steps, since 17 digits
    always read back. *)
Fixpoint shortest_from (fuel : nat) (m : positive) (e q : Z) : Z * Z :=
  match fuel with
  | O => (0, q)
  | S fuel' =>
      match shortest_at m e q with
      | Some s => (s, q)
      | None => shortest_from fuel' m e (q - 1)
      end
  end.

(** An upper bound on the decimal exponent of [m * 2^e], which is below
    [2^(d + e)] for [d] the number of bits of [m]: [30103 / 100000] is just
    above [log10 2]. *)
Definition exponent10_bound (m : positive) (e : Z) : Z :=
  (Z.pos (digits2_pos m) + e + 1) * 30103 / 100000 + 1.

Definition shortest_digits (m : positive) (e : Z) : Z * Z :=
  shortest_from 400 m e (exponent10_bound m e).

(** [Number::toString(x)], radix 10 (ECMA-262, 6.1.6.1.20): [s] holds the
    [k] digits, [n] is the position of the decimal point. *)
Definition toString_pos (m : positive) (e : Z) : string :=
  let '(s, q) := shortest_digits m e in
  let ds := digits_of_Z s in
  let k := Z.of_nat (String.length ds) in
  let n := k + q in
  if andb (k <=? n) (n <=? 21) then
    ds +:+ zeros (Z.to_nat (n - k))
  else if andb (0 <? n) (n <=? 21) then
    substring 0 (Z.to_nat n) ds +:+ "." +:+
    substring (Z.to_nat n) (Z.to_nat (k - n)) ds
  else if andb (-6 <? n) (n <=? 0) then
    "0." +:+ zeros (Z.to_nat (- n)) +:+ ds
  else
    let ex := (if 0 <=? n - 1 then "+" else "-") +:+ digits_of_Z (Z.abs (n - 1)) in
    if k =? 1 then ds +:+ "e" +:+ ex
    else substring 0 1 ds +:+ "." +:+
         substring 1 (Z.to_nat (k - 1)) ds +:+ "e" +:+ ex.

Definition toString (x : number) : string :=
  match Prim2SF x with
  | S754_nan => "NaN"
  | S754_zero _ => "0"
  | S754_infinity s => if s then "-Infinity" else "Infinity"
  | S754_finite s m e =>
      (if s then "-" else "") +:+ toString_pos m e
  end.

(** [Number.prototype.toExponential(f)] (ECMA-262, 21.1.3.2): [n] has
    [f + 1] digits and [n * 10^(e10 - f)] is nearest to [x], the larger
    one on a tie. *)
Fixpoint exponent10_from (fuel : nat) (m : positive) (e q : Z) : Z :=
  match fuel with
  | O => q
  | S fuel' =>
      if pow10_num q * pow2_den e <=? Z.pos m * pow2_num e * pow10_den q
      then q else exponent10_from fuel' m e (q - 1)
  end.

Definition toExponential_pos (f : Z) (m : positive) (e : Z) : string :=
  let e10 := exponent10_from 400 m e (exponent10_bound m e) in
  let q := e10 - f in
  let U := pow10_num q * pow2_den e in
  let V := pow2_num e * pow10_den q in
  let n0 := (2 * (Z.pos m * V) + U) / (2 * U) in
  let '(n, e10) := if 10 ^ (f + 1) <=? n0 then (10 ^ f, e10 + 1) else (n0, e10) in
  let ds := digits_of_Z n in
  let mant := if f =? 0 then ds
              else substring 0 1 ds +:+ "." +:+ substring 1 (Z.to_nat f) ds in
  mant +:+ "e" +:+ (if 0 <=? e10 then "+" else "-") +:+ digits_of_Z (Z.abs e10).

Definition toExponential (x : number) (f : Z) : string :=
  match Prim2SF x with
  | S754_nan => "NaN"
  | S754_infinity s => if s then "-Infinity" else "Infinity"
  | S754_zero _ =>
      (if f =? 0 then "0" else "0." +:+ zeros (Z.to_nat f)) +:+ "e+0"
  | S754_finite s m e =>
      (if s then "-" else "") +:+ toExponential_pos f m e
  end.

(** *** String to number: [parseFloat]

    ECMA-262, 19.2.4: leading white space is skipped, the longest prefix that
    is a decimal literal is read (a sign, then [Infinity] or digits with an
    optional fraction and an optional exponent), and its value is rounded to
    the nearest double; [NaN] when there is no such prefix. *)

Definition is_digit (c : ascii) : bool :=
  let n := nat_of_ascii c in andb (48 <=? n)%nat (n <=? 57)%nat.

Definition is_white_space (c : ascii) : bool :=
  let n := nat_of_ascii c in
  orb (andb (9 <=? n)%nat (n <=? 13)%nat) (n =? 32)%nat.

Fixpoint skip_white_space (l : list ascii) : list ascii :=
  match l with
  | c :: l' => if is_white_space c then skip_white_space l' else l
  | [] => []
  end.

(** Reads a run of digits: its value appended to [acc], how many digits
    were read, and what follows. *)
Fixpoint read_digits (l : list ascii) (acc : Z) (count : Z) : Z * Z * list ascii :=
  match l with
  | c :: l' =>
      if is_digit c
      then read_digits l' (10 * acc + Z.of_nat (nat_of_ascii c - 48)) (count + 1)
      else (acc, count, l)
  | [] => (acc, count, [])
  end.

Definition read_sign (l : list ascii) : bool * list ascii :=
  match l with
  | "-"%char :: l' => (true, l')
  | "+"%char :: l' => (false, l')
  | _ => (false, l)
  end.

(** The exponent part [e], [E] with an optional sign and at least one
    digit; [0] when the text has none. *)
Definition read_exponent (l : list ascii) : Z :=
  match l with
  | c :: l' =>
      if orb (Ascii.eqb c "e") (Ascii.eqb c "E") then
        let '(neg, l'') := read_sign l' in
        let '(v, count, _) := read_digits l'' 0 0 in
        if count =? 0 then 0 else if neg then - v else v
      else 0
  | [] => 0
  end.

(** The double nearest to [m * 10^e10] (ties to even), for [m > 0]. *)
Definition round_decimal (neg : bool) (m : Z) (e10 : Z) : number :=
  match m with
  | Z.pos p =>
      SF2Prim
        (if 0 <=? e10
         then binary_normalize prec emax (if neg then - (m * 10 ^ e10) else m * 10 ^ e10) 0 false
         else SFdiv prec emax (S754_finite neg p 0)
                (S754_finite false (Z.to_pos (10 ^ (- e10))) 0))
  | _ => if neg then PrimFloat.neg_zero else PrimFloat.zero
  end.

Definition parseFloat (str : string) : number :=
  let '(neg, l) := read_sign (skip_white_space (list_ascii_of_string str)) in
  if String.prefix "Infinity" (string_of_list_ascii l)
  then (if neg then PrimFloat.neg_infinity else PrimFloat.infinity)
  else
    let '(int_part, int_count, l1) := read_digits l 0 0 in
    match l1 with
    | "."%char :: l2 =>
        let '(mant, frac_count, l3) := read_digits l2 int_part 0 in
        if andb (int_count =? 0) (frac_count =? 0) then PrimFloat.nan
        else round_decimal neg mant (read_exponent l3 - frac_count)
    | _ =>
        if int_count =? 0 then PrimFloat.nan
        else round_decimal neg int_part (read_exponent l1)
    end.

(** *** Locale formatting

    [Number.prototype.toLocaleString()] depends on the host's locale.  This is
    the en-US formatting with the default options (ECMA-402): the shortest
    decimal digits of the number, rounded half away from zero to at most
    three fraction digits, the integer digits in groups of three separated
    by commas. *)
Fixpoint group_thousands (fuel : nat) (ds : string) : string :=
  match fuel with
  | O => ds
  | S fuel' =>
      let n := String.length ds in
      if (n <=? 3)%nat then ds
      else group_thousands fuel' (substring 0 (n - 3) ds) +:+ "," +:+ substring (n - 3) 3 ds
  end.

(** The fraction digits of [thousandths / 1000], without trailing zeros. *)
Definition fraction_digits (thousandths : Z) : string :=
  if thousandths =? 0 then ""
  else if thousandths mod 100 =? 0 then "." +:+ digits_of_Z (thousandths / 100)
  else if thousandths mod 10 =? 0 then
    "." +:+ (if thousandths <? 100 then "0" else "") +:+ digits_of_Z (thousandths / 10)
  else "." +:+ (if thousandths <? 10 then "00"
                else if thousandths <? 100 then "0" else "")
       +:+ digits_of_Z thousandths.

Definition toLocaleString_enUS (x : number) : string :=
  match Prim2SF x with
  | S754_nan => "NaN"
  | S754_zero s => if s then "-0" else "0"
  | S754_infinity s => if s then "-∞" else "∞"
  | S754_finite s m e =>
      let '(d, q) := shortest_digits m e in
      (* the number is [d * 10^q]: in thousandths, rounded half up *)
      let thousandths :=
        if -3 <=? q then d * 10 ^ (q + 3)
        else (2 * d + 10 ^ (- q - 3)) / (2 * 10 ^ (- q - 3)) in
      let ds := digits_of_Z (thousandths / 1000) in
      (if s then "-" else "")
      +:+ group_thousands (String.length ds) ds
      +:+ fraction_digits (thousandths mod 1000)
  end.

(** [Math.PI] and [Math.E]. *)
Definition Math_PI : number := 0x1.921fb54442d18p+1%float.
Definition Math_E : number := 0x1.5bf0a8b145769p+1%float.

Arguments isNaN : simpl never.
Arguments isFinite : simpl never.
Arguments strict_eq : simpl never.
Arguments lt : simpl never.
Arguments le : simpl never.
Arguments gt : simpl never.
Arguments ge : simpl never.
Arguments Math_abs : simpl never.
Arguments Number_isInteger : simpl never.
Arguments rem : simpl never.
Arguments toString : simpl never.
Arguments toExponential : simpl never.
Arguments parseFloat : simpl never.
Arguments toLocaleString_enUS : simpl never.
Arguments of_Z : simpl never.

End JS.

(** ** What the host environment decides

    ECMAScript leaves the transcendental functions of [Math] to the
    implementation, and [toLocaleString] to the locale: the program is
    verified for every choice of them. *)
Class Host := {
  Math_sin : JS.number -> JS.number;
  Math_cos : JS.number -> JS.number;
  Math_tan : JS.number -> JS.number;
  Math_log10 : JS.number -> JS.number;
  Math_log : JS.number -> JS.number;
  Math_pow : JS.number -> JS.number -> JS.number;
  toLocaleString : JS.number -> string
}.

(** ** Strategy pattern: the calculation strategies *)

Module CalculationStrategies.
Import JS.

Local Open Scope float_scope.

(** The loop of [factorial]: [for (let i = 2; i <= x; i++) result *= i].
    The guard before it bounds [x] by 170, so 170 units of fuel reach the
    exit test (see [factorial_loop_leaves]). *)
Fixpoint factorial_loop (fuel : nat) (x i result : number) : number :=
  match fuel with
  | O => result
  | S fuel' =>
      if le i x then factorial_loop fuel' x (i + 1) (result * i) else result
  end.

Definition factorial (x : number) : completion number :=
  if lt x 0 || negb (Number_isInteger x) || gt x 170
  then Throw "Invalid factorial input"
  else if strict_eq x 0 || strict_eq x 1 then Normal 1
  else Normal (factorial_loop 170 x 2 1).

Definition basic_operations (op : string)
  : option (number -> number -> completion number) :=
  if String.eqb op "+" then Some (fun a b => Normal (a + b))
  else if String.eqb op "-" then Some (fun a b => Normal (a - b))
  else if String.eqb op "*" then Some (fun a b => Normal (a * b))
  else if String.eqb op "/" then
    Some (fun a b => if strict_eq b 0 then Throw "Division by zero"
                     else Normal (a / b))
  else if String.eqb op "%" then Some (fun a b => Normal (rem a b))
  else None.

Section Scientific.
Context `{Host}.

Definition scientific_operations (func : string)
  : option (number -> completion number) :=
  if String.eqb func "sin" then Some (fun x => Normal (Math_sin (x * Math_PI / 180)))
  else if String.eqb func "cos" then Some (fun x => Normal (Math_cos (x * Math_PI / 180)))
  else if String.eqb func "tan" then Some (fun x => Normal (Math_tan (x * Math_PI / 180)))
  else if String.eqb func "log" then
    Some (fun x => if le x 0 then Throw "Invalid logarithm input"
                   else Normal (Math_log10 x))
  else if String.eqb func "ln" then
    Some (fun x => if le x 0 then Throw "Invalid natural logarithm input"
                   else Normal (Math_log x))
  else if String.eqb func "sqrt" then
    Some (fun x => if lt x 0 then Throw "Invalid square root input"
                   else Normal (PrimFloat.sqrt x))
  else if String.eqb func "power" then Some (fun x => Normal (Math_pow x 2))
  else if String.eqb func "factorial" then Some factorial
  else None.

(** [CalculationStrategies[name].operations], as the two-argument call
    [operations[op](a, b)] sees it: a scientific function ignores its
    second argument.  Only the own properties of the two tables are
    modelled. *)
Definition operations (name : string)
  : option (string -> option (number -> number -> completion number)) :=
  if String.eqb name "basic" then Some basic_operations
  else if String.eqb name "scientific" then
    Some (fun op => (fun f (a _ : number) => f a) <$> scientific_operations op)
  else None.

End Scientific.
End CalculationStrategies.

(** ** The model (MVC): state, history log and the services it calls *)

(** What [getState()] returns: the engine state. *)
Record State := {
  currentValue : string;
  previousValue : string;
  operator : option string;          (* [null] is [None] *)
  isWaitingForOperand : bool;
  history : string;
  memoryValue : JS.number
}.

Record HistoryItem := {
  id : Z;
  expression : string;
  result : string;
  timestamp : string
}.

(** The private variables of the [CalculatorModel] module. *)
Record Model := {
  state : State;
  calculationHistory : list HistoryItem;
  currentStrategy : string
}.

(** The two readings of the clock [addToHistory] takes, [Date.now()] and
    [new Date().toISOString()]. *)
Record Clock := { Date_now : Z; Date_toISOString : string }.

(** What leaves the engine: events emitted on the model's emitter, writes
    to the storage repository, log entries, and calls to the view. *)
Inductive Effect :=
| Emit_valueChanged (value : string)
| Emit_historyUpdated (log : list HistoryItem)
| Storage_save (memory : JS.number) (log : list HistoryItem)
| Logger_log (level message : string)
| View_clearError
| View_showError (message : string)
| View_showToast (message type : string)
| View_updateDisplay (current history : string)
| View_updateMemoryIndicator (hasMemory : bool)
| View_announceToScreenReader (message : string).

Record App := { model : Model; effects : list Effect }.

(** Calls run on the application state and complete normally or by a
    throw; the state reached is kept in both cases. *)
Definition M (A : Type) : Type := App -> App * JS.completion A.

Definition ret {A} (a : A) : M A := fun w => (w, JS.Normal a).

Definition bind {A B} (c : M A) (k : A -> M B) : M B :=
  fun w => match c w with
           | (w', JS.Normal a) => k a w'
           | (w', JS.Throw e) => (w', JS.Throw e)
           end.

Definition throw {A} (message : string) : M A := fun w => (w, JS.Throw message).

Definition try_catch {A} (body : M A) (handler : string -> M A) : M A :=
  fun w => match body w with
           | (w', JS.Throw e) => handler e w'
           | done => done
           end.

Definition lift {A} (c : JS.completion A) : M A := fun w => (w, c).

Definition effect (e : Effect) : M unit :=
  fun w => ({| model := model w; effects := effects w ++ [e] |}, JS.Normal tt).

Definition read {A} (f : Model -> A) : M A := fun w => (w, JS.Normal (f (model w))).

Definition update (f : Model -> Model) : M unit :=
  fun w => ({| model := f (model w); effects := effects w |}, JS.Normal tt).

Declare Scope js_scope.
Delimit Scope js_scope with js.
Notation "x <- c ;; k" := (bind c (fun x => k))
  (at level 100, c at next level, right associativity) : js_scope.
Notation "c ;; k" := (bind c (fun _ => k))
  (at level 100, right associativity) : js_scope.
Local Open Scope js_scope.

Definition set_state (f : State -> State) (m : Model) : Model :=
  {| state := f (state m);
     calculationHistory := calculationHistory m;
     currentStrategy := currentStrategy m |}.

Definition set_calculationHistory (log : list HistoryItem) (m : Model) : Model :=
  {| state := state m; calculationHistory := log;
     currentStrategy := currentStrategy m |}.

Module CalculatorModel.
Section WithHost.
Context `{Host}.

Definition saveState : M unit :=
  m <- read (fun m => memoryValue (state m));;
  log <- read calculationHistory;;
  effect (Storage_save m log).

Definition formatNumber (number : JS.number) : JS.completion string :=
  if JS.isNaN number || negb (JS.isFinite number) then JS.Throw "Invalid number"
  else
    let numStr := JS.toString number in
    if (12 <? String.length numStr)%nat then JS.Normal (JS.toExponential number 5)
    else if JS.ge (JS.Math_abs number) 1000%float
            && negb (existsb (Ascii.eqb ".") (list_ascii_of_string numStr))
    then JS.Normal (toLocaleString number)
    else JS.Normal numStr.

(** [unshift] the new item, keep the first 100. *)
Definition addToHistory (t : Clock) (expression result : string) : M unit :=
  let historyItem := {| id := Date_now t; expression := expression;
                        result := result; timestamp := Date_toISOString t |} in
  update (fun m => set_calculationHistory (historyItem :: calculationHistory m) m);;
  log <- read calculationHistory;;
  (if (100 <? length log)%nat
   then update (set_calculationHistory (take 100 log))
   else ret tt);;
  saveState;;
  log <- read calculationHistory;;
  effect (Emit_historyUpdated log).

Definition getCurrentValue : M string := read (fun m => currentValue (state m)).
Definition getPreviousValue : M string := read (fun m => previousValue (state m)).
Definition getOperator : M (option string) := read (fun m => operator (state m)).
Definition getHistory : M string := read (fun m => history (state m)).
Definition getMemoryValue : M JS.number := read (fun m => memoryValue (state m)).
Definition isWaitingForOperand_ : M bool :=
  read (fun m => isWaitingForOperand (state m)).

(** The argument is a string by its type, so the [typeof] check passes. *)
Definition setCurrentValue (value : string) : M unit :=
  update (set_state (fun s =>
    {| currentValue := value; previousValue := previousValue s;
       operator := operator s; isWaitingForOperand := isWaitingForOperand s;
       history := history s; memoryValue := memoryValue s |}));;
  effect (Emit_valueChanged value).

Definition setPreviousValue (value : string) : M unit :=
  update (set_state (fun s =>
    {| currentValue := currentValue s; previousValue := value;
       operator := operator s; isWaitingForOperand := isWaitingForOperand s;
       history := history s; memoryValue := memoryValue s |})).

Definition setOperator (op : option string) : M unit :=
  update (set_state (fun s =>
    {| currentValue := currentValue s; previousValue := previousValue s;
       operator := op; isWaitingForOperand := isWaitingForOperand s;
       history := history s; memoryValue := memoryValue s |})).

Definition setHistory (hist : string) : M unit :=
  update (set_state (fun s =>
    {| currentValue := currentValue s; previousValue := previousValue s;
       operator := operator s; isWaitingForOperand := isWaitingForOperand s;
       history := hist; memoryValue := memoryValue s |})).

Definition setWaitingForOperand (waiting : bool) : M unit :=
  update (set_state (fun s =>
    {| currentValue := currentValue s; previousValue := previousValue s;
       operator := operator s; isWaitingForOperand := waiting;
       history := history s; memoryValue := memoryValue s |})).

Definition calculate (op : string) (a b : JS.number) : M JS.number :=
  try_catch
    (strategy <- read currentStrategy;;
     match CalculationStrategies.operations strategy with
     | None => throw "Cannot read properties of undefined (reading 'operations')"
     | Some operations =>
         match operations op with
         | None => throw ("Unknown operation: " +:+ op)
         | Some f =>
             result <- lift (f a b);;
             effect (Logger_log "info"
               ("Calculation: " +:+ JS.toString a +:+ " " +:+ op +:+ " "
                +:+ JS.toString b +:+ " = " +:+ JS.toString result));;
             ret result
         end
     end)
    (fun error => effect (Logger_log "error" "Calculation error");; throw error).

Definition scientificCalculate (func : string) (value : JS.number) : M JS.number :=
  try_catch
    (match CalculationStrategies.scientific_operations func with
     | None => throw ("Unknown function: " +:+ func)
     | Some f =>
         result <- lift (f value);;
         effect (Logger_log "info"
           ("Scientific calculation: " +:+ func +:+ "(" +:+ JS.toString value
            +:+ ") = " +:+ JS.toString result));;
         ret result
     end)
    (fun error => effect (Logger_log "error" "Scientific calculation error");;
                  throw error).

Definition addCalculationToHistory := addToHistory.

End WithHost.
End CalculatorModel.

(** ** The controller (MVC): the engine's operations *)

Module CalculatorController.
Section WithHost.
Context `{Host}.

Definition updateView : M unit :=
  current <- CalculatorModel.getCurrentValue;;
  hist <- CalculatorModel.getHistory;;
  effect (View_updateDisplay current hist);;
  memory <- CalculatorModel.getMemoryValue;;
  effect (View_updateMemoryIndicator (negb (JS.strict_eq memory 0%float))).

(** The controller's wrapper: a number that cannot be formatted is
    reported to the view and formatted as ['0']. *)
Definition formatNumber (number : JS.number) : M string :=
  try_catch
    (lift (CalculatorModel.formatNumber number))
    (fun _ => effect (View_showError "Invalid number");; ret "0").

(** [inputNumber(num)]: the specification's [inputDigit]. *)
Definition inputNumber (num : string) : M unit :=
  try_catch
    (effect View_clearError;;
     waiting <- CalculatorModel.isWaitingForOperand_;;
     if waiting then
       CalculatorModel.setCurrentValue num;;
       CalculatorModel.setWaitingForOperand false;;
       updateView
     else
       current <- CalculatorModel.getCurrentValue;;
       let newValue := if String.eqb current "0" then num else current +:+ num in
       if (15 <? String.length newValue)%nat then
         effect (View_showToast "Maximum digits reached" "error")
       else
         CalculatorModel.setCurrentValue newValue;;
         updateView)
    (fun _ => effect (View_showError "Input error")).

(** A string operator is truthy unless it is empty; [null] is falsy. *)
Definition truthy (op : option string) : bool :=
  match op with
  | Some s => negb (String.eqb s "")
  | None => false
  end.

Definition inputOperator (nextOperator : string) : M unit :=
  try_catch
    (text <- CalculatorModel.getCurrentValue;;
     let current := JS.parseFloat text in
     previous <- CalculatorModel.getPreviousValue;;
     op <- CalculatorModel.getOperator;;
     if JS.isNaN current then effect (View_showError "Invalid input")
     else
       waiting <- CalculatorModel.isWaitingForOperand_;;
       (if String.eqb previous "" then
          CalculatorModel.setPreviousValue (JS.toString current)
        else if truthy op && negb waiting then
          result <- CalculatorModel.calculate (default "" op) (JS.parseFloat previous) current;;
          formatted <- formatNumber result;;
          CalculatorModel.setCurrentValue formatted;;
          CalculatorModel.setPreviousValue (JS.toString result)
        else ret tt);;
       CalculatorModel.setWaitingForOperand true;;
       CalculatorModel.setOperator (Some nextOperator);;
       previous' <- CalculatorModel.getPreviousValue;;
       CalculatorModel.setHistory (previous' +:+ " " +:+ nextOperator);;
       updateView)
    (fun error => effect (View_showError error)).

(** [calculate()]: the specification's [evaluate()]. *)
Definition calculate (t : Clock) : M unit :=
  try_catch
    (text <- CalculatorModel.getCurrentValue;;
     let current := JS.parseFloat text in
     previous <- CalculatorModel.getPreviousValue;;
     op <- CalculatorModel.getOperator;;
     match op with
     | None => ret tt
     | Some operator =>
         if String.eqb previous "" || JS.isNaN current then ret tt
         else
           result <- CalculatorModel.calculate operator (JS.parseFloat previous) current;;
           formatted <- formatNumber result;;
           let expression :=
             previous +:+ " " +:+ operator +:+ " " +:+ JS.toString current in
           CalculatorModel.addCalculationToHistory t expression formatted;;
           CalculatorModel.setCurrentValue formatted;;
           CalculatorModel.setPreviousValue "";;
           CalculatorModel.setOperator None;;
           CalculatorModel.setWaitingForOperand true;;
           CalculatorModel.setHistory (expression +:+ " =");;
           updateView;;
           effect (View_announceToScreenReader ("Result: " +:+ formatted))
     end)
    (fun error => effect (View_showError error)).

(** [performScientificFunction(func)]: the specification's
    [evaluateScientific(fn)].  [result] is [None] on the early [return]. *)
Definition performScientificFunction (t : Clock) (func : string) : M unit :=
  try_catch
    (effect View_clearError;;
     result <-
       (if String.eqb func "pi" || String.eqb func "e" then
          ret (Some (if String.eqb func "pi" then JS.Math_PI else JS.Math_E))
        else
          text <- CalculatorModel.getCurrentValue;;
          let current := JS.parseFloat text in
          if JS.isNaN current then
            effect (View_showError "Invalid input for function");; ret None
          else
            result <- CalculatorModel.scientificCalculate func current;;
            ret (Some result));;
     match result with
     | None => ret tt
     | Some result =>
         formatted <- formatNumber result;;
         CalculatorModel.setCurrentValue formatted;;
         CalculatorModel.setWaitingForOperand true;;
         shown <- CalculatorModel.getCurrentValue;;
         let expression :=
           if String.eqb func "pi" || String.eqb func "e" then func
           else func +:+ "(" +:+ shown +:+ ")" in
         CalculatorModel.addCalculationToHistory t expression formatted;;
         updateView;;
         effect (View_announceToScreenReader (func +:+ " result: " +:+ formatted))
     end)
    (fun error => effect (View_showError error)).

End WithHost.
End CalculatorController.

(** ** Observer pattern: the event emitter

    The class as the repository gives it: [on] appends the callback to the
    topic's array, [emit] runs [forEach] over it.  A callback acts on the
    subscribers' world [W] and may throw. *)

Module EventEmitter.
Section Emitter.
Context {W D : Type}.

Definition callback : Type := D -> W -> W * JS.completion unit.

Record t := { events : gmap string (list callback) }.

(** [new EventEmitter()]. *)
Definition new : t := {| events := ∅ |}.





End Emitter.
Arguments t : clear implicits.
Arguments callback : clear implicits.
End EventEmitter.

(** ** Command pattern: commands and the command history

    Commands are objects: the history holds references into a heap of
    [CalculationCommand]s, and [execute] writes the snapshot into the object
    it is given (a reference outside the heap stands for a value that is no
    command).  The calculator a command acts on is any object with
    [getState], [setState] and [performOperation]; [getState] returns a
    fresh object, which is truthy. *)

Module CommandHistory.
Section Commands.
Context {Calc Snapshot Operation Operand Result : Type}.
Variable getState : Calc -> Snapshot.
Variable setState : Snapshot -> Calc -> Calc.
Variable performOperation : Operation -> Operand -> Calc -> Calc * JS.completion Result.

Record CalculationCommand := {
  operation : Operation;
  operand : Operand;
  previousState : option Snapshot     (* [null] is [None] *)
}.

Record t := {
  commands : list nat;                (* references to command objects *)
  currentIndex : Z;
  maxHistory : Z
}.

Record Store := {
  calculator : Calc;
  heap : gmap nat CalculationCommand;
  this : t
}.

(** [new CommandHistory()]. *)
Definition new : t := {| commands := []; currentIndex := -1; maxHistory := 50 |}.

(** [array.slice(0, end)]: a negative [end] counts from the end. *)
Definition slice0 {A} (l : list A) (e : Z) : list A :=
  let len := Z.of_nat (length l) in
  take (Z.to_nat (if e <? 0 then Z.max (len + e) 0 else Z.min e len)) l.

(** [array[i]]: [undefined] out of range. *)
Definition index {A} (l : list A) (i : Z) : option A :=
  if i <? 0 then None else l !! Z.to_nat i.

Definition command_execute (ref : nat) (st : Store) : Store * JS.completion Result :=
  match heap st !! ref with
  | None => (st, JS.Throw "command.execute is not a function")
  | Some cmd =>
      let cmd' := {| operation := operation cmd; operand := operand cmd;
                     previousState := Some (getState (calculator st)) |} in
      let '(calc', r) := performOperation (operation cmd) (operand cmd) (calculator st) in
      ({| calculator := calc'; heap := <[ref := cmd']> (heap st); this := this st |}, r)
  end.

Definition command_undo (cmd : CalculationCommand) (st : Store) : Store :=
  match previousState cmd with
  | Some s => {| calculator := setState s (calculator st);
                 heap := heap st; this := this st |}
  | None => st
  end.

Definition with_this (h : t) (st : Store) : Store :=
  {| calculator := calculator st; heap := heap st; this := h |}.

Definition execute (command : nat) (st : Store) : Store * JS.completion Result :=
  let h := this st in
  let st1 := with_this {| commands := slice0 (commands h) (currentIndex h + 1);
                          currentIndex := currentIndex h;
                          maxHistory := maxHistory h |} st in
  match command_execute command st1 with
  | (st2, JS.Throw e) => (st2, JS.Throw e)
  | (st2, JS.Normal result) =>
      let h2 := this st2 in
      let pushed := commands h2 ++ [command] in
      let advanced := currentIndex h2 + 1 in
      let h3 :=
        if maxHistory h2 <? Z.of_nat (length pushed)
        then {| commands := drop 1 pushed; currentIndex := advanced - 1;
                maxHistory := maxHistory h2 |}
        else {| commands := pushed; currentIndex := advanced;
                maxHistory := maxHistory h2 |} in
      (with_this h3 st2, JS.Normal result)
  end.

Definition undo (st : Store) : Store * JS.completion bool :=
  let h := this st in
  if 0 <=? currentIndex h then
    match index (commands h) (currentIndex h) ≫= (fun ref => heap st !! ref) with
    | None => (st, JS.Throw "Cannot read properties of undefined (reading 'undo')")
    | Some cmd =>
        let st' := command_undo cmd st in
        (with_this {| commands := commands h; currentIndex := currentIndex h - 1;
                      maxHistory := maxHistory h |} st', JS.Normal true)
    end
  else (st, JS.Normal false).

Definition canUndo (st : Store) : bool := 0 <=? currentIndex (this st).

End Commands.
End CommandHistory.

(** ** Definitions the statements use *)

(** A host to run the engine on concrete inputs: the en-US locale.  The
    transcendental functions of a real host cannot be computed here; the
    entries below only fix the arguments where ECMA-262 or IEEE 754 gives
    the result exactly (a zero, one, a square) and answer [NaN] elsewhere.
    The runs below never call them. *)
Definition enUS_host : Host :=
  {| Math_sin := fun x => if JS.strict_eq x 0%float then x else PrimFloat.nan;
     Math_cos := fun x => if JS.strict_eq x 0%float then 1%float else PrimFloat.nan;
     Math_tan := fun x => if JS.strict_eq x 0%float then x else PrimFloat.nan;
     Math_log10 := fun x => if JS.strict_eq x 1%float then 0%float else PrimFloat.nan;
     Math_log := fun x => if JS.strict_eq x 1%float then 0%float else PrimFloat.nan;
     Math_pow := fun x y => if JS.strict_eq y 0%float then 1%float
                            else if JS.strict_eq y 2%float then (x * x)%float
                            else PrimFloat.nan;
     toLocaleString := JS.toLocaleString_enUS |}.

(** The engine state and the calculation log of an application state. *)
Definition engine (w : App) : State * list HistoryItem :=
  (state (model w), calculationHistory (model w)).

(** An application state with the given engine state, an empty log and the
    basic strategy. *)
Definition app_of (s : State) : App :=
  {| model := {| state := s; calculationHistory := []; currentStrategy := "basic" |};
     effects := [] |}.

(** The initial state of the model. *)
Definition initial_state : State :=
  {| currentValue := "0"; previousValue := ""; operator := None;
     isWaitingForOperand := false; history := ""; memoryValue := 0%float |}.

(** What [CalculatorModel.calculate] computes, effects apart. *)
Definition apply_operation `{Host} (strategy op : string) (a b : JS.number)
  : JS.completion JS.number :=
  match CalculationStrategies.operations strategy with
  | None => JS.Throw "Cannot read properties of undefined (reading 'operations')"
  | Some operations =>
      match operations op with
      | None => JS.Throw ("Unknown operation: " +:+ op)
      | Some f => f a b
      end
  end.

(** What [CalculatorModel.scientificCalculate] computes, effects apart. *)
Definition apply_function `{Host} (func : string) (value : JS.number)
  : JS.completion JS.number :=
  match CalculationStrategies.scientific_operations func with
  | None => JS.Throw ("Unknown function: " +:+ func)
  | Some f => f value
  end.

Definition log_effect (e : Effect) (w : App) : App :=
  {| model := model w; effects := effects w ++ [e] |}.

(** The integer a number is, when it is one. *)
Definition integer_value (x : JS.number) : option Z :=
  match Prim2SF x with
  | S754_zero _ => Some 0
  | S754_finite s m e =>
      if 0 <=? e then Some (if s then - (Z.pos m * 2 ^ e) else Z.pos m * 2 ^ e)
      else if Z.pos m mod 2 ^ (- e) =? 0
           then Some (if s then - (Z.pos m / 2 ^ (- e)) else Z.pos m / 2 ^ (- e))
           else None
  | _ => None
  end.

(** [n!] as an integer: the product [1 * 2 * ... * n], with [0! = 1]. *)
Fixpoint Zfactorial (n : nat) : Z :=
  match n with
  | O => 1
  | S k => Z.of_nat (S k) * Zfactorial k
  end.

(** The loop of [factorial] with its way out made explicit: [Some] only
    when the test [i <= x] has failed within the fuel. *)
Fixpoint factorial_loop_exit (fuel : nat) (x i result : JS.number)
  : option JS.number :=
  match fuel with
  | O => None
  | S fuel' =>
      if JS.le i x
      then factorial_loop_exit fuel' x (i + 1)%float (result * i)%float
      else Some result
  end.

(** What is checked of the value of [factorial(n)] for each [n] from 0 to
    170: the call returns a finite integer within [2^-50] of [n!]
    (relatively), equal to [n!] up to 22. *)
Definition factorial_value_checked (n : nat) : bool :=
  match CalculationStrategies.factorial (JS.of_Z (Z.of_nat n)) with
  | JS.Normal r =>
      JS.isFinite r
      && match integer_value r with
         | Some v =>
             (Z.abs (v - Zfactorial n) * 2 ^ 50 <=? Zfactorial n)
             && ((22 <? n)%nat || (v =? Zfactorial n))
         | None => false
         end
  | JS.Throw _ => false
  end.

(** What is checked of the loop for each [n] from 2 to 170: the guard and
    the two shortcuts let [n] through, and the loop leaves by its test
    within the fuel. *)
Definition factorial_loop_checked (n : nat) : bool :=
  let x := JS.of_Z (Z.of_nat n) in
  negb (JS.lt x 0%float || negb (JS.Number_isInteger x) || JS.gt x 170%float)
  && negb (JS.strict_eq x 0%float || JS.strict_eq x 1%float)
  && match factorial_loop_exit 170 x 2%float 1%float with
     | Some _ => true
     | None => false
     end.

(** Whether a decimal string contains a decimal point:
    [numStr.indexOf('.') !== -1]. *)
Definition has_decimal_point (numStr : string) : bool :=
  existsb (Ascii.eqb ".") (list_ascii_of_string numStr).

(** The number formatter as the specification words it: exponential when
    the magnitude needs more than 12 characters, grouping when the magnitude
    is at least 1000 and the number has no fractional part, the plain
    decimal string otherwise. *)
Definition formatNumber_as_stated `{Host} (v : JS.number) : JS.completion string :=
  if JS.isNaN v || negb (JS.isFinite v) then JS.Throw "Invalid number"
  else if (12 <? String.length (JS.toString (JS.Math_abs v)))%nat
  then JS.Normal (JS.toExponential v 5)
  else if JS.ge (JS.Math_abs v) 1000%float && JS.Number_isInteger v
  then JS.Normal (toLocaleString v)
  else JS.Normal (JS.toString v).

(** The log entry [addToHistory] builds. *)
Definition historyItem (entry : Clock * string * string) : HistoryItem :=
  let '(t, expression, result) := entry in
  {| id := Date_now t; expression := expression; result := result;
     timestamp := Date_toISOString t |}.

(** Inserting entries one after the other, the first of the list first. *)
Definition addAllToHistory (entries : list (Clock * string * string))
  (w : App) : App :=
  fold_left
    (fun w entry => let '(t, expression, result) := entry in
                    fst (CalculatorModel.addToHistory t expression result w))
    entries w.

(** [n] entries to insert, numbered 1 to [n] by their expression. *)
Definition numbered_entries (n : nat) : list (Clock * string * string) :=
  map (fun i => ({| Date_now := Z.of_nat i; Date_toISOString := "" |},
                 JS.digits_of_Z (Z.of_nat i), "0"))
      (seq 1 n).

(** What the controller's [formatNumber] returns: the formatted number, or
    ['0'] for a number the model's formatter rejects. *)
Definition formatted_or_zero `{Host} (r : JS.number) : string :=
  match CalculatorModel.formatNumber r with
  | JS.Normal s => s
  | JS.Throw _ => "0"
  end.

(** The engine state after a completed [calculate()]. *)
Definition evaluated_state (formatted expression : string) (s : State) : State :=
  {| currentValue := formatted; previousValue := ""; operator := None;
     isWaitingForOperand := true; history := expression +:+ " =";
     memoryValue := memoryValue s |}.

(** The engine state after a completed [performScientificFunction(func)]. *)
Definition scientific_state (formatted : string) (s : State) : State :=
  {| currentValue := formatted; previousValue := previousValue s;
     operator := operator s; isWaitingForOperand := true;
     history := history s; memoryValue := memoryValue s |}.

(** The effects of [updateView()]. *)
Definition view_updates (s : State) : list Effect :=
  [View_updateDisplay (currentValue s) (history s);
   View_updateMemoryIndicator (negb (JS.strict_eq (memoryValue s) 0%float))].

(** The application after [calculate()] has logged and stored the formatted
    result of a computation. *)
Definition evaluated (t : Clock) (expression formatted : string) (w : App) : App :=
  let log := take 100 (historyItem (t, expression, formatted)
                         :: calculationHistory (model w)) in
  let s := evaluated_state formatted expression (state (model w)) in
  {| model := {| state := s; calculationHistory := log;
                 currentStrategy := currentStrategy (model w) |};
     effects := (effects w
                 ++ [Storage_save (memoryValue s) log; Emit_historyUpdated log;
                     Emit_valueChanged formatted]
                 ++ view_updates s
                 ++ [View_announceToScreenReader ("Result: " +:+ formatted)]) |}.

(** The application after [performScientificFunction(func)] has stored and
    logged a formatted result. *)
Definition evaluated_scientific (t : Clock) (func formatted : string) (w : App) : App :=
  let expression :=
    if String.eqb func "pi" || String.eqb func "e" then func
    else func +:+ "(" +:+ formatted +:+ ")" in
  let log := take 100 (historyItem (t, expression, formatted)
                         :: calculationHistory (model w)) in
  let s := scientific_state formatted (state (model w)) in
  {| model := {| state := s; calculationHistory := log;
                 currentStrategy := currentStrategy (model w) |};
     effects := (effects w
                 ++ [Emit_valueChanged formatted;
                     Storage_save (memoryValue s) log; Emit_historyUpdated log]
                 ++ view_updates s
                 ++ [View_announceToScreenReader
                       (func +:+ " result: " +:+ formatted)]) |}.

(** The keys [0 % 0] typed on a fresh calculator (en-US host): the state in which
    [calculate()] computes [0 % 0]. *)
Definition zero_rem_zero_typed : App :=
  fst ((CalculatorController.inputNumber "0";;
        CalculatorController.inputOperator (H := enUS_host) "%";;
        CalculatorController.inputNumber "0")%js (app_of initial_state)).

(** The clock of the examples. *)
Definition epoch : Clock :=
  {| Date_now := 0; Date_toISOString := "1970-01-01T00:00:00.000Z" |}.

(** The keys [5 / 0] typed on a fresh calculator (en-US host). *)
Definition five_div_zero_typed : App :=
  fst ((CalculatorController.inputNumber "5";;
        CalculatorController.inputOperator (H := enUS_host) "/";;
        CalculatorController.inputNumber "0")%js (app_of initial_state)).

(** A digit key: a one-character string, ['0'] to ['9']. *)
Definition digit_key (d : string) : bool :=
  match d with
  | String c EmptyString => JS.is_digit c
  | _ => false
  end.

(** Typing keys one after the other. *)
Definition typed (keys : list string) (w : App) : App :=
  fold_left (fun w key => fst (CalculatorController.inputNumber key w)) keys w.

(** The text of a sequence of keys. *)
Definition text_of (keys : list string) : string :=
  fold_right String.append "" keys.

(** The engine state with another current value. *)
Definition with_currentValue (value : string) (waiting : bool) (s : State) : State :=
  {| currentValue := value; previousValue := previousValue s;
     operator := operator s; isWaitingForOperand := waiting;
     history := history s; memoryValue := memoryValue s |}.

(** The application after [inputNumber] has accepted a key. *)
Definition entered (value : string) (w : App) : App :=
  let s := with_currentValue value false (state (model w)) in
  {| model := {| state := s; calculationHistory := calculationHistory (model w);
                 currentStrategy := currentStrategy (model w) |};
     effects := (effects w ++ [View_clearError; Emit_valueChanged value]
                 ++ view_updates s) |}.




(** The invariant of the command history, and what makes a store well
    formed: the history holds references to commands that were executed, so
    each has its snapshot. *)
Module HistoryInvariant.
Section Invariant.
Context {Calc Snapshot Operation Operand Result : Type}.
Variable getState : Calc -> Snapshot.
Variable setState : Snapshot -> Calc -> Calc.
Variable performOperation :
  Operation -> Operand -> Calc -> Calc * JS.completion Result.

Abbreviation Store := (@CommandHistory.Store Calc Snapshot Operation Operand).
Abbreviation execute := (CommandHistory.execute getState performOperation).
Abbreviation undo :=
  (@CommandHistory.undo Calc Snapshot Operation Operand setState).

Definition inv (h : CommandHistory.t) : Prop :=
  -1 <= CommandHistory.currentIndex h
        < Z.of_nat (length (CommandHistory.commands h))
  /\ Z.of_nat (length (CommandHistory.commands h)) <= 50
  /\ CommandHistory.maxHistory h = 50.

Definition executed (st : Store) (ref : nat) : Prop :=
  exists cmd snapshot,
    CommandHistory.heap st !! ref = Some cmd
    /\ CommandHistory.previousState cmd = Some snapshot.

Definition wf (st : Store) : Prop :=
  inv (CommandHistory.this st)
  /\ Forall (executed st) (CommandHistory.commands (CommandHistory.this st)).

(** Executing commands one after the other, with how each call completed;
    a command that throws is passed over by the caller. *)
Fixpoint execute_each (refs : list nat) (st : Store)
  : Store * list (JS.completion Result) :=
  match refs with
  | [] => (st, [])
  | ref :: rest =>
      let '(st', r) := execute ref st in
      let '(st'', rs) := execute_each rest st' in
      (st'', r :: rs)
  end.


(** [n] calls of [undo()], with what each returned. *)
Fixpoint undo_many (n : nat) (st : Store) : Store * list (JS.completion bool) :=
  match n with
  | O => (st, [])
  | S n' =>
      let '(st', r) := undo st in
      let '(st'', rs) := undo_many n' st' in
      (st'', r :: rs)
  end.

End Invariant.
End HistoryInvariant.

(** A calculator to run the command history on: a running total, whose
    [performOperation] adds, and throws for any other operation. *)
Module Accumulator.

Definition getState (total : Z) : Z := total.
Definition setState (snapshot : Z) (_ : Z) : Z := snapshot.
Definition performOperation (operation : string) (operand : Z) (total : Z)
  : Z * JS.completion Z :=
  if String.eqb operation "add" then (total + operand, JS.Normal (total + operand))
  else (total, JS.Throw ("Unknown operation: " +:+ operation)).

Definition add (operand : Z) : @CommandHistory.CalculationCommand Z string Z :=
  {| CommandHistory.operation := "add"; CommandHistory.operand := operand;
     CommandHistory.previousState := None |}.

(** A fresh history, a total of 0 and [n] commands [add 1] on the heap, at
    the references [0] to [n - 1]. *)
Definition store (n : nat) : @CommandHistory.Store Z Z string Z :=
  {| CommandHistory.calculator := 0;
     CommandHistory.heap := list_to_map (map (fun ref => (ref, add 1)) (seq 0 n));
     CommandHistory.this := CommandHistory.new |}.

Definition execute_each :=
  HistoryInvariant.execute_each getState performOperation.
Definition undo_many :=
  HistoryInvariant.undo_many (Operation := string) (Operand := Z) setState.

End Accumulator.

(** The product [1 * 2 * ... * n] in double precision, accumulated from the
    left, each multiplication rounded. *)
Definition double_product (n : nat) : JS.number :=
  fold_left (fun acc k => (acc * JS.of_Z (Z.of_nat k))%float) (seq 1 n) 1%float.

(** ** The rest of the model's interface: strategy, log and validation *)

Module ModelAPI.

(** The names [CalculationStrategies[name]] finds besides its own two:
    those every object literal inherits from [Object.prototype], all of
    them truthy. *)
Definition Object_prototype_properties : list string :=
  ["constructor"; "hasOwnProperty"; "isPrototypeOf"; "propertyIsEnumerable";
   "toLocaleString"; "toString"; "valueOf"; "__proto__";
   "__defineGetter__"; "__defineSetter__"; "__lookupGetter__";
   "__lookupSetter__"].

(** [CalculationStrategies[strategy]] is truthy. *)
Definition has_strategy (strategy : string) : bool :=
  String.eqb strategy "basic" || String.eqb strategy "scientific"
  || existsb (String.eqb strategy) Object_prototype_properties.

Definition setStrategy (strategy : string) : M unit :=
  if has_strategy strategy then
    update (fun m => {| state := state m;
                        calculationHistory := calculationHistory m;
                        currentStrategy := strategy |});;
    effect (Logger_log "info" ("Strategy changed to: " +:+ strategy))
  else throw ("Unknown strategy: " +:+ strategy).

Definition getCalculationHistory : M (list HistoryItem) := read calculationHistory.

Definition clearHistory : M unit :=
  update (set_calculationHistory []);;
  CalculatorModel.saveState;;
  log <- read calculationHistory;;
  effect (Emit_historyUpdated log);;
  effect (Logger_log "info" "History cleared").

(** [/^[0-9+\-*/.%()=]$/.test(input)]: one character of the class, and
    nothing else. *)
Definition validateInput (input : string) : bool :=
  match input with
  | String c EmptyString =>
      JS.is_digit c
      || existsb (Ascii.eqb c) ["+"; "-"; "*"; "/"; "."; "%"; "("; ")"; "="]%char
  | _ => false
  end.

End ModelAPI.

(** ** The rest of the controller: editing the entry *)

Module ControllerAPI.
Section WithHost.
Context `{Host}.

(** [str.slice(0, -1)]: the string without its last character. *)
Definition slice_0_m1 (str : string) : string :=
  substring 0 (String.length str - 1) str.

Definition deleteLast : M unit :=
  try_catch
    (current <- CalculatorModel.getCurrentValue;;
     (if (1 <? String.length current)%nat && negb (String.eqb current "0")
      then CalculatorModel.setCurrentValue (slice_0_m1 current)
      else CalculatorModel.setCurrentValue "0");;
     CalculatorController.updateView)
    (fun _ => effect (View_showError "Delete error")).

Definition inputDecimal : M unit :=
  try_catch
    (waiting <- CalculatorModel.isWaitingForOperand_;;
     (if waiting then
        CalculatorModel.setCurrentValue "0.";;
        CalculatorModel.setWaitingForOperand false
      else
        current <- CalculatorModel.getCurrentValue;;
        if negb (has_decimal_point current) then
          current' <- CalculatorModel.getCurrentValue;;
          CalculatorModel.setCurrentValue (current' +:+ ".")
        else ret tt);;
     CalculatorController.updateView)
    (fun _ => effect (View_showError "Decimal error")).

(** [loadFromHistory(value)], called by the history panel with the
    [result] of an entry, a string, whose [toString()] is the string
    itself; [showToast]'s type defaults to ['success']. *)
Definition loadFromHistory (value : string) : M unit :=
  CalculatorModel.setCurrentValue value;;
  CalculatorModel.setWaitingForOperand true;;
  CalculatorController.updateView;;
  effect (View_showToast "Loaded from history" "success").

End WithHost.
End ControllerAPI.

(** ** What the statements about the entry use *)

(** The keys that edit the entry. *)
Inductive EntryKey :=
| Digit (d : string)
| DecimalPoint
| Backspace.

Definition press (key : EntryKey) (w : App) : App :=
  match key with
  | Digit d => fst (CalculatorController.inputNumber d w)
  | DecimalPoint => fst (ControllerAPI.inputDecimal w)
  | Backspace => fst (ControllerAPI.deleteLast w)
  end.

Definition press_all (keys : list EntryKey) (w : App) : App :=
  fold_left (fun w key => press key w) keys w.

Definition is_digit_key (key : EntryKey) : bool :=
  match key with
  | Digit d => digit_key d
  | _ => true
  end.

(** How many decimal points a text holds. *)
Definition count_points (text : string) : nat :=
  length (filter (fun c => c = "."%char) (list_ascii_of_string text)).

(** A decimal literal as the entry keys build it: digits with at most one
    point, the first character a digit; at most 15 characters, or 16 for a
    point put after 15 digits. *)
Definition entry_literal (text : string) : Prop :=
  match list_ascii_of_string text with
  | [] => False
  | c :: rest =>
      JS.is_digit c = true
      /\ Forall (fun c => JS.is_digit c = true \/ c = "."%char) rest
      /\ (count_points text <= 1)%nat
      /\ ((String.length text <= 15)%nat
          \/ (String.length text = 16%nat /\ count_points text = 1%nat))
  end.

(** [n] calls of [deleteLast()]. *)
Fixpoint deleteLast_times (n : nat) (w : App) : App :=
  match n with
  | O => w
  | S n' => deleteLast_times n' (fst (ControllerAPI.deleteLast w))
  end.

(** The engine state with an operator pending on [previous]. *)
Definition with_operator (current previous next : string) (s : State) : State :=
  {| currentValue := current; previousValue := previous; operator := Some next;
     isWaitingForOperand := true; history := previous +:+ " " +:+ next;
     memoryValue := memoryValue s |}.

(** The keys of a complete calculation, [a op b =], pressed one after the
    other. *)
Definition calculation_typed `{Host} (t : Clock) (a : list string) (op : string)
  (b : list string) (w : App) : App :=
  fst (CalculatorController.calculate t
         (typed b (fst (CalculatorController.inputOperator op (typed a w))))).

(** The application after an edit of the entry has stored [value] and
    refreshed the view. *)
Definition edited (value : string) (waiting : bool) (w : App) : App :=
  let s := with_currentValue value waiting (state (model w)) in
  {| model := {| state := s; calculationHistory := calculationHistory (model w);
                 currentStrategy := currentStrategy (model w) |};
     effects := (effects w ++ [Emit_valueChanged value] ++ view_updates s) |}.

(** Everything the model holds besides the entry (the current value and
    the flag that an operand is awaited). *)
Definition beside_entry (m : Model)
  : string * option string * string * JS.number * list HistoryItem * string :=
  (previousValue (state m), operator (state m), history (state m),
   memoryValue (state m), calculationHistory m, currentStrategy m).

(** The application after [inputOperator] has registered an operator. *)
Definition operator_entered (current previous next : string) (w : App) : App :=
  let s := with_operator current previous next (state (model w)) in
  {| model := {| state := s; calculationHistory := calculationHistory (model w);
                 currentStrategy := currentStrategy (model w) |};
     effects := effects w ++ view_updates s |}.

(** ** What the statements about whole calculations use *)

(** The value of a text of decimal digits. *)
Definition decimal_value (text : string) : Z :=
  fold_left (fun acc c => 10 * acc + Z.of_nat (nat_of_ascii c - 48))
    (list_ascii_of_string text) 0.

(** A number as the digit keys type it: one to fifteen digits, with no
    leading zero unless it is the single digit 0. *)
Definition plain_number (keys : list string) : Prop :=
  Forall (fun d => digit_key d = true) keys
  /\ (length keys <= 15)%nat
  /\ match keys with
     | [] => False
     | [_] => True
     | d :: _ => d <> "0"
     end.

(** ** Repository pattern: the storage repository

    [localStorage] is a map from keys to strings.  What JavaScript leaves
    to the host is a parameter: [JSON.stringify] and [JSON.parse] on the
    data stored (each may throw), and whether [setItem] lets a value through
    (it throws when the quota is exceeded, and stores nothing then).
    [getItem] and [removeItem] do not throw.  [window.Logger] may be
    missing: the log is [None] then. *)

Module StorageRepository.
Section Repository.
Context {Data : Type}.
Variable JSON_stringify : Data -> JS.completion string.
Variable JSON_parse : string -> JS.completion Data.
Variable JSON_null : Data.
Variable setItem_fits : string -> string -> gmap string string -> bool.

Record World := {
  localStorage : gmap string string;
  Logger_logs : option (list (string * string))   (* level, message *)
}.

(** [if (window.Logger) window.Logger.getInstance().log('error', message, error)]. *)
Definition log_error (message : string) (w : World) : World :=
  {| localStorage := localStorage w;
     Logger_logs := (fun logs => logs ++ [("error", message)]) <$> Logger_logs w |}.

Definition save (storageKey : string) (data : Data) (w : World) : World * bool :=
  match JSON_stringify data with
  | JS.Throw _ => (log_error "Failed to save data" w, false)
  | JS.Normal text =>
      if setItem_fits storageKey text (localStorage w)
      then ({| localStorage := <[storageKey := text]> (localStorage w);
               Logger_logs := Logger_logs w |}, true)
      else (log_error "Failed to save data" w, false)
  end.

(** [data ? JSON.parse(data) : null]: a missing key and an empty string are
    both falsy. *)
Definition load (storageKey : string) (w : World) : World * Data :=
  match localStorage w !! storageKey with
  | None => (w, JSON_null)
  | Some text =>
      if String.eqb text "" then (w, JSON_null)
      else match JSON_parse text with
           | JS.Normal data => (w, data)
           | JS.Throw _ => (log_error "Failed to load data" w, JSON_null)
           end
  end.

Definition clear (storageKey : string) (w : World) : World * bool :=
  ({| localStorage := delete storageKey (localStorage w);
      Logger_logs := Logger_logs w |}, true).

End Repository.
End StorageRepository.

(** A host to run the repository on: the data are integers, written in
    decimal; a text that is not a run of digits is rejected by
    [JSON.parse]. *)
Module DecimalJSON.

Definition stringify (n : Z) : JS.completion string :=
  if n <? 0 then JS.Throw "not serialisable" else JS.Normal (JS.digits_of_Z n).

Definition parse (text : string) : JS.completion Z :=
  if forallb JS.is_digit (list_ascii_of_string text)
  then JS.Normal (decimal_value text)
  else JS.Throw "Unexpected token".

Definition quota (key value : string) (stored : gmap string string) : bool :=
  (String.length value <=? 8)%nat.

Definition save := StorageRepository.save stringify quota.
Definition load := StorageRepository.load parse (-1).

Definition empty : StorageRepository.World :=
  {| StorageRepository.localStorage := ∅;
     StorageRepository.Logger_logs := Some [] |}.

End DecimalJSON.

(** ** Memory, reset, state transfer and the mode toggle

    These functions of the model and of the controller publish events and
    call the view in ways [Effect] does not list.  Their runs are recorded
    in a longer trace, in which an effect of the functions above is an
    [Earlier] entry; the page also holds the controller's [currentMode]. *)

(** The part of [e.target] the handlers read: its [data-*] attributes
    ([undefined] is [None]). *)
Record Target := {
  dataset_number : option string;
  dataset_operator : option string;
  dataset_action : option string;
  dataset_memory : option string;
  dataset_mode : option string
}.

Inductive Output :=
| Earlier (e : Effect)
| Emit_memoryChanged (memoryValue : JS.number)
| Emit_stateChanged (state : State)
| Emit_reset (currentValue previousValue : string) (operator : option string)
    (isWaitingForOperand : bool) (history : string)
| View_animateButton (target : Target)
| View_toggleScientificMode (isScientific : bool)
| View_updateModeToggles (activeMode : option string)
| Event_preventDefault.

Record Page := {
  page_model : Model;
  currentMode : option string;
  trace : list Output
}.

Module PageMonad.

Definition N (A : Type) : Type := Page -> Page * JS.completion A.

Definition ret {A} (a : A) : N A := fun p => (p, JS.Normal a).

Definition bind {A B} (c : N A) (k : A -> N B) : N B :=
  fun p => match c p with
           | (p', JS.Normal a) => k a p'
           | (p', JS.Throw e) => (p', JS.Throw e)
           end.

(** A function of the earlier sections, run on the page's model; its
    effects join the trace. *)
Definition run {A} (c : M A) : N A :=
  fun p =>
    let '(w, r) := c {| model := page_model p; effects := [] |} in
    ({| page_model := model w; currentMode := currentMode p;
        trace := trace p ++ map Earlier (effects w) |}, r).

Definition output (o : Output) : N unit :=
  fun p => ({| page_model := page_model p; currentMode := currentMode p;
               trace := trace p ++ [o] |}, JS.Normal tt).

Definition read {A} (f : Model -> A) : N A :=
  fun p => (p, JS.Normal (f (page_model p))).

Definition update (f : Model -> Model) : N unit :=
  fun p => ({| page_model := f (page_model p); currentMode := currentMode p;
               trace := trace p |}, JS.Normal tt).

Definition set_currentMode (mode : option string) : N unit :=
  fun p => ({| page_model := page_model p; currentMode := mode;
               trace := trace p |}, JS.Normal tt).

End PageMonad.

Declare Scope page_scope.
Delimit Scope page_scope with page.
Notation "x <- c ;; k" := (PageMonad.bind c (fun x => k))
  (at level 100, c at next level, right associativity) : page_scope.
Notation "c ;; k" := (PageMonad.bind c (fun _ => k))
  (at level 100, right associativity) : page_scope.

Module ModelMemory.
Import PageMonad.
Local Open Scope page_scope.

(** [x || 0] on a number: NaN and both zeros are falsy. *)
Definition or_zero (x : JS.number) : JS.number :=
  if JS.isNaN x || JS.strict_eq x 0%float then 0%float else x.

Definition set_memoryValue (value : JS.number) : N unit :=
  update (set_state (fun s =>
    {| currentValue := currentValue s; previousValue := previousValue s;
       operator := operator s; isWaitingForOperand := isWaitingForOperand s;
       history := history s; memoryValue := value |})).

Definition getMemoryValue : N JS.number := read (fun m => memoryValue (state m)).

Definition memoryStore (value : string) : N unit :=
  set_memoryValue (or_zero (JS.parseFloat value));;
  run CalculatorModel.saveState;;
  memory <- getMemoryValue;;
  output (Emit_memoryChanged memory);;
  run (effect (Logger_log "info" ("Memory stored: " +:+ JS.toString memory))).

Definition memoryRecall : N string :=
  memory <- getMemoryValue;;
  run (effect (Logger_log "info" ("Memory recalled: " +:+ JS.toString memory)));;
  ret (JS.toString memory).

Definition memoryAdd (value : string) : N unit :=
  memory <- getMemoryValue;;
  set_memoryValue (memory + or_zero (JS.parseFloat value))%float;;
  run CalculatorModel.saveState;;
  memory <- getMemoryValue;;
  output (Emit_memoryChanged memory);;
  run (effect (Logger_log "info"
         ("Memory add: " +:+ value +:+ ", new value: " +:+ JS.toString memory))).

Definition memorySubtract (value : string) : N unit :=
  memory <- getMemoryValue;;
  set_memoryValue (memory - or_zero (JS.parseFloat value))%float;;
  run CalculatorModel.saveState;;
  memory <- getMemoryValue;;
  output (Emit_memoryChanged memory);;
  run (effect (Logger_log "info"
         ("Memory subtract: " +:+ value +:+ ", new value: " +:+ JS.toString memory))).

Definition memoryClear : N unit :=
  set_memoryValue 0%float;;
  run CalculatorModel.saveState;;
  memory <- getMemoryValue;;
  output (Emit_memoryChanged memory);;
  run (effect (Logger_log "info" "Memory cleared")).

Definition getState : N State := read state.

Definition setState (s : State) : N unit :=
  update (set_state (fun _ =>
    {| currentValue := currentValue s; previousValue := previousValue s;
       operator := operator s; isWaitingForOperand := isWaitingForOperand s;
       history := history s; memoryValue := memoryValue s |}));;
  output (Emit_stateChanged s).

Definition reset : N unit :=
  old <- read state;;
  update (set_state (fun s =>
    {| currentValue := "0"; previousValue := ""; operator := None;
       isWaitingForOperand := false; history := "";
       memoryValue := memoryValue s |}));;
  output (Emit_reset (currentValue old) (previousValue old) (operator old)
            (isWaitingForOperand old) (history old));;
  run (effect (Logger_log "info" "Calculator reset")).

End ModelMemory.

Module ControllerHandlers.
Import PageMonad.
Local Open Scope page_scope.

(** A template literal prints [undefined] for a missing attribute. *)
Definition template (value : option string) : string := default "undefined" value.

Definition handleMemoryClick (target : Target) : N unit :=
  let action := dataset_memory target in
  current <- run CalculatorModel.getCurrentValue;;
  output (View_animateButton target);;
  if bool_decide (action = Some "clear") then
    ModelMemory.memoryClear;;
    run (effect (View_showToast "Memory cleared" "success"))
  else if bool_decide (action = Some "recall") then
    recalled <- ModelMemory.memoryRecall;;
    run (CalculatorModel.setCurrentValue recalled);;
    run (CalculatorModel.setWaitingForOperand true);;
    run CalculatorController.updateView;;
    run (effect (View_showToast "Memory recalled" "success"))
  else if bool_decide (action = Some "add") then
    ModelMemory.memoryAdd current;;
    run (effect (View_showToast "Added to memory" "success"))
  else if bool_decide (action = Some "subtract") then
    ModelMemory.memorySubtract current;;
    run (effect (View_showToast "Subtracted from memory" "success"))
  else ret tt.

Definition handleModeToggle (target : Target) : N unit :=
  let mode := dataset_mode target in
  let isScientific := bool_decide (mode = Some "scientific") in
  set_currentMode mode;;
  run (ModelAPI.setStrategy (if isScientific then "scientific" else "basic"));;
  output (View_toggleScientificMode isScientific);;
  output (View_updateModeToggles mode);;
  run (effect (View_showToast (template mode +:+ " mode activated") "success")).

End ControllerHandlers.

(** The page of an application state, and the application state of a
    page, with an empty trace. *)
Definition page_of (w : App) : Page :=
  {| page_model := model w; currentMode := Some "basic";
     trace := map Earlier (effects w) |}.

Definition app_state (p : Page) : App :=
  {| model := page_model p; effects := [] |}.

(** The store of the examples of a throwing command: command 0 adds 1,
    command 1 asks for an operation the calculator does not have. *)
Definition store_with_unknown_operation : @CommandHistory.Store Z Z string Z :=
  {| CommandHistory.calculator := 0;
     CommandHistory.heap :=
       <[1%nat := {| CommandHistory.operation := "sub";
                     CommandHistory.operand := 1;
                     CommandHistory.previousState := None |}]>
         (<[0%nat := Accumulator.add 1]> ∅);
     CommandHistory.this := CommandHistory.new |}.

(** The model with another memory value. *)
Definition with_memoryValue (memory : JS.number) (m : Model) : Model :=
  set_state (fun s =>
    {| currentValue := currentValue s; previousValue := previousValue s;
       operator := operator s; isWaitingForOperand := isWaitingForOperand s;
       history := history s; memoryValue := memory |}) m.

(** The page after a memory operation has stored [memory], saved, published
    and logged. *)
Definition memory_changed (memory : JS.number) (message : string) (p : Page) : Page :=
  {| page_model := with_memoryValue memory (page_model p);
     currentMode := currentMode p;
     trace := trace p
              ++ [Earlier (Storage_save memory (calculationHistory (page_model p)));
                  Emit_memoryChanged memory;
                  Earlier (Logger_log "info" message)] |}.

(** Everything the model holds besides the memory. *)
Definition beside_memory (m : Model)
  : string * string * option string * bool * string * list HistoryItem * string :=
  (currentValue (state m), previousValue (state m), operator (state m),
   isWaitingForOperand (state m), history (state m), calculationHistory m,
   currentStrategy m).

(** What the trace saved to the storage repository, oldest first. *)
Definition saves (outputs : list Output) : list (JS.number * list HistoryItem) :=
  omap (fun o => match o with
                 | Earlier (Storage_save memory log) => Some (memory, log)
                 | _ => None
                 end) outputs.

(** The four memory operations that change the memory. *)
Inductive MemoryOperation :=
| MemoryStore (value : string)
| MemoryAdd (value : string)
| MemorySubtract (value : string)
| MemoryClear.

Definition memory_operation (o : MemoryOperation) : PageMonad.N unit :=
  match o with
  | MemoryStore value => ModelMemory.memoryStore value
  | MemoryAdd value => ModelMemory.memoryAdd value
  | MemorySubtract value => ModelMemory.memorySubtract value
  | MemoryClear => ModelMemory.memoryClear
  end.

(** The operations on the calculation log. *)
Inductive LogOperation :=
| AddToHistory (t : Clock) (expression result : string)
| ClearHistory.

Definition log_operation `{Host} (o : LogOperation) (w : App) : App :=
  match o with
  | AddToHistory t expression result =>
      fst (CalculatorModel.addCalculationToHistory t expression result w)
  | ClearHistory => fst (ModelAPI.clearHistory w)
  end.

Definition log_operations `{Host} (os : list LogOperation) (w : App) : App :=
  fold_left (fun w o => log_operation o w) os w.

(** What the effects saved to the storage repository, oldest first. *)
Definition saved (es : list Effect) : list (JS.number * list HistoryItem) :=
  omap (fun e => match e with
                 | Storage_save memory log => Some (memory, log)
                 | _ => None
                 end) es.

(** ** The dispatchers: keypad clicks and key presses

    The handlers are arrow functions of the object literal the controller's
    closure returns, so [this] in them is the [this] of the enclosing
    script and not the controller: what [this.deleteLast()],
    [this.inputDecimal()] and [this.undo()] do is not decided by these
    sources.  It is a parameter, [call_on_this]. *)

(** The part of a [keydown] event the handler reads. *)
Module KeyboardEvent.
Record t := { key : string; ctrlKey : bool }.
End KeyboardEvent.

Module ControllerDispatch.
Import PageMonad.
Local Open Scope page_scope.

(** [/[0-9+\-*/.=]/.test(key)]: the class matches somewhere in [key]. *)
Definition calculator_key (key : string) : bool :=
  existsb (fun c => JS.is_digit c
                    || existsb (Ascii.eqb c) ["+"; "-"; "*"; "/"; "."; "="]%char)
    (list_ascii_of_string key).

(** [array.includes(key)] on an array of strings. *)
Definition includes (array : list string) (key : string) : bool :=
  existsb (String.eqb key) array.

Section WithThis.
Context `{Host}.
Variable call_on_this : string -> N unit.

Definition handleKeypadClick (t : Clock) (target : Target) : N unit :=
  output (View_animateButton target);;
  if CalculatorController.truthy (dataset_number target) then
    run (CalculatorController.inputNumber (default "" (dataset_number target)))
  else if CalculatorController.truthy (dataset_operator target) then
    run (CalculatorController.inputOperator (default "" (dataset_operator target)))
  else if CalculatorController.truthy (dataset_action target) then
    let action := default "" (dataset_action target) in
    if String.eqb action "clear" then ModelMemory.reset
    else if String.eqb action "delete" then call_on_this "deleteLast"
    else if String.eqb action "decimal" then call_on_this "inputDecimal"
    else if String.eqb action "equals" then run (CalculatorController.calculate t)
    else if String.eqb action "undo" then call_on_this "undo"
    else ret tt
  else ret tt.

(** Strings compare by code units, so [key >= '0' && key <= '9'] is the
    lexicographic order. *)
Definition handleKeyboard (t : Clock) (e : KeyboardEvent.t) : N unit :=
  let key := KeyboardEvent.key e in
  (if calculator_key key || includes ["Enter"; "Escape"; "Backspace"] key
   then output Event_preventDefault else ret tt);;
  if String.leb "0" key && String.leb key "9" then
    run (CalculatorController.inputNumber key)
  else if includes ["+"; "-"; "*"; "/"; "%"] key then
    run (CalculatorController.inputOperator key)
  else if String.eqb key "Enter" || String.eqb key "=" then
    run (CalculatorController.calculate t)
  else if String.eqb key "Escape" then ModelMemory.reset
  else if String.eqb key "Backspace" then call_on_this "deleteLast"
  else if String.eqb key "." then call_on_this "inputDecimal"
  else if KeyboardEvent.ctrlKey e && String.eqb key "z" then call_on_this "undo"
  else ret tt.

End WithThis.
End ControllerDispatch.

(** A click target of the keypad. *)
Definition number_key (d : string) : Target :=
  {| dataset_number := Some d; dataset_operator := None; dataset_action := None;
     dataset_memory := None; dataset_mode := None |}.

Definition operator_key (op : string) : Target :=
  {| dataset_number := None; dataset_operator := Some op; dataset_action := None;
     dataset_memory := None; dataset_mode := None |}.

Definition action_key (action : string) : Target :=
  {| dataset_number := None; dataset_operator := None; dataset_action := Some action;
     dataset_memory := None; dataset_mode := None |}.

(** The [keydown] event of a key. *)
Definition key_of (ctrl : bool) (key : string) : KeyboardEvent.t :=
  {| KeyboardEvent.key := key; KeyboardEvent.ctrlKey := ctrl |}.

(** Clicks on the keypad, one after the other. *)
Definition click_all `{Host} (call_on_this : string -> PageMonad.N unit) (t : Clock)
  (targets : list Target) (p : Page) : Page :=
  fold_left
    (fun p target => fst (ControllerDispatch.handleKeypadClick call_on_this t target p))
    targets p.

(** The buttons of a calculation [a op b =]. *)
Definition calculation_clicks (a : list string) (op : string) (b : list string)
  : list Target :=
  map number_key a ++ [operator_key op] ++ map number_key b ++ [action_key "equals"].

(** ** What the statements about decimal strings use *)

(** Where the search starts: never below the trailing zeros of an integer
    of [d] bits. *)
Definition bound_covers (d tz : nat) : bool :=
  (2 ^ Z.of_nat d <? 10 ^ Z.of_nat tz)
  || (Z.of_nat tz <=? (Z.of_nat d + 1) * 30103 / 100000 + 1).

(** * Properties *)

(** ** The built-ins on values whose JavaScript results are known *)

Example toString_known :
  map JS.toString
    [0%float; (-0)%float; 1000%float; 0.5%float; (JS.parseFloat "0.1" + JS.parseFloat "0.2")%float;
     123456789012%float; (-123456789012)%float; 1e21%float; 1.5e21%float;
     0x1p64%float; JS.parseFloat "1e-7"; 0x1p-1074%float; 0x1.fffffffffffffp+1023%float;
     PrimFloat.nan; PrimFloat.infinity]
  = ["0"; "0"; "1000"; "0.5"; "0.30000000000000004";
     "123456789012"; "-123456789012"; "1e+21"; "1.5e+21";
     "18446744073709552000"; "1e-7"; "5e-324"; "1.7976931348623157e+308";
     "NaN"; "Infinity"].
Proof. vm_compute. reflexivity. Qed.

Example toExponential_known :
  map (fun x => JS.toExponential x 5)
    [0%float; 1000%float; 1234567890123%float; (-123456789012)%float;
     (JS.parseFloat "0.1" + JS.parseFloat "0.2")%float; 123455.5%float; 999999.5%float]
  = ["0.00000e+0"; "1.00000e+3"; "1.23457e+12"; "-1.23457e+11";
     "3.00000e-1"; "1.23456e+5"; "1.00000e+6"].
Proof. vm_compute. reflexivity. Qed.

Example parseFloat_known :
  map (fun text => JS.toString (JS.parseFloat text))
    ["0"; "12.5"; "  7"; "-.5e1"; "1,000"; "1.23457e+11"; "0.30000000000000004";
     "9007199254740993"; "1e400"; "Infinity"; "5."; "."; ""; "abc"]
  = ["0"; "12.5"; "7"; "-5"; "1"; "123457000000"; "0.30000000000000004";
     "9007199254740992"; "Infinity"; "Infinity"; "5"; "NaN"; "NaN"; "NaN"].
Proof. vm_compute. reflexivity. Qed.

Example toLocaleString_enUS_known :
  map JS.toLocaleString_enUS
    [1000%float; (-1234567)%float; 999%float; 1e21%float; JS.parseFloat "1234.5678";
     JS.parseFloat "0.0004"]
  = ["1,000"; "-1,234,567"; "999"; "1,000,000,000,000,000,000,000";
     "1,234.568"; "0"].
Proof. vm_compute. reflexivity. Qed.

Example rem_known :
  map JS.toString
    [JS.rem 5.5%float 2%float; JS.rem (-5.5)%float 2%float;
     JS.rem 0%float 0%float; JS.rem 7%float PrimFloat.infinity]
  = ["1.5"; "-1.5"; "NaN"; "7"].
Proof. vm_compute. reflexivity. Qed.

(** ** The strategy tables *)

Section StrategyProperties.
Context `{Host}.

Lemma calculate_eq (op : string) (a b : JS.number) (w : App) :
  CalculatorModel.calculate op a b w =
  match apply_operation (currentStrategy (model w)) op a b with
  | JS.Normal r =>
      (log_effect (Logger_log "info"
         ("Calculation: " +:+ JS.toString a +:+ " " +:+ op +:+ " "
          +:+ JS.toString b +:+ " = " +:+ JS.toString r)) w, JS.Normal r)
  | JS.Throw e => (log_effect (Logger_log "error" "Calculation error") w, JS.Throw e)
  end.
Proof.
  unfold CalculatorModel.calculate, apply_operation, try_catch, bind, read, lift,
    throw, effect, ret, log_effect.
  destruct (CalculationStrategies.operations _) as [ops|]; [|reflexivity].
  destruct (ops op) as [f|]; [|reflexivity].
  destruct (f a b); reflexivity.
Qed.

Lemma scientificCalculate_eq (func : string) (value : JS.number) (w : App) :
  CalculatorModel.scientificCalculate func value w =
  match apply_function func value with
  | JS.Normal r =>
      (log_effect (Logger_log "info"
         ("Scientific calculation: " +:+ func +:+ "(" +:+ JS.toString value
          +:+ ") = " +:+ JS.toString r)) w, JS.Normal r)
  | JS.Throw e =>
      (log_effect (Logger_log "error" "Scientific calculation error") w, JS.Throw e)
  end.
Proof.
  unfold CalculatorModel.scientificCalculate, apply_function, try_catch, bind,
    lift, throw, effect, ret, log_effect.
  destruct (CalculationStrategies.scientific_operations func) as [f|]; [|reflexivity].
  destruct (f value); reflexivity.
Qed.

End StrategyProperties.

(** C6.  In the basic strategy, [calculate('/', a, b)] signals
    "Division by zero" if and only if [b === 0], and otherwise returns
    [a / b]; [calculate('/', 5, 0)] signals it and [calculate('+', 2, 3)]
    returns 5.  The model itself is left as it was. *)
Theorem calculate_division_by_zero (H : Host) (w : App) (a b : JS.number) :
  currentStrategy (model w) = "basic" ->
  (snd (CalculatorModel.calculate "/" a b w) = JS.Throw "Division by zero"
   <-> JS.strict_eq b 0%float = true)
  /\ (JS.strict_eq b 0%float = false ->
      snd (CalculatorModel.calculate "/" a b w) = JS.Normal (a / b)%float)
  /\ snd (CalculatorModel.calculate "/" 5%float 0%float w)
     = JS.Throw "Division by zero"
  /\ snd (CalculatorModel.calculate "+" 2%float 3%float w) = JS.Normal 5%float
  /\ model (fst (CalculatorModel.calculate "/" a b w)) = model w.
Proof.
  intros Hbasic.
  rewrite !calculate_eq. unfold apply_operation. rewrite Hbasic.
  cbn.
  destruct (JS.strict_eq b 0%float) eqn:Hb; cbn; repeat split;
    try reflexivity; try discriminate.
Qed.

Lemma calculate_division_by_zero_witness :
  currentStrategy (model (app_of initial_state)) = "basic"
  /\ snd (CalculatorModel.calculate (H := enUS_host) "/" 5%float 0%float
            (app_of initial_state))
     = JS.Throw "Division by zero"
  /\ snd (CalculatorModel.calculate (H := enUS_host) "/" 1%float 4%float
            (app_of initial_state))
     = JS.Normal 0.25%float.
Proof.
  split; [reflexivity | split].
  - apply (proj1 (calculate_division_by_zero enUS_host (app_of initial_state)
                    5%float 0%float eq_refl)).
    reflexivity.
  - apply (proj1 (proj2 (calculate_division_by_zero enUS_host
                           (app_of initial_state) 1%float 4%float eq_refl))).
    reflexivity.
Defined.

(** ** The factorial *)

Lemma factorial_loop_exit_sound (fuel : nat) :
  forall (x i result v : JS.number),
    factorial_loop_exit fuel x i result = Some v ->
    forall extra : nat,
      CalculationStrategies.factorial_loop (fuel + extra) x i result = v.
Proof.
  induction fuel as [|fuel IH]; intros x i result v Hexit extra.
  - discriminate.
  - cbn in *. destruct (JS.le i x).
    + apply IH. exact Hexit.
    + congruence.
Qed.

Lemma factorial_value_checked_upto_170 :
  forallb factorial_value_checked (seq 0 171) = true.
Proof. vm_compute. reflexivity. Qed.

Lemma factorial_loop_checked_upto_170 :
  forallb factorial_loop_checked (seq 2 169) = true.
Proof. vm_compute. reflexivity. Qed.

Lemma factorial_value (n : nat) :
  (n <= 170)%nat ->
  exists (r : JS.number) (v : Z),
    CalculationStrategies.factorial (JS.of_Z (Z.of_nat n)) = JS.Normal r
    /\ JS.isFinite r = true
    /\ integer_value r = Some v
    /\ Z.abs (v - Zfactorial n) * 2 ^ 50 <= Zfactorial n
    /\ ((n <= 22)%nat -> v = Zfactorial n).
Proof.
  intros Hn.
  pose proof factorial_value_checked_upto_170 as Hall.
  rewrite forallb_forall in Hall.
  specialize (Hall n). unfold factorial_value_checked in Hall.
  assert (Hin : In n (seq 0 171)) by (apply in_seq; lia).
  apply Hall in Hin. clear Hall.
  destruct (CalculationStrategies.factorial _) as [r|] eqn:Hr; [|discriminate Hin].
  apply andb_prop in Hin as [Hfin Hin].
  destruct (integer_value r) as [v|] eqn:Hv; [|discriminate Hin].
  apply andb_prop in Hin as [Hbound Hexact].
  exists r, v. repeat split; auto.
  - apply Z.leb_le. exact Hbound.
  - intros Hsmall. apply orb_prop in Hexact as [Hbig | Heq].
    + apply Nat.ltb_lt in Hbig. lia.
    + apply Z.eqb_eq. exact Heq.
Qed.

Lemma factorial_loop_leaves (n : nat) (r : JS.number) :
  (2 <= n <= 170)%nat ->
  CalculationStrategies.factorial (JS.of_Z (Z.of_nat n)) = JS.Normal r ->
  forall extra : nat,
    CalculationStrategies.factorial_loop (170 + extra) (JS.of_Z (Z.of_nat n))
      2%float 1%float = r.
Proof.
  intros Hn Hr extra.
  pose proof factorial_loop_checked_upto_170 as Hall.
  rewrite forallb_forall in Hall.
  assert (Hin : In n (seq 2 169)) by (apply in_seq; lia).
  apply Hall in Hin. unfold factorial_loop_checked in Hin.
  apply andb_prop in Hin as [Hin Hexit]. apply andb_prop in Hin as [Hguard Hshort].
  apply negb_true_iff in Hguard, Hshort.
  unfold CalculationStrategies.factorial in Hr.
  rewrite Hguard, Hshort in Hr. injection Hr as <-.
  destruct (factorial_loop_exit 170 _ _ _) as [r'|] eqn:Hloop; [|discriminate].
  rewrite (factorial_loop_exit_sound _ _ _ _ _ Hloop extra).
  symmetry. apply (factorial_loop_exit_sound _ _ _ _ _ Hloop 0%nat).
Qed.

Lemma factorial_is_double_product_upto_170 :
  Forall (fun n => CalculationStrategies.factorial (JS.of_Z (Z.of_nat n))
                   = JS.Normal (double_product n))
         (seq 0 171).
Proof.
  cbv [seq]. repeat (constructor; [vm_compute; reflexivity|]). constructor.
Qed.

Lemma factorial_is_double_product (n : nat) :
  (n <= 170)%nat ->
  CalculationStrategies.factorial (JS.of_Z (Z.of_nat n))
  = JS.Normal (double_product n).
Proof.
  intros Hn. pose proof factorial_is_double_product_upto_170 as Hall.
  rewrite Forall_forall in Hall. apply Hall.
  apply list_elem_of_In, in_seq. lia.
Qed.

Lemma factorial_guard (x : JS.number) :
  CalculationStrategies.factorial x = JS.Throw "Invalid factorial input"
  <-> (JS.lt x 0%float = true \/ JS.Number_isInteger x = false
       \/ JS.gt x 170%float = true).
Proof.
  unfold CalculationStrategies.factorial.
  destruct (JS.lt x 0%float), (JS.Number_isInteger x), (JS.gt x 170%float); cbn;
    try (split; [intros _; tauto | intros _; reflexivity]);
    (split; [intros Hthrow | intros [Hf | [Hf | Hf]]; discriminate]);
    destruct (JS.strict_eq x 0%float || JS.strict_eq x 1%float); discriminate.
Qed.

Lemma apply_function_factorial (H : Host) (x : JS.number) :
  apply_function "factorial" x = CalculationStrategies.factorial x.
Proof. reflexivity. Qed.

(** C7, as stated, fails.  [factorial(28)] is a double that is not [28!]:
    it is not even the double nearest to [28!], so the comparison
    [factorial(28) === 304888344611713860501504000000] is false. *)
Lemma factorial_28_is_not_28_factorial :
  exists r : JS.number,
    snd (CalculatorModel.scientificCalculate (H := enUS_host) "factorial"
           (JS.of_Z 28) (app_of initial_state)) = JS.Normal r
    /\ integer_value r <> Some (Zfactorial 28)
    /\ JS.strict_eq r (JS.of_Z (Zfactorial 28)) = false.
Proof.
  exists (CalculationStrategies.factorial_loop 170 (JS.of_Z 28) 2%float 1%float).
  split; [|split].
  - vm_compute. reflexivity.
  - vm_compute. discriminate.
  - vm_compute. reflexivity.
Qed.

(** C7, amended.  [scientificCalculate('factorial', x)] signals
    "Invalid factorial input" exactly when [x < 0], [x] is not an integer or
    [x > 170].  For every integer [n] from 0 to 170 it returns the product
    [1 * 2 * ... * n] accumulated in double precision (1 for [n = 0]): a
    finite double, an integer within [2^-50] of [n!] relatively, and [n!]
    itself up to [n = 22]; from 2 on the loop leaves by its own test,
    whatever fuel is added.  Factorial of 171 signals the error, factorial
    of 5 is 120. *)
Theorem factorial_domain_and_value (H : Host) (w : App) :
  (forall x : JS.number,
     snd (CalculatorModel.scientificCalculate "factorial" x w)
       = JS.Throw "Invalid factorial input"
     <-> (JS.lt x 0%float = true \/ JS.Number_isInteger x = false
          \/ JS.gt x 170%float = true))
  /\ (forall n : nat, (n <= 170)%nat ->
      exists (r : JS.number) (v : Z),
        snd (CalculatorModel.scientificCalculate "factorial"
               (JS.of_Z (Z.of_nat n)) w) = JS.Normal r
        /\ r = double_product n
        /\ JS.isFinite r = true
        /\ integer_value r = Some v
        /\ Z.abs (v - Zfactorial n) * 2 ^ 50 <= Zfactorial n
        /\ ((n <= 22)%nat -> v = Zfactorial n)
        /\ ((2 <= n)%nat -> forall extra : nat,
              CalculationStrategies.factorial_loop (170 + extra)
                (JS.of_Z (Z.of_nat n)) 2%float 1%float = r))
  /\ snd (CalculatorModel.scientificCalculate "factorial" 171%float w)
     = JS.Throw "Invalid factorial input"
  /\ snd (CalculatorModel.scientificCalculate "factorial" 5%float w)
     = JS.Normal 120%float.
Proof.
  assert (Hsnd : forall x,
    snd (CalculatorModel.scientificCalculate "factorial" x w)
    = CalculationStrategies.factorial x).
  { intros x. rewrite scientificCalculate_eq, apply_function_factorial.
    destruct (CalculationStrategies.factorial x); reflexivity. }
  split; [|split; [|split]].
  - intros x. rewrite Hsnd. apply factorial_guard.
  - intros n Hn. destruct (factorial_value n Hn) as (r & v & Hr & Hfin & Hv & Hb & He).
    exists r, v. rewrite Hsnd. repeat split; auto.
    + pose proof (factorial_is_double_product n Hn) as Hproduct.
      congruence.
    + intros H2 extra. apply factorial_loop_leaves; [lia | exact Hr].
  - rewrite Hsnd. vm_compute. reflexivity.
  - rewrite Hsnd. vm_compute. reflexivity.
Qed.

Lemma factorial_domain_and_value_witness :
  (5 <= 170)%nat
  /\ exists (r : JS.number) (v : Z),
       snd (CalculatorModel.scientificCalculate (H := enUS_host) "factorial"
              (JS.of_Z (Z.of_nat 5)) (app_of initial_state)) = JS.Normal r
       /\ integer_value r = Some v /\ v = 120.
Proof.
  split; [lia |].
  destruct (proj1 (proj2 (factorial_domain_and_value enUS_host (app_of initial_state)))
              5%nat ltac:(lia))
    as (r & v & Hr & _ & _ & Hv & _ & Hexact & _).
  exists r, v. repeat split; auto.
  rewrite Hexact by lia. reflexivity.
Defined.

(** ** The number formatter *)

(** C9, as stated, fails.  [1.5e21] is at least 1000 and has no fractional
    part, but its decimal string ["1.5e+21"] has a point and is returned as
    it is; [-123456789012] has a magnitude of 12 characters, but the minus
    sign makes its string 13 long and it is formatted exponentially. *)
Lemma formatNumber_differs_from_statement :
  CalculatorModel.formatNumber (H := enUS_host) 1.5e21%float
    = JS.Normal "1.5e+21"
  /\ formatNumber_as_stated (H := enUS_host) 1.5e21%float
    = JS.Normal "1,500,000,000,000,000,000,000"
  /\ CalculatorModel.formatNumber (H := enUS_host) (-123456789012)%float
    = JS.Normal "-1.23457e+11"
  /\ formatNumber_as_stated (H := enUS_host) (-123456789012)%float
    = JS.Normal "-123,456,789,012".
Proof. repeat split; vm_compute; reflexivity. Qed.

(** C9, amended.  The formatter fails with "Invalid number" on NaN and on
    the infinities.  Otherwise it goes by the plain decimal string of the
    number, sign, point and exponent included: exponential notation with 5
    fractional digits when that string is longer than 12 characters; the
    locale's grouping when it is not, the magnitude is at least 1000 and the
    string has no decimal point; the string itself in the remaining cases.
    So 1000 is formatted by the locale (["1,000"] in en-US) and
    1234567890123 as ["1.23457e+12"]. *)
Theorem formatNumber_cases (H : Host) (v : JS.number) :
  ((JS.isNaN v = true \/ JS.isFinite v = false) ->
   CalculatorModel.formatNumber v = JS.Throw "Invalid number")
  /\ (JS.isNaN v = false -> JS.isFinite v = true ->
      ((12 < String.length (JS.toString v))%nat ->
       CalculatorModel.formatNumber v = JS.Normal (JS.toExponential v 5))
      /\ ((String.length (JS.toString v) <= 12)%nat ->
          JS.ge (JS.Math_abs v) 1000%float = true ->
          has_decimal_point (JS.toString v) = false ->
          CalculatorModel.formatNumber v = JS.Normal (toLocaleString v))
      /\ ((String.length (JS.toString v) <= 12)%nat ->
          (JS.ge (JS.Math_abs v) 1000%float = false
           \/ has_decimal_point (JS.toString v) = true) ->
          CalculatorModel.formatNumber v = JS.Normal (JS.toString v)))
  /\ CalculatorModel.formatNumber 1000%float = JS.Normal (toLocaleString 1000%float)
  /\ JS.toLocaleString_enUS 1000%float = "1,000"
  /\ CalculatorModel.formatNumber 1234567890123%float = JS.Normal "1.23457e+12".
Proof.
  unfold CalculatorModel.formatNumber.
  split; [|split; [|split; [|split]]].
  - intros [-> | ->]; [reflexivity | rewrite orb_true_r; reflexivity].
  - intros -> ->. cbn [orb negb].
    fold (has_decimal_point (JS.toString v)).
    split; [|split].
    + intros Hlong. apply Nat.ltb_lt in Hlong. rewrite Hlong. reflexivity.
    + intros Hshort -> ->. apply Nat.ltb_ge in Hshort. rewrite Hshort. reflexivity.
    + intros Hshort Hplain. apply Nat.ltb_ge in Hshort. rewrite Hshort.
      destruct Hplain as [-> | ->]; [reflexivity | rewrite andb_false_r; reflexivity].
  - vm_compute. reflexivity.
  - vm_compute. reflexivity.
  - vm_compute. reflexivity.
Qed.

Lemma formatNumber_cases_witness :
  (String.length (JS.toString 1000%float) <= 12)%nat
  /\ CalculatorModel.formatNumber (H := enUS_host) 1000%float = JS.Normal "1,000".
Proof.
  split; [vm_compute; lia |].
  destruct (formatNumber_cases enUS_host 1000%float) as (_ & Hfinite & _).
  destruct (Hfinite eq_refl eq_refl) as (_ & Hgroup & _).
  rewrite Hgroup; [reflexivity | vm_compute; lia | reflexivity | reflexivity].
Defined.

(** ** The calculation log *)

Lemma addToHistory_eq (t : Clock) (expression result : string) (w : App) :
  let log := take 100 (historyItem (t, expression, result)
                         :: calculationHistory (model w)) in
  CalculatorModel.addToHistory t expression result w =
  ({| model := set_calculationHistory log (model w);
      effects := (effects w
                  ++ [Storage_save (memoryValue (state (model w))) log;
                      Emit_historyUpdated log]) |}, JS.Normal tt).
Proof.
  unfold CalculatorModel.addToHistory, CalculatorModel.saveState, bind, update,
    read, effect, ret, historyItem.
  cbn -[take Nat.ltb].
  set (item := {| id := _ |}).
  destruct (100 <? S (length (calculationHistory (model w))))%nat eqn:Hlen;
    cbn -[take].
  - rewrite <- app_assoc. reflexivity.
  - apply Nat.ltb_ge in Hlen.
    rewrite (take_ge (item :: _)) by (cbn; lia).
    rewrite <- app_assoc. destruct w as [[? ? ?] ?]; reflexivity.
Qed.

Lemma addAllToHistory_from (entries : list (Clock * string * string)) :
  forall (w : App) (inserted : list HistoryItem),
    calculationHistory (model w) = take 100 inserted ->
    calculationHistory (model (addAllToHistory entries w)) =
    take 100 (rev (map historyItem entries) ++ inserted).
Proof.
  induction entries as [|[[t e] r] entries IH]; intros w inserted Hlog.
  - exact Hlog.
  - cbn [addAllToHistory fold_left map rev].
    rewrite <- app_assoc. cbn [app].
    apply IH. rewrite addToHistory_eq. cbn [fst model calculationHistory set_calculationHistory].
    rewrite Hlog. change 100%nat with (S 99).
    cbn [take]. rewrite take_take. f_equal.
Qed.

Lemma addAllToHistory_log (entry : Clock * string * string)
  (entries : list (Clock * string * string)) (w : App) :
  calculationHistory (model (addAllToHistory (entry :: entries) w)) =
  take 100 (rev (map historyItem (entry :: entries))
            ++ calculationHistory (model w)).
Proof.
  destruct entry as [[t e] r].
  cbn [addAllToHistory fold_left map rev].
  rewrite <- app_assoc. cbn [app].
  apply addAllToHistory_from. rewrite addToHistory_eq. reflexivity.
Qed.

(** ** The controller, run symbolically *)

Ltac run_js :=
  unfold bind, ret, throw, lift, effect, read, update, try_catch, log_effect;
  cbn -[take];
  rewrite <- ?app_assoc; cbn -[take];
  try reflexivity.

Ltac find_effect :=
  first [ reflexivity | left; find_effect | right; find_effect ].

Section ControllerProperties.
Context `{Host}.

Lemma controller_formatNumber_eq (r : JS.number) (w : App) :
  CalculatorController.formatNumber r w =
  (match CalculatorModel.formatNumber r with
   | JS.Normal _ => w
   | JS.Throw _ => log_effect (View_showError "Invalid number") w
   end, JS.Normal (formatted_or_zero r)).
Proof.
  unfold CalculatorController.formatNumber, formatted_or_zero.
  destruct (CalculatorModel.formatNumber r); run_js.
Qed.

Lemma evaluation_tail (t : Clock) (expression formatted : string) (w : App) :
  (CalculatorModel.addCalculationToHistory t expression formatted;;
   CalculatorModel.setCurrentValue formatted;;
   CalculatorModel.setPreviousValue "";;
   CalculatorModel.setOperator None;;
   CalculatorModel.setWaitingForOperand true;;
   CalculatorModel.setHistory (expression +:+ " =");;
   CalculatorController.updateView;;
   effect (View_announceToScreenReader ("Result: " +:+ formatted)))%js w
  = (evaluated t expression formatted w, JS.Normal tt).
Proof.
  unfold bind at 1. unfold CalculatorModel.addCalculationToHistory.
  rewrite addToHistory_eq. cbv zeta. unfold evaluated. run_js.
Qed.

(** [calculate()] in one equation: a no-op without a pending operator, a
    previous value or a current number; an error shown when the operation
    throws; the evaluation otherwise. *)
Lemma controller_calculate_eq (t : Clock) (w : App) :
  CalculatorController.calculate t w =
  let s := state (model w) in
  let current := JS.parseFloat (currentValue s) in
  match operator s with
  | None => (w, JS.Normal tt)
  | Some op =>
      if String.eqb (previousValue s) "" || JS.isNaN current then (w, JS.Normal tt)
      else
        match apply_operation (currentStrategy (model w)) op
                (JS.parseFloat (previousValue s)) current with
        | JS.Throw message =>
            (log_effect (View_showError message)
               (log_effect (Logger_log "error" "Calculation error") w),
             JS.Normal tt)
        | JS.Normal r =>
            (evaluated t
               (previousValue s +:+ " " +:+ op +:+ " " +:+ JS.toString current)
               (formatted_or_zero r)
               (fst (CalculatorController.formatNumber r
                       (fst (CalculatorModel.calculate op
                               (JS.parseFloat (previousValue s)) current w)))),
             JS.Normal tt)
        end
  end.
Proof.
  cbv zeta.
  unfold CalculatorController.calculate, try_catch.
  unfold bind at 1. unfold CalculatorModel.getCurrentValue at 1. unfold read at 1.
  unfold bind at 1. unfold CalculatorModel.getPreviousValue at 1. unfold read at 1.
  unfold bind at 1. unfold CalculatorModel.getOperator at 1. unfold read at 1.
  destruct (operator (state (model w))) as [op|]; [|reflexivity].
  destruct (_ || _); [reflexivity|].
  unfold bind at 1. rewrite calculate_eq.
  destruct (apply_operation _ _ _ _) as [r|message]; [|run_js].
  cbn [fst snd]. unfold bind at 1. rewrite !controller_formatNumber_eq.
  cbn [fst snd]. rewrite evaluation_tail. reflexivity.
Qed.

Lemma scientific_tail (t : Clock) (func : string) (r : JS.number) (w : App) :
  (formatted <- CalculatorController.formatNumber r;;
   CalculatorModel.setCurrentValue formatted;;
   CalculatorModel.setWaitingForOperand true;;
   shown <- CalculatorModel.getCurrentValue;;
   CalculatorModel.addCalculationToHistory t
     (if String.eqb func "pi" || String.eqb func "e" then func
      else func +:+ "(" +:+ shown +:+ ")") formatted;;
   CalculatorController.updateView;;
   effect (View_announceToScreenReader (func +:+ " result: " +:+ formatted)))%js w
  = (evaluated_scientific t func (formatted_or_zero r)
       (fst (CalculatorController.formatNumber r w)), JS.Normal tt).
Proof.
  unfold bind at 1. rewrite !controller_formatNumber_eq. cbn [fst snd].
  set (w' := match CalculatorModel.formatNumber r with
             | JS.Normal _ => w | JS.Throw _ => _ end).
  unfold CalculatorModel.addCalculationToHistory.
  unfold bind, CalculatorModel.setCurrentValue, CalculatorModel.setWaitingForOperand,
    CalculatorModel.getCurrentValue, update, effect at 1 2, read.
  cbn -[CalculatorModel.addToHistory take CalculatorController.updateView].
  rewrite addToHistory_eq. cbv zeta.
  unfold evaluated_scientific. run_js.
Qed.

(** [performScientificFunction(func)] in one equation. *)
Lemma performScientificFunction_eq (t : Clock) (func : string) (w : App) :
  CalculatorController.performScientificFunction t func w =
  let w0 := log_effect View_clearError w in
  let current := JS.parseFloat (currentValue (state (model w))) in
  let finished r w1 :=
    (evaluated_scientific t func (formatted_or_zero r)
       (fst (CalculatorController.formatNumber r w1)), JS.Normal tt) in
  if String.eqb func "pi" || String.eqb func "e"
  then finished (if String.eqb func "pi" then JS.Math_PI else JS.Math_E) w0
  else if JS.isNaN current
  then (log_effect (View_showError "Invalid input for function") w0, JS.Normal tt)
  else
    match apply_function func current with
    | JS.Throw message =>
        (log_effect (View_showError message)
           (log_effect (Logger_log "error" "Scientific calculation error") w0),
         JS.Normal tt)
    | JS.Normal r =>
        finished r (fst (CalculatorModel.scientificCalculate func current w0))
    end.
Proof.
  unfold CalculatorController.performScientificFunction, try_catch.
  cbv zeta.
  unfold bind at 1. unfold effect at 1. fold (log_effect View_clearError w).
  unfold bind at 1.
  pose proof (scientific_tail t func) as Htail.
  destruct (String.eqb func "pi" || String.eqb func "e").
  - unfold ret at 1. rewrite Htail. reflexivity.
  - unfold bind at 1. unfold CalculatorModel.getCurrentValue at 1. unfold read at 1.
    cbn [model log_effect].
    destruct (JS.isNaN _); [run_js|].
    unfold bind at 1. rewrite scientificCalculate_eq.
    destruct (apply_function _ _) as [r|message]; [|run_js].
    cbn [fst snd]. unfold ret at 1. rewrite Htail. reflexivity.
Qed.


End ControllerProperties.

(** ** The cap of the calculation log *)

(** C8.  The calculation log is newest-first and capped at 100: an
    insertion puts the new entry in front and keeps the first 100, and every
    completed calculation or scientific evaluation makes one insertion.  So
    after 150 insertions exactly 100 entries remain, the 100 inserted last,
    the newest first. *)
Theorem history_cap (H : Host) (entries : list (Clock * string * string)) (w : App) :
  length entries = 150%nat ->
  calculationHistory (model (addAllToHistory entries w))
    = rev (drop 50 (map historyItem entries))
  /\ length (calculationHistory (model (addAllToHistory entries w))) = 100%nat
  /\ (forall t expression result,
        calculationHistory
          (model (fst (CalculatorModel.addToHistory t expression result w)))
        = take 100 (historyItem (t, expression, result)
                      :: calculationHistory (model w)))
  /\ (forall t op r,
        let s := state (model w) in
        let current := JS.parseFloat (currentValue s) in
        operator s = Some op -> previousValue s <> "" -> JS.isNaN current = false ->
        snd (CalculatorModel.calculate op (JS.parseFloat (previousValue s))
               current w) = JS.Normal r ->
        calculationHistory (model (fst (CalculatorController.calculate t w)))
        = take 100
            (historyItem
               (t, previousValue s +:+ " " +:+ op +:+ " " +:+ JS.toString current,
                formatted_or_zero r)
             :: calculationHistory (model w)))
  /\ (forall t func r,
        let current := JS.parseFloat (currentValue (state (model w))) in
        String.eqb func "pi" || String.eqb func "e" = false ->
        JS.isNaN current = false ->
        snd (CalculatorModel.scientificCalculate func current w) = JS.Normal r ->
        calculationHistory
          (model (fst (CalculatorController.performScientificFunction t func w)))
        = take 100
            (historyItem
               (t, func +:+ "(" +:+ formatted_or_zero r +:+ ")", formatted_or_zero r)
             :: calculationHistory (model w))).
Proof.
  intros Hlen.
  assert (Hlog : calculationHistory (model (addAllToHistory entries w))
                 = rev (drop 50 (map historyItem entries))).
  { destruct entries as [|entry entries]; [discriminate|].
    rewrite addAllToHistory_log.
    rewrite take_app_le by (rewrite length_rev, length_map; lia).
    rewrite firstn_rev, length_map, Hlen. reflexivity. }
  split; [exact Hlog | split; [|split; [|split]]].
  - rewrite Hlog, length_rev, length_drop, length_map. lia.
  - intros t expression result. rewrite addToHistory_eq. reflexivity.
  - intros t op r s current Hop Hprev Hnan Hresult. subst s current.
    rewrite calculate_eq in Hresult.
    rewrite controller_calculate_eq. cbv zeta. rewrite Hop, Hnan.
    apply String.eqb_neq in Hprev. rewrite Hprev. cbn [orb].
    destruct (apply_operation _ _ _ _) as [r'|e] eqn:Hr; [|discriminate].
    cbn in Hresult. injection Hresult as ->.
    rewrite calculate_eq, Hr, controller_formatNumber_eq.
    destruct (CalculatorModel.formatNumber r); reflexivity.
  - intros t func r current Hfunc Hnan Hresult. subst current.
    rewrite scientificCalculate_eq in Hresult.
    rewrite performScientificFunction_eq. cbv zeta. rewrite Hfunc, Hnan.
    destruct (apply_function _ _) as [r'|e] eqn:Hr; [|discriminate].
    cbn in Hresult. injection Hresult as ->.
    rewrite scientificCalculate_eq, Hr, controller_formatNumber_eq.
    unfold evaluated_scientific. rewrite Hfunc.
    destruct (CalculatorModel.formatNumber r); reflexivity.
Qed.

Lemma history_cap_witness :
  length (numbered_entries 150) = 150%nat
  /\ map expression
       (take 3 (calculationHistory
                  (model (addAllToHistory (numbered_entries 150)
                            (app_of initial_state)))))
     = ["150"; "149"; "148"].
Proof.
  split; [reflexivity |].
  rewrite (proj1 (history_cap enUS_host (numbered_entries 150)
                    (app_of initial_state) eq_refl)).
  vm_compute. reflexivity.
Defined.

(** ** Failing evaluations *)

(** C1, as stated, fails.  After the keys [0 % 0], [calculate()] computes
    [NaN]; the model's formatter signals "Invalid number" for it, and yet
    the engine state and the log are not as they were: the controller's
    wrapper turns the failure into the result ['0'], which is logged and
    displayed, and the pending operation is cleared. *)
Lemma formatting_failure_changes_state :
  let w := zero_rem_zero_typed in
  state (model w)
    = {| currentValue := "0"; previousValue := "0"; operator := Some "%";
         isWaitingForOperand := false; history := "0 %";
         memoryValue := 0%float |}
  /\ (exists r : JS.number,
        snd (CalculatorModel.calculate (H := enUS_host) "%"
               (JS.parseFloat "0") (JS.parseFloat "0") w) = JS.Normal r
        /\ CalculatorModel.formatNumber (H := enUS_host) r
           = JS.Throw "Invalid number")
  /\ state (model (fst (CalculatorController.calculate (H := enUS_host) epoch w)))
     = {| currentValue := "0"; previousValue := ""; operator := None;
          isWaitingForOperand := true; history := "0 % 0 =";
          memoryValue := 0%float |}
  /\ state (model (fst (CalculatorController.calculate (H := enUS_host) epoch w)))
     <> state (model w)
  /\ calculationHistory (model w) = []
  /\ calculationHistory
       (model (fst (CalculatorController.calculate (H := enUS_host) epoch w)))
     = [{| id := 0; expression := "0 % 0"; result := "0";
           timestamp := "1970-01-01T00:00:00.000Z" |}].
Proof.
  cbv zeta. split; [vm_compute; reflexivity|].
  split; [exists PrimFloat.nan; split; vm_compute; reflexivity|].
  split; [vm_compute; reflexivity|].
  split; [vm_compute; discriminate|].
  split; vm_compute; reflexivity.
Qed.

(** C1, amended.  When the underlying operation signals an error
    (division by zero, a domain error, an unknown operation, ...),
    [calculate()] and [performScientificFunction(func)] leave the model
    (engine state and calculation log) exactly as it was, and the error's
    message is shown through the view; the call itself returns normally.
    When instead the result cannot be formatted (NaN or non-finite), the
    controller shows "Invalid number" and completes the evaluation with the
    formatted result ['0']. *)
Theorem failing_evaluation (H : Host) (t : Clock) (w : App) :
  let s := state (model w) in
  let current := JS.parseFloat (currentValue s) in
  let previous := JS.parseFloat (previousValue s) in
  (forall op message,
     operator s = Some op -> previousValue s <> "" -> JS.isNaN current = false ->
     snd (CalculatorModel.calculate op previous current w) = JS.Throw message ->
     CalculatorController.calculate t w =
     ({| model := model w;
         effects := (effects w ++ [Logger_log "error" "Calculation error";
                                   View_showError message]) |},
      JS.Normal tt))
  /\ (forall func message,
        String.eqb func "pi" || String.eqb func "e" = false ->
        JS.isNaN current = false ->
        snd (CalculatorModel.scientificCalculate func current w) = JS.Throw message ->
        CalculatorController.performScientificFunction t func w =
        ({| model := model w;
            effects := (effects w
                        ++ [View_clearError;
                            Logger_log "error" "Scientific calculation error";
                            View_showError message]) |},
         JS.Normal tt))
  /\ (forall op r message,
        operator s = Some op -> previousValue s <> "" -> JS.isNaN current = false ->
        snd (CalculatorModel.calculate op previous current w) = JS.Normal r ->
        CalculatorModel.formatNumber r = JS.Throw message ->
        let expression :=
          previousValue s +:+ " " +:+ op +:+ " " +:+ JS.toString current in
        engine (fst (CalculatorController.calculate t w))
        = (evaluated_state "0" expression s,
           take 100 (historyItem (t, expression, "0")
                       :: calculationHistory (model w)))
        /\ In (View_showError "Invalid number")
              (effects (fst (CalculatorController.calculate t w))))
  /\ (forall func r message,
        String.eqb func "pi" || String.eqb func "e" = false ->
        JS.isNaN current = false ->
        snd (CalculatorModel.scientificCalculate func current w) = JS.Normal r ->
        CalculatorModel.formatNumber r = JS.Throw message ->
        engine (fst (CalculatorController.performScientificFunction t func w))
        = (scientific_state "0" s,
           take 100 (historyItem (t, func +:+ "(0)", "0")
                       :: calculationHistory (model w)))
        /\ In (View_showError "Invalid number")
              (effects (fst (CalculatorController.performScientificFunction t func w)))).
Proof.
  cbv zeta. split; [|split; [|split]].
  - intros op message Hop Hprev Hnan Hthrow.
    rewrite calculate_eq in Hthrow.
    rewrite controller_calculate_eq. cbv zeta. rewrite Hop, Hnan.
    apply String.eqb_neq in Hprev. rewrite Hprev. cbn [orb].
    destruct (apply_operation _ _ _ _) as [r|e]; [discriminate|].
    cbn in Hthrow. injection Hthrow as ->.
    unfold log_effect. cbn. rewrite <- app_assoc. reflexivity.
  - intros func message Hfunc Hnan Hthrow.
    rewrite scientificCalculate_eq in Hthrow.
    rewrite performScientificFunction_eq. cbv zeta. rewrite Hfunc, Hnan.
    destruct (apply_function _ _) as [r|e]; [discriminate|].
    cbn in Hthrow. injection Hthrow as ->.
    unfold log_effect. cbn. rewrite <- !app_assoc. reflexivity.
  - intros op r message Hop Hprev Hnan Hresult Hformat.
    rewrite calculate_eq in Hresult.
    rewrite controller_calculate_eq. cbv zeta. rewrite Hop, Hnan.
    apply String.eqb_neq in Hprev. rewrite Hprev. cbn [orb].
    destruct (apply_operation _ _ _ _) as [r'|e] eqn:Hr; [|discriminate].
    cbn in Hresult. injection Hresult as ->.
    rewrite calculate_eq, Hr, controller_formatNumber_eq.
    unfold formatted_or_zero. rewrite Hformat.
    split; [reflexivity|].
    unfold evaluated, log_effect. cbn -[take].
    rewrite !in_app_iff. cbn [In]. find_effect.
  - intros func r message Hfunc Hnan Hresult Hformat.
    rewrite scientificCalculate_eq in Hresult.
    rewrite performScientificFunction_eq. cbv zeta. rewrite Hfunc, Hnan.
    destruct (apply_function _ _) as [r'|e] eqn:Hr; [|discriminate].
    cbn in Hresult. injection Hresult as ->.
    rewrite scientificCalculate_eq, Hr, controller_formatNumber_eq.
    unfold formatted_or_zero. rewrite Hformat.
    split.
    + unfold engine, evaluated_scientific. cbn -[take]. rewrite Hfunc. reflexivity.
    + unfold evaluated_scientific, log_effect. cbn -[take].
      rewrite !in_app_iff. cbn [In]. find_effect.
Qed.

Lemma failing_evaluation_witness :
  operator (state (model five_div_zero_typed)) = Some "/"
  /\ engine (fst (CalculatorController.calculate (H := enUS_host) epoch
                    five_div_zero_typed))
     = engine five_div_zero_typed
  /\ last (effects (fst (CalculatorController.calculate (H := enUS_host) epoch
                           five_div_zero_typed)))
     = Some (View_showError "Division by zero").
Proof.
  split; [reflexivity|].
  rewrite (proj1 (failing_evaluation enUS_host epoch five_div_zero_typed)
             "/" "Division by zero");
    [ split; reflexivity | reflexivity | vm_compute; discriminate
    | reflexivity | reflexivity ].
Defined.


(** ** Digit entry *)

Lemma inputNumber_eq (num : string) (w : App) :
  CalculatorController.inputNumber num w =
  let s := state (model w) in
  if isWaitingForOperand s then (entered num w, JS.Normal tt)
  else
    let newValue := if String.eqb (currentValue s) "0" then num
                    else currentValue s +:+ num in
    if (15 <? String.length newValue)%nat
    then ({| model := model w;
             effects := (effects w ++ [View_clearError;
                           View_showToast "Maximum digits reached" "error"]) |},
          JS.Normal tt)
    else (entered newValue w, JS.Normal tt).
Proof.
  cbv zeta. unfold CalculatorController.inputNumber, entered, with_currentValue.
  destruct w as [[[cur prev op waiting hist mem] log strategy] effs].
  unfold try_catch, bind, CalculatorModel.isWaitingForOperand_,
    CalculatorModel.getCurrentValue, read, effect at 1.
  cbn [model state isWaitingForOperand currentValue fst snd].
  destruct waiting; [run_js|].
  destruct (15 <? _)%nat; run_js.
Qed.

Lemma string_length_append (a b : string) :
  String.length (a +:+ b) = (String.length a + String.length b)%nat.
Proof.
  induction a as [|c a IH]; [reflexivity|].
  change (String c a +:+ b) with (String c (a +:+ b)).
  cbn [String.length]. now rewrite IH.
Qed.

Lemma string_append_assoc (a b c : string) :
  (a +:+ b) +:+ c = a +:+ (b +:+ c).
Proof.
  induction a as [|x a IH]; [reflexivity|].
  change ((String x a +:+ b) +:+ c) with (String x ((a +:+ b) +:+ c)).
  now rewrite IH.
Qed.

Lemma digit_key_length (d : string) :
  digit_key d = true -> String.length d = 1%nat.
Proof. destruct d as [|c [|c' d]]; cbn; congruence. Qed.

(** Once a first significant digit stands, every further digit is appended,
    as long as the text stays within 15 characters. *)
Lemma typed_appends (keys : list string) :
  forall w : App,
    let s := state (model w) in
    isWaitingForOperand s = false ->
    currentValue s <> "0" -> currentValue s <> "" ->
    Forall (fun d => digit_key d = true) keys ->
    (String.length (currentValue s) + length keys <= 15)%nat ->
    state (model (typed keys w))
      = with_currentValue (currentValue s +:+ text_of keys) false s
    /\ calculationHistory (model (typed keys w)) = calculationHistory (model w).
Proof.
  induction keys as [|d keys IH]; intros w s Hwait Hzero Hempty Hkeys Hlen.
  - cbn. split; [|reflexivity].
    destruct w as [[[cur prev op waiting hist mem] log strategy] effs].
    cbn in *. subst waiting.
    assert (Hnil : cur +:+ "" = cur).
    { clear. induction cur as [|c cur IH]; [reflexivity|].
      change (String c cur +:+ "") with (String c (cur +:+ "")). now rewrite IH. }
    rewrite Hnil. reflexivity.
  - apply Forall_cons in Hkeys as [Hd Hkeys].
    pose proof (digit_key_length d Hd) as Hd1.
    cbn [typed fold_left]. fold (typed keys).
    rewrite inputNumber_eq. cbv zeta. fold s. rewrite Hwait.
    apply String.eqb_neq in Hzero. rewrite Hzero.
    cbn [length] in Hlen.
    assert (Hfits : (15 <? String.length (currentValue s +:+ d))%nat = false).
    { apply Nat.ltb_ge. rewrite string_length_append. lia. }
    rewrite Hfits. cbn [fst].
    destruct (IH (entered (currentValue s +:+ d) w)) as [Hstate Hlog]; cbn.
    + reflexivity.
    + intros Heq. apply (f_equal String.length) in Heq.
      rewrite string_length_append in Heq. cbn in Heq.
      destruct (currentValue s); [now apply Hempty | cbn in Heq; lia].
    + intros Heq. apply (f_equal String.length) in Heq.
      rewrite string_length_append in Heq. cbn in Heq. lia.
    + exact Hkeys.
    + rewrite string_length_append. lia.
    + split; [|exact Hlog].
      fold (typed keys (entered (currentValue s +:+ d) w)). rewrite Hstate.
      unfold with_currentValue, entered. cbn.
      rewrite string_append_assoc. reflexivity.
Qed.

(** C4, as stated, fails.  On the neutral value ['0'] (not awaiting an
    operand) the digit 5 is not appended: the value becomes ['5'], not
    ['05'], though ['05'] is well within 15 characters.  And the keys 0, 5
    typed after an operator read back as ['5'], not as the sequence typed. *)
Lemma leading_zero_is_replaced :
  isWaitingForOperand initial_state = false
  /\ (String.length (currentValue initial_state +:+ "5") <= 15)%nat
  /\ currentValue (state (model (fst (CalculatorController.inputNumber "5"
                                        (app_of initial_state))))) = "5"
  /\ currentValue initial_state +:+ "5" = "05"
  /\ currentValue
       (state (model (typed ["0"; "5"]
                        (app_of (with_currentValue "12" true initial_state)))))
     = "5"
  /\ text_of ["0"; "5"] = "05".
Proof. repeat split; vm_compute; try reflexivity; lia. Qed.

(** C4, amended.  When the flag is set, [inputNumber(d)] replaces the
    current value with [d] and clears the flag.  Otherwise it replaces a
    current value ['0'] with [d] and appends [d] to any other value, unless
    the result would exceed 15 characters: then the input is rejected with
    the toast "Maximum digits reached" and the model is unchanged.  Hence
    a sequence of at most 15 digits whose first digit is not 0, typed when
    the flag is set or on the value ['0'], reads back exactly as typed. *)
Theorem inputNumber_cases (w : App) (d : string) :
  let s := state (model w) in
  let log := calculationHistory (model w) in
  (isWaitingForOperand s = true ->
   engine (fst (CalculatorController.inputNumber d w))
   = (with_currentValue d false s, log))
  /\ (isWaitingForOperand s = false -> currentValue s = "0" ->
      (String.length d <= 15)%nat ->
      engine (fst (CalculatorController.inputNumber d w))
      = (with_currentValue d false s, log))
  /\ (isWaitingForOperand s = false -> currentValue s <> "0" ->
      (String.length (currentValue s +:+ d) <= 15)%nat ->
      engine (fst (CalculatorController.inputNumber d w))
      = (with_currentValue (currentValue s +:+ d) false s, log))
  /\ (isWaitingForOperand s = false ->
      (15 < String.length (if String.eqb (currentValue s) "0" then d
                           else currentValue s +:+ d))%nat ->
      CalculatorController.inputNumber d w
      = ({| model := model w;
            effects := (effects w ++ [View_clearError;
                          View_showToast "Maximum digits reached" "error"]) |},
         JS.Normal tt))
  /\ (forall keys : list string,
        isWaitingForOperand s = true \/ currentValue s = "0" ->
        Forall (fun key => digit_key key = true) (d :: keys) ->
        d <> "0" -> (length (d :: keys) <= 15)%nat ->
        currentValue (state (model (typed (d :: keys) w))) = text_of (d :: keys)
        /\ calculationHistory (model (typed (d :: keys) w)) = log).
Proof.
  cbv zeta. rewrite inputNumber_eq. cbv zeta.
  split; [|split; [|split; [|split]]].
  - intros ->. reflexivity.
  - intros -> -> Hfits. cbn [String.eqb Ascii.eqb Bool.eqb].
    apply Nat.ltb_ge in Hfits. rewrite Hfits. reflexivity.
  - intros -> Hzero Hfits. apply String.eqb_neq in Hzero. rewrite Hzero.
    apply Nat.ltb_ge in Hfits. rewrite Hfits. reflexivity.
  - intros -> Hlong. apply Nat.ltb_lt in Hlong. rewrite Hlong. reflexivity.
  - intros keys Hstart Hkeys Hd Hlen.
    apply Forall_cons in Hkeys as [Hdigit Hkeys].
    pose proof (digit_key_length d Hdigit) as Hd1.
    cbn [typed fold_left]. fold (typed keys).
    assert (Hfirst : fst (CalculatorController.inputNumber d w) = entered d w).
    { rewrite inputNumber_eq. cbv zeta.
      destruct (isWaitingForOperand (state (model w))) eqn:Hwait; [reflexivity|].
      destruct Hstart as [Hw | Hcur]; [discriminate|]. rewrite Hcur.
      cbn [String.eqb Ascii.eqb Bool.eqb]. rewrite Hd1. reflexivity. }
    rewrite Hfirst.
    destruct (typed_appends keys (entered d w)) as [Hstate Hlog]; cbn;
      try assumption; try reflexivity.
    + intros ->. discriminate Hd1.
    + rewrite Hd1. cbn [length] in Hlen. lia.
    + fold (typed keys (entered d w)). rewrite Hstate, Hlog. split; reflexivity.
Qed.

Lemma inputNumber_cases_witness :
  isWaitingForOperand (with_currentValue "12" true initial_state) = true
  /\ Forall (fun key => digit_key key = true) ["4"; "0"; "7"]
  /\ currentValue
       (state (model (typed ["4"; "0"; "7"]
                        (app_of (with_currentValue "12" true initial_state)))))
     = "407".
Proof.
  split; [reflexivity|].
  assert (Hkeys : Forall (fun key => digit_key key = true) ["4"; "0"; "7"])
    by (repeat constructor).
  split; [exact Hkeys|].
  apply (proj2 (proj2 (proj2 (proj2
           (inputNumber_cases (app_of (with_currentValue "12" true initial_state))
              "4")))) ["0"; "7"]).
  - left. reflexivity.
  - exact Hkeys.
  - discriminate.
  - cbn. lia.
Defined.

(** ** The event emitter *)

Section EmitterProperties.
Context {W D : Type}.
Implicit Types (cbs : list (EventEmitter.callback W D)) (em : EventEmitter.t W D).





End EmitterProperties.




(** ** The command history *)

Section HistoryProperties.
Context {Calc Snapshot Operation Operand Result : Type}.
Variable getState : Calc -> Snapshot.
Variable setState : Snapshot -> Calc -> Calc.
Variable performOperation :
  Operation -> Operand -> Calc -> Calc * JS.completion Result.

Abbreviation Store := (@CommandHistory.Store Calc Snapshot Operation Operand).
Abbreviation execute := (CommandHistory.execute getState performOperation).
Abbreviation command_execute :=
  (CommandHistory.command_execute getState performOperation).
Abbreviation undo :=
  (@CommandHistory.undo Calc Snapshot Operation Operand setState).
Abbreviation inv := HistoryInvariant.inv.
Abbreviation wf := (@HistoryInvariant.wf Calc Snapshot Operation Operand).
Abbreviation executed :=
  (@HistoryInvariant.executed Calc Snapshot Operation Operand).

Lemma slice0_cursor (h : CommandHistory.t) :
  inv h ->
  CommandHistory.slice0 (CommandHistory.commands h)
    (CommandHistory.currentIndex h + 1)
  = take (Z.to_nat (CommandHistory.currentIndex h + 1)) (CommandHistory.commands h)
  /\ Z.of_nat (length (CommandHistory.slice0 (CommandHistory.commands h)
                         (CommandHistory.currentIndex h + 1)))
     = CommandHistory.currentIndex h + 1.
Proof.
  intros (Hrange & Hcap & Hmax). unfold CommandHistory.slice0.
  destruct (Z.ltb_spec (CommandHistory.currentIndex h + 1) 0) as [Hneg | Hpos]; [lia|].
  rewrite Z.min_l by lia. split; [reflexivity|].
  rewrite length_take. lia.
Qed.

Lemma command_execute_this (ref : nat) (st : Store) :
  CommandHistory.this (fst (command_execute ref st)) = CommandHistory.this st.
Proof.
  unfold CommandHistory.command_execute.
  destruct (CommandHistory.heap st !! ref) as [cmd|]; [|reflexivity].
  destruct (performOperation _ _ _); reflexivity.
Qed.

(** What [execute] leaves in the history: the commands up to the cursor
    when the command throws; with the new command pushed, and the oldest
    one evicted past 50, when it completes. *)
Lemma execute_history (command : nat) (st : Store) :
  inv (CommandHistory.this st) ->
  let h := CommandHistory.this st in
  let kept := take (Z.to_nat (CommandHistory.currentIndex h + 1))
                (CommandHistory.commands h) in
  CommandHistory.this (fst (execute command st)) =
  match snd (execute command st) with
  | JS.Throw _ =>
      {| CommandHistory.commands := kept;
         CommandHistory.currentIndex := CommandHistory.currentIndex h;
         CommandHistory.maxHistory := 50 |}
  | JS.Normal _ =>
      if 50 <? Z.of_nat (length (kept ++ [command]))
      then {| CommandHistory.commands := drop 1 (kept ++ [command]);
              CommandHistory.currentIndex := CommandHistory.currentIndex h + 1 - 1;
              CommandHistory.maxHistory := 50 |}
      else {| CommandHistory.commands := kept ++ [command];
              CommandHistory.currentIndex := CommandHistory.currentIndex h + 1;
              CommandHistory.maxHistory := 50 |}
  end.
Proof.
  intros Hinv. cbv zeta.
  destruct (slice0_cursor _ Hinv) as [Hslice _].
  destruct Hinv as (_ & _ & Hmax).
  unfold CommandHistory.execute.
  set (st1 := CommandHistory.with_this _ st).
  pose proof (command_execute_this command st1) as Hthis.
  destruct (CommandHistory.command_execute _ _ command st1) as [st2 [result|e]];
    cbn [fst snd] in *; rewrite Hthis; subst st1; cbn; rewrite Hslice, Hmax.
  - destruct (50 <? _); reflexivity.
  - reflexivity.
Qed.

Lemma undo_history (st : Store) :
  CommandHistory.this (fst (undo st)) = CommandHistory.this st
  \/ (0 <= CommandHistory.currentIndex (CommandHistory.this st)
      /\ CommandHistory.this (fst (undo st))
         = {| CommandHistory.commands :=
                CommandHistory.commands (CommandHistory.this st);
              CommandHistory.currentIndex :=
                CommandHistory.currentIndex (CommandHistory.this st) - 1;
              CommandHistory.maxHistory :=
                CommandHistory.maxHistory (CommandHistory.this st) |}).
Proof.
  unfold CommandHistory.undo.
  destruct (Z.leb_spec 0 (CommandHistory.currentIndex (CommandHistory.this st)));
    [|left; reflexivity].
  destruct (_ ≫= _) as [cmd|]; [|left; reflexivity].
  right. split; [assumption|]. reflexivity.
Qed.

(** One step of the history: the invariant is kept, and a completed
    [execute()] leaves the cursor on the command it pushed. *)
Lemma history_step (command : nat) (st : Store) :
  inv (CommandHistory.this st) ->
  inv (CommandHistory.this (fst (execute command st)))
  /\ inv (CommandHistory.this (fst (undo st)))
  /\ (forall result, snd (execute command st) = JS.Normal result ->
      let h := CommandHistory.this st in
      let h' := CommandHistory.this (fst (execute command st)) in
      let pushed := take (Z.to_nat (CommandHistory.currentIndex h + 1))
                      (CommandHistory.commands h) ++ [command] in
      CommandHistory.commands h'
        = (if 50 <? Z.of_nat (length pushed) then drop 1 pushed else pushed)
      /\ CommandHistory.currentIndex h'
         = (if 50 <? Z.of_nat (length pushed)
            then CommandHistory.currentIndex h + 1 - 1
            else CommandHistory.currentIndex h + 1)
      /\ CommandHistory.index (CommandHistory.commands h')
           (CommandHistory.currentIndex h') = Some command).
Proof.
  intros Hinv.
  pose proof (execute_history command st Hinv) as Hexec. cbv zeta in Hexec.
  destruct Hinv as (Hrange & Hcap & Hmax).
  set (idx := CommandHistory.currentIndex (CommandHistory.this st)) in *.
  set (cmds := CommandHistory.commands (CommandHistory.this st)) in *.
  assert (Hkept : Z.of_nat (length (take (Z.to_nat (idx + 1)) cmds)) = idx + 1)
    by (rewrite length_take; lia).
  assert (Hpushed : Z.of_nat (length (take (Z.to_nat (idx + 1)) cmds ++ [command]))
                    = idx + 2)
    by (rewrite length_app; cbn [length]; lia).
  split; [|split].
  - rewrite Hexec. destruct (snd (execute command st)).
    + rewrite Hpushed.
      destruct (Z.ltb_spec 50 (idx + 2)); unfold HistoryInvariant.inv; cbn;
        rewrite ?length_drop, ?length_app; cbn [length]; lia.
    + unfold HistoryInvariant.inv; cbn. lia.
  - destruct (undo_history st) as [-> | [Hpos ->]];
      unfold HistoryInvariant.inv; cbn; fold idx cmds; lia.
  - intros result Hresult. cbv zeta. fold idx cmds.
    rewrite Hexec, Hresult, Hpushed.
    unfold CommandHistory.index.
    destruct (Z.ltb_spec 50 (idx + 2)) as [Hfull | Hroom]; cbn.
    + repeat split.
      destruct (Z.ltb_spec (idx + 1 - 1) 0); [lia|].
      rewrite lookup_drop, lookup_app_r by lia.
      replace (1 + Z.to_nat (idx + 1 - 1) - length (take (Z.to_nat (idx + 1)) cmds))%nat
        with 0%nat by lia.
      reflexivity.
    + repeat split.
      destruct (Z.ltb_spec (idx + 1) 0); [lia|].
      rewrite lookup_app_r by lia.
      replace (Z.to_nat (idx + 1) - length (take (Z.to_nat (idx + 1)) cmds))%nat
        with 0%nat by lia.
      reflexivity.
Qed.

Abbreviation execute_each :=
  (HistoryInvariant.execute_each getState performOperation).
Abbreviation undo_many :=
  (@HistoryInvariant.undo_many Calc Snapshot Operation Operand setState).

Lemma execute_heap (command : nat) (st : Store) :
  CommandHistory.heap (fst (execute command st)) =
  match CommandHistory.heap st !! command with
  | None => CommandHistory.heap st
  | Some cmd =>
      <[command := {| CommandHistory.operation := CommandHistory.operation cmd;
                      CommandHistory.operand := CommandHistory.operand cmd;
                      CommandHistory.previousState :=
                        Some (getState (CommandHistory.calculator st)) |}]>
        (CommandHistory.heap st)
  end.
Proof.
  unfold CommandHistory.execute, CommandHistory.command_execute. cbn.
  destruct (CommandHistory.heap st !! command) as [cmd|]; [|reflexivity].
  destruct (performOperation _ _ _) as [calc' [result|e]]; reflexivity.
Qed.




(** [undo()] on a well-formed store. *)
Lemma undo_wf (st : Store) :
  wf st ->
  let h := CommandHistory.this st in
  (0 <= CommandHistory.currentIndex h ->
   exists ref cmd snapshot,
     CommandHistory.commands h !! Z.to_nat (CommandHistory.currentIndex h) = Some ref
     /\ CommandHistory.heap st !! ref = Some cmd
     /\ CommandHistory.previousState cmd = Some snapshot
     /\ undo st =
        ({| CommandHistory.calculator :=
              setState snapshot (CommandHistory.calculator st);
            CommandHistory.heap := CommandHistory.heap st;
            CommandHistory.this :=
              {| CommandHistory.commands := CommandHistory.commands h;
                 CommandHistory.currentIndex := CommandHistory.currentIndex h - 1;
                 CommandHistory.maxHistory := CommandHistory.maxHistory h |} |},
         JS.Normal true))
  /\ (CommandHistory.currentIndex h < 0 -> undo st = (st, JS.Normal false))
  /\ wf (fst (undo st)).
Proof.
  intros [Hinv Hexecuted]. cbv zeta.
  assert (Hpos : 0 <= CommandHistory.currentIndex (CommandHistory.this st) ->
    exists ref cmd snapshot,
     CommandHistory.commands (CommandHistory.this st)
       !! Z.to_nat (CommandHistory.currentIndex (CommandHistory.this st)) = Some ref
     /\ CommandHistory.heap st !! ref = Some cmd
     /\ CommandHistory.previousState cmd = Some snapshot
     /\ undo st =
        ({| CommandHistory.calculator :=
              setState snapshot (CommandHistory.calculator st);
            CommandHistory.heap := CommandHistory.heap st;
            CommandHistory.this :=
              {| CommandHistory.commands :=
                   CommandHistory.commands (CommandHistory.this st);
                 CommandHistory.currentIndex :=
                   CommandHistory.currentIndex (CommandHistory.this st) - 1;
                 CommandHistory.maxHistory :=
                   CommandHistory.maxHistory (CommandHistory.this st) |} |},
         JS.Normal true)).
  { intros Hidx. destruct Hinv as (Hrange & _ & _).
    destruct (lookup_lt_is_Some_2 (CommandHistory.commands (CommandHistory.this st))
                (Z.to_nat (CommandHistory.currentIndex (CommandHistory.this st))))
      as [ref Href]; [lia|].
    rewrite Forall_forall in Hexecuted.
    destruct (Hexecuted ref) as (cmd & snapshot & Hcmd & Hsnapshot).
    { eapply list_elem_of_lookup_2. exact Href. }
    exists ref, cmd, snapshot. repeat split; try assumption.
    unfold CommandHistory.undo, CommandHistory.index.
    destruct (Z.leb_spec 0 (CommandHistory.currentIndex (CommandHistory.this st)));
      [|lia].
    destruct (Z.ltb_spec (CommandHistory.currentIndex (CommandHistory.this st)) 0);
      [lia|].
    rewrite Href. cbn. rewrite Hcmd.
    unfold CommandHistory.command_undo. rewrite Hsnapshot. reflexivity. }
  split; [exact Hpos | split].
  - intros Hneg. unfold CommandHistory.undo.
    destruct (Z.leb_spec 0 (CommandHistory.currentIndex (CommandHistory.this st)));
      [lia | reflexivity].
  - split; [apply (history_step 0%nat); exact Hinv|].
    destruct (Z.le_gt_cases 0 (CommandHistory.currentIndex (CommandHistory.this st)))
      as [Hidx | Hidx].
    + destruct (Hpos Hidx) as (ref & cmd & snapshot & _ & _ & _ & ->). exact Hexecuted.
    + unfold CommandHistory.undo.
      destruct (Z.leb_spec 0 (CommandHistory.currentIndex (CommandHistory.this st)));
        [lia | exact Hexecuted].
Qed.






End HistoryProperties.



(** ** Editing the entry: backspace and the decimal point *)

Lemma list_ascii_of_string_append (a b : string) :
  list_ascii_of_string (a +:+ b) = list_ascii_of_string a ++ list_ascii_of_string b.
Proof.
  induction a as [|c a IH]; [reflexivity|].
  change (String c a +:+ b) with (String c (a +:+ b)).
  cbn [list_ascii_of_string]. rewrite IH. reflexivity.
Qed.

Lemma string_length_list (s : string) :
  String.length s = length (list_ascii_of_string s).
Proof. induction s as [|c s IH]; [reflexivity | cbn; now rewrite IH]. Qed.

Lemma list_ascii_of_substring_0 (n : nat) :
  forall s : string,
    list_ascii_of_string (substring 0 n s) = take n (list_ascii_of_string s).
Proof.
  induction n as [|n IH]; intros [|c s]; try reflexivity.
  cbn [substring list_ascii_of_string take]. now rewrite IH.
Qed.

Lemma list_ascii_of_string_inj (a b : string) :
  list_ascii_of_string a = list_ascii_of_string b -> a = b.
Proof.
  intros Heq. rewrite <- (string_of_list_ascii_of_string a),
    <- (string_of_list_ascii_of_string b). now rewrite Heq.
Qed.

Lemma slice_0_m1_append (a : string) (c : ascii) :
  ControllerAPI.slice_0_m1 (a +:+ String c "") = a.
Proof.
  apply list_ascii_of_string_inj. unfold ControllerAPI.slice_0_m1.
  rewrite list_ascii_of_substring_0, string_length_append, list_ascii_of_string_append.
  cbn [String.length list_ascii_of_string].
  replace (String.length a + 1 - 1)%nat with (length (list_ascii_of_string a))
    by (rewrite string_length_list; lia).
  rewrite take_app_length. reflexivity.
Qed.

Lemma slice_0_m1_list (s : string) :
  list_ascii_of_string (ControllerAPI.slice_0_m1 s)
  = take (String.length s - 1) (list_ascii_of_string s).
Proof. apply list_ascii_of_substring_0. Qed.

Lemma slice_0_m1_length (s : string) :
  String.length (ControllerAPI.slice_0_m1 s) = (String.length s - 1)%nat.
Proof.
  rewrite (string_length_list (ControllerAPI.slice_0_m1 s)), slice_0_m1_list,
    length_take, <- string_length_list. lia.
Qed.

Lemma count_points_append (a b : string) :
  count_points (a +:+ b) = (count_points a + count_points b)%nat.
Proof.
  unfold count_points. rewrite list_ascii_of_string_append, filter_app, length_app.
  reflexivity.
Qed.

Lemma count_points_point : count_points "." = 1%nat.
Proof. vm_compute. reflexivity. Qed.

Lemma has_decimal_point_count (text : string) :
  has_decimal_point text = negb (count_points text =? 0)%nat.
Proof.
  unfold has_decimal_point, count_points.
  induction (list_ascii_of_string text) as [|c l IH]; [reflexivity|].
  cbn [existsb]. rewrite filter_cons.
  destruct (decide (c = "."%char)) as [-> | Hne].
  - reflexivity.
  - rewrite <- IH. apply Ascii.eqb_neq in Hne.
    rewrite Ascii.eqb_sym, Hne. reflexivity.
Qed.

Lemma is_digit_not_point (c : ascii) : JS.is_digit c = true -> c <> "."%char.
Proof. intros Hdigit ->. discriminate Hdigit. Qed.

Lemma count_points_digit (c : ascii) :
  JS.is_digit c = true -> count_points (String c "") = 0%nat.
Proof.
  intros Hdigit. unfold count_points. cbn [list_ascii_of_string].
  rewrite filter_cons. destruct (decide (c = "."%char)) as [-> | _]; [|reflexivity].
  discriminate Hdigit.
Qed.

Lemma entry_literal_digit (c : ascii) :
  JS.is_digit c = true -> entry_literal (String c "").
Proof.
  intros Hdigit. unfold entry_literal. cbn [list_ascii_of_string String.length].
  rewrite (count_points_digit c Hdigit).
  repeat split; [exact Hdigit | constructor | lia | left; lia].
Qed.

Lemma entry_literal_append (text : string) (c : ascii) :
  entry_literal text ->
  JS.is_digit c = true \/ (c = "."%char /\ count_points text = 0%nat) ->
  (String.length text < 15)%nat \/ (c = "."%char /\ String.length text = 15%nat) ->
  entry_literal (text +:+ String c "").
Proof.
  unfold entry_literal. intros Htext Hc Hlen.
  rewrite list_ascii_of_string_append, count_points_append, string_length_append.
  destruct (list_ascii_of_string text) as [|x rest] eqn:Hlist; [contradiction|].
  destruct Htext as (Hfirst & Hrest & Hpoints & Hlength).
  cbn [app list_ascii_of_string String.length].
  assert (Hcount : count_points (String c "")
                   = if decide (c = "."%char) then 1%nat else 0%nat).
  { unfold count_points. cbn [list_ascii_of_string]. rewrite filter_cons.
    destruct (decide (c = "."%char)); reflexivity. }
  rewrite Hcount.
  split; [exact Hfirst | split; [|split]].
  - apply Forall_app. split; [exact Hrest|]. constructor; [|constructor].
    destruct Hc as [Hdigit | [-> _]]; [left; exact Hdigit | right; reflexivity].
  - destruct Hc as [Hdigit | [-> Hnone]].
    + destruct (decide (c = "."%char)) as [-> | _]; [discriminate Hdigit | lia].
    + rewrite Hnone. destruct (decide _); lia.
  - destruct Hlen as [Hlen | [-> Hlen]]; [left; lia|].
    right. split; [lia|].
    destruct Hc as [Hdigit | [_ Hnone]]; [discriminate Hdigit|].
    rewrite Hnone. reflexivity.
Qed.

Lemma filter_take_length (n : nat) (l : list ascii) :
  (length (filter (fun c => c = "."%char) (take n l))
   <= length (filter (fun c => c = "."%char) l))%nat.
Proof.
  revert n. induction l as [|c l IH]; intros [|n]; cbn [take]; try (cbn; lia).
  rewrite !filter_cons. specialize (IH n).
  destruct (decide _); cbn [length]; lia.
Qed.

Lemma entry_literal_slice (text : string) :
  entry_literal text -> (1 < String.length text)%nat ->
  entry_literal (ControllerAPI.slice_0_m1 text).
Proof.
  unfold entry_literal, count_points. intros Htext Hlong.
  rewrite slice_0_m1_length, slice_0_m1_list.
  rewrite string_length_list in *.
  destruct (list_ascii_of_string text) as [|x rest] eqn:Hlist; [contradiction|].
  destruct Htext as (Hfirst & Hrest & Hpoints & Hlength).
  cbn [length] in *.
  replace (S (length rest) - 1)%nat with (S (length rest - 1)) by lia.
  cbn [take].
  assert (Hfewer : (length (filter (fun c => c = "."%char) (x :: take (length rest - 1) rest))
                    <= length (filter (fun c => c = "."%char) (x :: rest)))%nat).
  { rewrite !filter_cons.
    pose proof (filter_take_length (length rest - 1) rest) as Htake.
    destruct (decide _); cbn [length]; lia. }
  split; [exact Hfirst | split; [|split]].
  - apply Forall_take. exact Hrest.
  - lia.
  - left. lia.
Qed.

Lemma entry_literal_zero_point : entry_literal "0.".
Proof.
  assert (Hcount : count_points "0." = 1%nat) by (vm_compute; reflexivity).
  unfold entry_literal. cbn [list_ascii_of_string String.length]. rewrite Hcount.
  repeat split; [repeat constructor; right; reflexivity | lia | left; lia].
Qed.

Lemma deleteLast_eq (w : App) :
  ControllerAPI.deleteLast w =
  let s := state (model w) in
  let shown :=
    if (1 <? String.length (currentValue s))%nat
       && negb (String.eqb (currentValue s) "0")
    then ControllerAPI.slice_0_m1 (currentValue s) else "0" in
  (edited shown (isWaitingForOperand s) w, JS.Normal tt).
Proof.
  cbv zeta. unfold ControllerAPI.deleteLast, edited, with_currentValue.
  destruct w as [[[cur prev op waiting hist mem] log strategy] effs].
  unfold try_catch, bind, CalculatorModel.getCurrentValue, read.
  cbn [model state currentValue isWaitingForOperand fst snd].
  destruct (_ && _); run_js.
Qed.

Lemma inputDecimal_eq (w : App) :
  ControllerAPI.inputDecimal w =
  let s := state (model w) in
  if isWaitingForOperand s then (edited "0." false w, JS.Normal tt)
  else if has_decimal_point (currentValue s)
  then ({| model := model w; effects := effects w ++ view_updates s |}, JS.Normal tt)
  else (edited (currentValue s +:+ ".") false w, JS.Normal tt).
Proof.
  cbv zeta. unfold ControllerAPI.inputDecimal, edited, with_currentValue.
  destruct w as [[[cur prev op waiting hist mem] log strategy] effs].
  unfold try_catch, bind, CalculatorModel.isWaitingForOperand_,
    CalculatorModel.getCurrentValue, read.
  cbn [model state currentValue isWaitingForOperand fst snd].
  destruct waiting; [run_js|].
  unfold bind, read. cbn -[has_decimal_point].
  destruct (has_decimal_point cur); run_js.
Qed.

Lemma deleteLast_on_zero (n : nat) :
  forall w : App,
    currentValue (state (model w)) = "0" ->
    currentValue (state (model (deleteLast_times n w))) = "0".
Proof.
  induction n as [|n IH]; intros w Hzero; [exact Hzero|].
  cbn [deleteLast_times]. apply IH. rewrite deleteLast_eq. cbv zeta.
  rewrite Hzero. reflexivity.
Qed.

Lemma deleteLast_currentValue (w : App) :
  currentValue (state (model (fst (ControllerAPI.deleteLast w))))
  = if (1 <? String.length (currentValue (state (model w))))%nat
    then ControllerAPI.slice_0_m1 (currentValue (state (model w))) else "0".
Proof.
  rewrite deleteLast_eq. cbv zeta. cbn [fst edited model state currentValue
    with_currentValue].
  destruct (Nat.ltb_spec 1 (String.length (currentValue (state (model w)))))
    as [Hlong | Hshort]; [|reflexivity].
  assert (Hne : String.eqb (currentValue (state (model w))) "0" = false).
  { apply String.eqb_neq. intros Heq. rewrite Heq in Hlong. cbn in Hlong. lia. }
  rewrite Hne. reflexivity.
Qed.

(** X1.  [deleteLast()] takes the last character off the entry, and puts
    ['0'] when one character or none would be left: the entry is never
    empty afterwards, nothing but the entry changes, and as many calls as
    the entry has characters bring it to ['0']. *)
Theorem deleteLast_clears (w : App) :
  let s := state (model w) in
  let w' := fst (ControllerAPI.deleteLast w) in
  currentValue (state (model w')) <> ""
  /\ (forall (a : string) (c : ascii),
        currentValue s = a +:+ String c "" -> a <> "" ->
        currentValue (state (model w')) = a)
  /\ ((String.length (currentValue s) <= 1)%nat ->
      currentValue (state (model w')) = "0")
  /\ model w' = {| state := with_currentValue (currentValue (state (model w')))
                              (isWaitingForOperand s) s;
                   calculationHistory := calculationHistory (model w);
                   currentStrategy := currentStrategy (model w) |}
  /\ (forall n : nat,
        (String.length (currentValue s) <= n)%nat -> (1 <= n)%nat ->
        currentValue (state (model (deleteLast_times n w))) = "0").
Proof.
  cbv zeta. split; [|split; [|split; [|split]]].
  - rewrite deleteLast_currentValue.
    destruct (Nat.ltb_spec 1 (String.length (currentValue (state (model w)))))
      as [Hlong | Hshort]; [|discriminate].
    intros Hempty. apply (f_equal String.length) in Hempty.
    rewrite slice_0_m1_length in Hempty. cbn in Hempty. lia.
  - intros a c Hcur Ha. rewrite deleteLast_currentValue, Hcur.
    rewrite string_length_append. cbn [String.length].
    destruct a as [|x a]; [congruence|].
    cbn [String.length]. replace (1 <? S (String.length a) + 1)%nat with true
      by (symmetry; apply Nat.ltb_lt; lia).
    apply slice_0_m1_append.
  - intros Hshort. rewrite deleteLast_currentValue.
    apply Nat.ltb_ge in Hshort. rewrite Hshort. reflexivity.
  - rewrite deleteLast_eq. reflexivity.
  - intros n. revert w. induction n as [|n IH]; intros w Hlen Hn; [lia|].
    cbn [deleteLast_times].
    destruct (Nat.ltb_spec 1 (String.length (currentValue (state (model w)))))
      as [Hlong | Hshort].
    + apply IH; [|lia].
      rewrite deleteLast_currentValue.
      apply Nat.ltb_lt in Hlong as ->. rewrite slice_0_m1_length. lia.
    + apply deleteLast_on_zero. rewrite deleteLast_currentValue.
      apply Nat.ltb_ge in Hshort as ->. reflexivity.
Qed.

(** X2.  A digit typed and then deleted leaves the model as it was: on an
    entry that is being typed (not awaiting an operand, not empty) and has
    room for the digit, [deleteLast()] undoes [inputNumber(d)]. *)
Theorem deleteLast_undoes_inputNumber (w : App) (d : string) :
  let s := state (model w) in
  digit_key d = true ->
  isWaitingForOperand s = false ->
  currentValue s <> "" ->
  (String.length (currentValue s) < 15)%nat ->
  model (fst (ControllerAPI.deleteLast (fst (CalculatorController.inputNumber d w))))
  = model w.
Proof.
  cbv zeta. intros Hd Hwaiting Hcur Hlen.
  destruct d as [|c [|c' d]]; try discriminate Hd.
  rewrite inputNumber_eq. cbv zeta. rewrite Hwaiting.
  destruct w as [[[cur prev op waiting hist mem] log strategy] effs].
  cbn [model state currentValue isWaitingForOperand] in *. subst waiting.
  destruct (String.eqb_spec cur "0") as [-> | Hzero].
  - change (15 <? String.length (String c ""))%nat with false.
    cbv iota. cbn [fst]. rewrite deleteLast_eq. reflexivity.
  - assert (Hfits : (15 <? String.length (cur +:+ String c ""))%nat = false).
    { apply Nat.ltb_ge. rewrite string_length_append. cbn. lia. }
    rewrite Hfits. cbn [fst]. rewrite deleteLast_eq. cbv zeta.
    cbn [entered model state currentValue with_currentValue isWaitingForOperand].
    assert (Hlong : (1 <? String.length (cur +:+ String c ""))%nat = true).
    { apply Nat.ltb_lt. rewrite string_length_append. cbn.
      destruct cur; [congruence | cbn; lia]. }
    assert (Hne : String.eqb (cur +:+ String c "") "0" = false).
    { apply String.eqb_neq. intros Heq. apply Nat.ltb_lt in Hlong.
      rewrite Heq in Hlong. cbn in Hlong. lia. }
    rewrite Hlong, Hne. cbn [andb negb].
    rewrite slice_0_m1_append. reflexivity.
Qed.

(** X3.  [inputDecimal()] leaves exactly one more point only when the entry
    has none: afterwards the entry holds a point and no operand is awaited,
    an entry with points keeps as many as it had, and a second call changes
    nothing in the model. *)
Theorem inputDecimal_once (w : App) :
  let s := state (model w) in
  let w' := fst (ControllerAPI.inputDecimal w) in
  has_decimal_point (currentValue (state (model w'))) = true
  /\ isWaitingForOperand (state (model w')) = false
  /\ (isWaitingForOperand s = true -> currentValue (state (model w')) = "0.")
  /\ (isWaitingForOperand s = false ->
      count_points (currentValue (state (model w')))
      = Nat.max 1 (count_points (currentValue s))
      /\ exists point : string,
           currentValue (state (model w')) = currentValue s +:+ point
           /\ (point = "" \/ point = "."))
  /\ model (fst (ControllerAPI.inputDecimal w')) = model w'.
Proof.
  cbv zeta. rewrite (inputDecimal_eq w). cbv zeta.
  destruct w as [[[cur prev op waiting hist mem] log strategy] effs].
  cbn [model state currentValue isWaitingForOperand].
  destruct waiting.
  - cbn [fst]. rewrite inputDecimal_eq. repeat split; discriminate.
  - pose proof (has_decimal_point_count cur) as Hcount.
    destruct (has_decimal_point cur) eqn:Hpoint; cbn [fst];
      rewrite inputDecimal_eq; cbn -[has_decimal_point count_points Nat.max].
    + rewrite Hpoint. repeat split; try discriminate.
      * destruct (count_points cur); [discriminate | reflexivity].
      * exists "". split; [|left; reflexivity].
        clear. induction cur as [|c cur IH]; [reflexivity|].
        change (String c cur +:+ "") with (String c (cur +:+ "")). now rewrite <- IH.
    + assert (Hnew : has_decimal_point (cur +:+ ".") = true).
      { rewrite has_decimal_point_count, count_points_append, count_points_point.
        replace (count_points cur + 1)%nat with (S (count_points cur)) by lia.
        reflexivity. }
      rewrite Hnew. repeat split; try discriminate.
      * rewrite count_points_append, count_points_point.
        destruct (count_points cur); [reflexivity | discriminate].
      * exists ".". split; [reflexivity | right; reflexivity].
Qed.

Lemma press_keeps_literal (key : EntryKey) (w : App) :
  is_digit_key key = true ->
  entry_literal (currentValue (state (model w))) ->
  entry_literal (currentValue (state (model (press key w))))
  /\ beside_entry (model (press key w)) = beside_entry (model w).
Proof.
  intros Hkey Hliteral.
  destruct w as [[[cur prev op waiting hist mem] log strategy] effs].
  cbn [model state currentValue] in Hliteral.
  assert (Hlength : (String.length cur <= 15)%nat
                    \/ (String.length cur = 16%nat /\ count_points cur = 1%nat)).
  { unfold entry_literal in Hliteral.
    destruct (list_ascii_of_string cur); [contradiction | apply Hliteral]. }
  destruct key as [d | |]; cbn [press is_digit_key] in *.
  - destruct d as [|c [|c' d]]; try discriminate Hkey. cbn in Hkey.
    rewrite inputNumber_eq. cbv zeta.
    cbn [model state currentValue isWaitingForOperand].
    destruct waiting; [split; [apply entry_literal_digit; exact Hkey | reflexivity]|].
    destruct (String.eqb_spec cur "0") as [-> | Hzero].
    + change (15 <? String.length (String c ""))%nat with false. cbv iota.
      split; [apply entry_literal_digit; exact Hkey | reflexivity].
    + destruct (Nat.ltb_spec 15 (String.length (cur +:+ String c "")))
        as [Hfull | Hfits]; [split; [exact Hliteral | reflexivity]|].
      split; [|reflexivity].
      cbn [fst entered model state currentValue with_currentValue].
      rewrite string_length_append in Hfits. cbn in Hfits.
      apply entry_literal_append; [exact Hliteral | left; exact Hkey | left; lia].
  - rewrite inputDecimal_eq. cbv zeta.
    cbn [model state currentValue isWaitingForOperand].
    destruct waiting.
    { split; [|reflexivity]. cbn [fst edited model state currentValue with_currentValue].
      apply entry_literal_zero_point. }
    pose proof (has_decimal_point_count cur) as Hcount.
    destruct (has_decimal_point cur); [split; [exact Hliteral | reflexivity]|].
    split; [|reflexivity].
    cbn [fst edited model state currentValue with_currentValue].
    assert (Hnone : count_points cur = 0%nat)
      by (destruct (count_points cur); [reflexivity | discriminate]).
    apply entry_literal_append; [exact Hliteral | right; split; [reflexivity | exact Hnone] |].
    destruct Hlength as [Hlength | [_ Hone]]; [|lia].
    destruct (Nat.eq_dec (String.length cur) 15%nat); [right; split; [reflexivity | assumption] | left; lia].
  - rewrite deleteLast_eq. cbv zeta.
    cbn [model state currentValue isWaitingForOperand].
    split; [|reflexivity].
    cbn [fst edited model state currentValue with_currentValue].
    destruct (Nat.ltb_spec 1 (String.length cur)) as [Hlong | Hshort]; cbn [andb].
    + destruct (negb _); [apply entry_literal_slice; assumption|].
      apply (entry_literal_digit "0"). reflexivity.
    + apply (entry_literal_digit "0"). reflexivity.
Qed.

(** X4.  Digits, the decimal point and backspace, pressed in any order on
    an entry that is a decimal literal (as ['0'] is), keep it one: never
    empty, a digit first, digits and at most one point, at most 16
    characters.  They change nothing else in the model: previous value,
    operator, history label, memory, calculation log and strategy stay. *)
Theorem entry_keys_keep_literal (keys : list EntryKey) (w : App) :
  Forall (fun key => is_digit_key key = true) keys ->
  entry_literal (currentValue (state (model w))) ->
  let text := currentValue (state (model (press_all keys w))) in
  entry_literal text
  /\ text <> ""
  /\ (String.length text <= 16)%nat
  /\ (count_points text <= 1)%nat
  /\ beside_entry (model (press_all keys w)) = beside_entry (model w).
Proof.
  cbv zeta. intros Hkeys Hliteral.
  assert (Hall : entry_literal (currentValue (state (model (press_all keys w))))
                 /\ beside_entry (model (press_all keys w)) = beside_entry (model w)).
  { revert w Hliteral. induction Hkeys as [|key keys Hkey Hkeys IH]; intros w Hliteral.
    - split; [exact Hliteral | reflexivity].
    - cbn [press_all fold_left]. fold (press_all keys (press key w)).
      destruct (press_keeps_literal key w Hkey Hliteral) as [Hliteral' Hframe].
      destruct (IH _ Hliteral') as [Hfinal Hframe'].
      split; [exact Hfinal | congruence]. }
  destruct Hall as [Hfinal Hframe].
  split; [exact Hfinal | split; [|split; [|split]]]; try exact Hframe.
  - intros Hempty. rewrite Hempty in Hfinal. exact Hfinal.
  - unfold entry_literal in Hfinal.
    destruct (list_ascii_of_string _); [contradiction|].
    destruct Hfinal as (_ & _ & _ & [Hlen | [Hlen _]]); lia.
  - unfold entry_literal in Hfinal.
    destruct (list_ascii_of_string _); [contradiction|]. apply Hfinal.
Qed.

Lemma entry_keys_keep_literal_witness :
  let keys := [Digit "1"; DecimalPoint; DecimalPoint; Digit "5"; Backspace;
               Digit "2"] in
  Forall (fun key => is_digit_key key = true) keys
  /\ entry_literal (currentValue (state (model (app_of initial_state))))
  /\ entry_literal
       (currentValue (state (model (press_all keys (app_of initial_state)))))
  /\ currentValue (state (model (press_all keys (app_of initial_state)))) = "1.2".
Proof.
  cbv zeta.
  assert (Hkeys : Forall (fun key => is_digit_key key = true)
            [Digit "1"; DecimalPoint; DecimalPoint; Digit "5"; Backspace; Digit "2"])
    by (repeat constructor).
  assert (Hzero : entry_literal (currentValue (state (model (app_of initial_state)))))
    by (apply (entry_literal_digit "0"); reflexivity).
  split; [exact Hkeys | split; [exact Hzero | split]].
  - apply (entry_keys_keep_literal _ _ Hkeys Hzero).
  - vm_compute. reflexivity.
Defined.


Lemma deleteLast_undoes_inputNumber_witness :
  let w := app_of (with_currentValue "42" false initial_state) in
  digit_key "7" = true
  /\ currentValue (state (model (fst (CalculatorController.inputNumber "7" w))))
     = "427"
  /\ model (fst (ControllerAPI.deleteLast
                   (fst (CalculatorController.inputNumber "7" w))))
     = model w.
Proof.
  cbv zeta. split; [reflexivity | split; [reflexivity|]].
  apply deleteLast_undoes_inputNumber;
    [reflexivity | reflexivity | discriminate | cbn; lia].
Defined.

(** ** Operators *)

Section OperatorProperties.
Context `{Host}.

(** [inputOperator(nextOperator)] in one equation. *)
Lemma inputOperator_eq (next : string) (w : App) :
  CalculatorController.inputOperator next w =
  let s := state (model w) in
  let current := JS.parseFloat (currentValue s) in
  if JS.isNaN current
  then (log_effect (View_showError "Invalid input") w, JS.Normal tt)
  else if String.eqb (previousValue s) ""
  then (operator_entered (currentValue s) (JS.toString current) next w, JS.Normal tt)
  else if CalculatorController.truthy (operator s) && negb (isWaitingForOperand s)
  then
    match apply_operation (currentStrategy (model w)) (default "" (operator s))
            (JS.parseFloat (previousValue s)) current with
    | JS.Throw message =>
        (log_effect (View_showError message)
           (log_effect (Logger_log "error" "Calculation error") w), JS.Normal tt)
    | JS.Normal r =>
        (operator_entered (formatted_or_zero r) (JS.toString r) next
           (log_effect (Emit_valueChanged (formatted_or_zero r))
              (fst (CalculatorController.formatNumber r
                      (fst (CalculatorModel.calculate (default "" (operator s))
                              (JS.parseFloat (previousValue s)) current w))))),
         JS.Normal tt)
    end
  else (operator_entered (currentValue s) (previousValue s) next w, JS.Normal tt).
Proof.
  cbv zeta.
  unfold CalculatorController.inputOperator, try_catch.
  unfold bind at 1. unfold CalculatorModel.getCurrentValue at 1. unfold read at 1.
  unfold bind at 1. unfold CalculatorModel.getPreviousValue at 1. unfold read at 1.
  unfold bind at 1. unfold CalculatorModel.getOperator at 1. unfold read at 1.
  destruct (JS.isNaN _); [run_js|].
  unfold bind at 1. unfold CalculatorModel.isWaitingForOperand_ at 1. unfold read at 1.
  unfold operator_entered, with_operator.
  destruct w as [[[cur prev op waiting hist mem] log strategy] effs].
  cbn [model state currentValue previousValue operator isWaitingForOperand
       currentStrategy calculationHistory effects].
  destruct (String.eqb prev ""); [run_js|].
  destruct (CalculatorController.truthy op && negb waiting); [|run_js].
  unfold bind at 1. unfold bind at 1. rewrite calculate_eq.
  cbn [model currentStrategy].
  destruct (apply_operation _ _ _ _) as [r|message]; [|run_js].
  cbn [fst snd]. unfold bind at 1. rewrite !controller_formatNumber_eq.
  cbn [fst snd].
  destruct (CalculatorModel.formatNumber r); run_js.
Qed.

(** X5.  An operator pressed on a first operand stores the operand (the
    number read from the entry, as a string) as the previous value; an
    operator pressed while an operand is awaited, or while none is pending,
    replaces the pending operator.  Neither computes anything: the entry,
    the log and the strategy stay, and only the view is refreshed. *)
Theorem inputOperator_registers (next : string) (w : App) :
  let s := state (model w) in
  let current := JS.parseFloat (currentValue s) in
  JS.isNaN current = false ->
  (previousValue s = "" ->
   CalculatorController.inputOperator next w
   = (operator_entered (currentValue s) (JS.toString current) next w, JS.Normal tt))
  /\ (previousValue s <> "" ->
      isWaitingForOperand s = true \/ operator s = None \/ operator s = Some "" ->
      CalculatorController.inputOperator next w
      = (operator_entered (currentValue s) (previousValue s) next w, JS.Normal tt)).
Proof.
  cbv zeta. intros Hnan. rewrite inputOperator_eq. cbv zeta. rewrite Hnan.
  split.
  - intros ->. reflexivity.
  - intros Hprev Hidle. apply String.eqb_neq in Hprev. rewrite Hprev.
    destruct Hidle as [-> | [-> | ->]]; [rewrite andb_false_r| |]; reflexivity.
Qed.

(** X6.  An operator pressed after a second operand evaluates the pending
    operation first.  When it completes with [r], the entry shows [r]
    formatted, the previous value is [r] in full ([r.toString()]), the new
    operator is pending, and the calculation log is not touched (only
    [calculate()] logs).  When it throws, the error is shown and the model is
    left as it was: the new operator is not registered. *)
Theorem inputOperator_chains (next op : string) (w : App) :
  let s := state (model w) in
  let current := JS.parseFloat (currentValue s) in
  let previous := JS.parseFloat (previousValue s) in
  JS.isNaN current = false ->
  previousValue s <> "" -> operator s = Some op -> op <> "" ->
  isWaitingForOperand s = false ->
  (forall r,
     snd (CalculatorModel.calculate op previous current w) = JS.Normal r ->
     model (fst (CalculatorController.inputOperator next w))
     = {| state := with_operator (formatted_or_zero r) (JS.toString r) next s;
          calculationHistory := calculationHistory (model w);
          currentStrategy := currentStrategy (model w) |}
     /\ snd (CalculatorController.inputOperator next w) = JS.Normal tt)
  /\ (forall message,
        snd (CalculatorModel.calculate op previous current w) = JS.Throw message ->
        CalculatorController.inputOperator next w
        = ({| model := model w;
              effects := effects w ++ [Logger_log "error" "Calculation error";
                                       View_showError message] |},
           JS.Normal tt)).
Proof.
  cbv zeta. intros Hnan Hprev Hop Hne Hwaiting.
  rewrite inputOperator_eq. cbv zeta. rewrite Hnan, Hop, Hwaiting.
  apply String.eqb_neq in Hprev, Hne. rewrite Hprev.
  cbn [CalculatorController.truthy default negb andb]. rewrite Hne. cbn [negb].
  rewrite calculate_eq.
  destruct (apply_operation _ _ _ _) as [r|message]; cbn [snd]; split.
  - intros r' [= <-]. rewrite calculate_eq, controller_formatNumber_eq.
    split; [|reflexivity].
    destruct (apply_operation _ _ _ _); destruct (CalculatorModel.formatNumber r);
      reflexivity.
  - intros message [=].
  - intros r [=].
  - intros message' [= <-]. unfold log_effect. cbn. rewrite <- app_assoc. reflexivity.
Qed.

End OperatorProperties.

(** ** Facts about numbers and their strings *)

Lemma SFeqb_refl (y : spec_float) : y <> S754_nan -> SFeqb y y = true.
Proof.
  destruct y as [s|s| |s m e]; intros Hy; try congruence; unfold SFeqb; cbn.
  - reflexivity.
  - destruct s; reflexivity.
  - rewrite Z.compare_refl, Pos.compare_cont_refl. destruct s; reflexivity.
Qed.

Lemma shr_1_nonneg (mrs : shr_record) : 0 <= shr_m mrs -> 0 <= shr_m (shr_1 mrs).
Proof.
  destruct mrs as [m r s]. cbn. destruct m as [|[p|p|]|[p|p|]]; cbn; lia.
Qed.

Lemma iter_pos_shr_1_nonneg (p : positive) :
  forall mrs, 0 <= shr_m mrs -> 0 <= shr_m (SpecFloat.iter_pos shr_1 p mrs).
Proof.
  induction p as [p IH|p IH|]; intros mrs Hm; cbn.
  - apply IH, IH, shr_1_nonneg, Hm.
  - apply IH, IH, Hm.
  - apply shr_1_nonneg, Hm.
Qed.

Lemma shr_fexp_nonneg (m e : Z) (l : location) :
  0 <= m -> 0 <= shr_m (fst (shr_fexp prec emax m e l)).
Proof.
  intros Hm. unfold shr_fexp, shr.
  assert (Hrecord : 0 <= shr_m (shr_record_of_loc m l))
    by (destruct l as [|[]]; exact Hm).
  destruct (fexp prec emax (Zdigits2 m + e) - e); cbn [fst]; try exact Hrecord.
  apply iter_pos_shr_1_nonneg, Hrecord.
Qed.

Lemma binary_round_aux_not_nan (sx : bool) (mx ex : Z) (lx : location) :
  0 <= mx -> binary_round_aux prec emax sx mx ex lx <> S754_nan.
Proof.
  intros Hm. unfold binary_round_aux.
  pose proof (shr_fexp_nonneg mx ex lx Hm) as Hfirst.
  destruct (shr_fexp prec emax mx ex lx) as [mrs' e']. cbn [fst] in Hfirst.
  assert (Hrounded : 0 <= round_nearest_even (shr_m mrs') (loc_of_shr_record mrs')).
  { unfold round_nearest_even.
    destruct (loc_of_shr_record mrs') as [|[]]; try lia.
    destruct (Z.even _); lia. }
  pose proof (shr_fexp_nonneg _ e' loc_Exact Hrounded) as Hsecond.
  destruct (shr_fexp prec emax _ e' loc_Exact) as [mrs'' e'']. cbn [fst] in Hsecond.
  destruct (shr_m mrs''); [discriminate | | lia].
  destruct (_ <=? _); discriminate.
Qed.

Lemma of_Z_Prim2SF (v : Z) :
  0 <= v < 2 ^ 63 ->
  Prim2SF (JS.of_Z v) = binary_normalize prec emax v 0 false.
Proof.
  intros Hv. unfold JS.of_Z.
  pose proof (FloatAxioms.of_uint63_spec (Uint63.of_Z v)) as Hspec.
  rewrite Uint63.of_Z_spec, Z.mod_small in Hspec by exact Hv.
  rewrite <- Hspec at 1. rewrite FloatAxioms.SF2Prim_Prim2SF. exact Hspec.
Qed.

Lemma of_Z_not_nan (v : Z) :
  0 <= v < 2 ^ 63 -> JS.isNaN (JS.of_Z v) = false.
Proof.
  intros Hv. unfold JS.isNaN, is_nan.
  rewrite FloatAxioms.eqb_spec, (of_Z_Prim2SF v Hv), SFeqb_refl; [reflexivity|].
  destruct v as [|p|p]; [discriminate | | lia].
  unfold binary_normalize, binary_round.
  destruct (shl_align _ _ _) as [mz ez].
  apply binary_round_aux_not_nan. lia.
Qed.

Lemma is_digit_value (c : ascii) :
  JS.is_digit c = true -> (nat_of_ascii c - 48 <= 9)%nat.
Proof.
  unfold JS.is_digit. intros Hdigit. apply andb_prop in Hdigit as [_ Hhigh].
  apply Nat.leb_le in Hhigh. lia.
Qed.

Lemma read_digits_all (l : list ascii) :
  forall acc count,
    Forall (fun c => JS.is_digit c = true) l ->
    JS.read_digits l acc count
    = (fold_left (fun acc c => 10 * acc + Z.of_nat (nat_of_ascii c - 48)) l acc,
       count + Z.of_nat (length l), []).
Proof.
  induction l as [|c l IH]; intros acc count Hdigits.
  - cbn. rewrite Z.add_0_r. reflexivity.
  - apply Forall_cons in Hdigits as [Hc Hl]. cbn [JS.read_digits fold_left length].
    rewrite Hc, IH by exact Hl.
    replace (count + 1 + Z.of_nat (length l)) with (count + Z.of_nat (S (length l)))
      by lia.
    reflexivity.
Qed.

Lemma decimal_fold_bounds (l : list ascii) :
  forall acc,
    Forall (fun c => JS.is_digit c = true) l -> 0 <= acc ->
    acc * 10 ^ Z.of_nat (length l)
    <= fold_left (fun acc c => 10 * acc + Z.of_nat (nat_of_ascii c - 48)) l acc
    < (acc + 1) * 10 ^ Z.of_nat (length l).
Proof.
  induction l as [|c l IH]; intros acc Hdigits Hacc.
  - cbn. lia.
  - apply Forall_cons in Hdigits as [Hc Hl]. cbn [fold_left length].
    pose proof (is_digit_value c Hc) as Hvalue.
    specialize (IH (10 * acc + Z.of_nat (nat_of_ascii c - 48)) Hl ltac:(lia)).
    rewrite Nat2Z.inj_succ, Z.pow_succ_r by lia.
    assert (Hpow : 0 < 10 ^ Z.of_nat (length l)) by (apply Z.pow_pos_nonneg; lia).
    nia.
Qed.

(** A text of one to eighteen digits is read as the number it writes: the
    double nearest to its value, which is not NaN. *)
Lemma parseFloat_digits (text : string) :
  text <> "" ->
  Forall (fun c => JS.is_digit c = true) (list_ascii_of_string text) ->
  (String.length text <= 18)%nat ->
  JS.parseFloat text = JS.of_Z (decimal_value text)
  /\ 0 <= decimal_value text < 10 ^ Z.of_nat (String.length text)
  /\ JS.isNaN (JS.parseFloat text) = false.
Proof.
  intros Hne Hdigits Hlen.
  pose proof (decimal_fold_bounds _ 0 Hdigits ltac:(lia)) as Hbounds.
  fold (decimal_value text) in Hbounds. rewrite <- string_length_list in Hbounds.
  assert (Hvalue : 0 <= decimal_value text < 10 ^ Z.of_nat (String.length text))
    by lia.
  assert (Hparse : JS.parseFloat text = JS.of_Z (decimal_value text)).
  { clear Hbounds. revert Hvalue. unfold JS.parseFloat, decimal_value.
    destruct (list_ascii_of_string text) as [|c l] eqn:Hlist; intros Hvalue.
    { destruct text; [congruence | discriminate Hlist]. }
    apply Forall_cons in Hdigits as Hboth. destruct Hboth as [Hc Hl].
    assert (Hstart : JS.read_sign (JS.skip_white_space (c :: l)) = (false, c :: l)
                     /\ String.prefix "Infinity" (string_of_list_ascii (c :: l)) = false).
    { clear -Hc. destruct c as [[] [] [] [] [] [] [] []]; try discriminate Hc;
        split; reflexivity. }
    destruct Hstart as [-> ->].
    rewrite (read_digits_all (c :: l) 0 0 Hdigits).
    cbn [length]. replace (0 + Z.of_nat (S (length l)) =? 0) with false
      by (symmetry; apply Z.eqb_neq; lia).
    cbn [JS.read_exponent].
    set (v := fold_left _ (c :: l) 0) in *.
    unfold JS.round_decimal, JS.of_Z.
    destruct v as [|p|p]; [reflexivity | | lia].
    cbn [Z.leb Z.compare]. rewrite Z.pow_0_r, Z.mul_1_r. reflexivity. }
  split; [exact Hparse | split; [exact Hvalue|]].
  rewrite Hparse. apply of_Z_not_nan.
  assert (10 ^ Z.of_nat (String.length text) <= 10 ^ 18)
    by (apply Z.pow_le_mono_r; lia).
  lia.
Qed.

Lemma digits_of_Z_nonempty (n : Z) : JS.digits_of_Z n <> "".
Proof.
  unfold JS.digits_of_Z.
  destruct (N.to_uint (Z.to_N n)); discriminate.
Qed.

Lemma string_append_nonempty_l (a b : string) : a <> "" -> a +:+ b <> "".
Proof. destruct a; [congruence | discriminate]. Qed.

Lemma string_append_nonempty_r (a b : string) : b <> "" -> a +:+ b <> "".
Proof.
  intros Hb Heq. apply (f_equal String.length) in Heq.
  rewrite string_length_append in Heq. destruct b; [congruence | cbn in Heq; lia].
Qed.

(** The decimal string of a number is never empty. *)
Lemma toString_nonempty (x : JS.number) : JS.toString x <> "".
Proof.
  unfold JS.toString.
  destruct (Prim2SF x) as [s|s| |s m e]; try discriminate;
    [destruct s; discriminate|].
  apply string_append_nonempty_r. unfold JS.toString_pos.
  destruct (JS.shortest_digits m e) as [d q].
  pose proof (digits_of_Z_nonempty d) as Hd.
  destruct (_ && _); [apply string_append_nonempty_l, Hd|].
  destruct (_ && _);
    [apply string_append_nonempty_r, string_append_nonempty_l; discriminate|].
  destruct (_ && _); [discriminate|].
  destruct (_ =? _); [apply string_append_nonempty_l, Hd|].
  apply string_append_nonempty_r, string_append_nonempty_l. discriminate.
Qed.

(** ** Decimal strings of integers *)

(** The digits of a decimal numeral are read back as its value. *)
Lemma decimal_fold_of_uint_acc (d : Decimal.uint) :
  forall acc : positive,
    fold_left (fun acc c => 10 * acc + Z.of_nat (nat_of_ascii c - 48))
      (list_ascii_of_string (NilEmpty.string_of_uint d)) (Z.pos acc)
    = Z.pos (Pos.of_uint_acc d acc).
Proof.
  induction d as [|d IH|d IH|d IH|d IH|d IH|d IH|d IH|d IH|d IH|d IH]; intros acc;
    [reflexivity | ..];
    cbn [NilEmpty.string_of_uint list_ascii_of_string fold_left Pos.of_uint_acc];
    rewrite <- IH; f_equal;
    match goal with |- context [Z.of_nat ?n] =>
      let v := eval vm_compute in (Z.of_nat n) in change (Z.of_nat n) with v
    end; lia.
Qed.

Lemma decimal_value_of_uint (d : Decimal.uint) :
  decimal_value (NilEmpty.string_of_uint d) = Z.of_N (N.of_uint d).
Proof.
  unfold decimal_value, N.of_uint.
  induction d as [|d IH|d IH|d IH|d IH|d IH|d IH|d IH|d IH|d IH|d IH];
    [reflexivity | exact IH | ..];
    cbn [NilEmpty.string_of_uint list_ascii_of_string fold_left Pos.of_uint N.of_uint
         Z.of_N];
    rewrite <- decimal_fold_of_uint_acc; reflexivity.
Qed.

Lemma string_of_uint_digits (d : Decimal.uint) :
  Forall (fun c => JS.is_digit c = true)
    (list_ascii_of_string (NilEmpty.string_of_uint d)).
Proof.
  induction d; cbn [NilEmpty.string_of_uint list_ascii_of_string];
    constructor; try reflexivity; assumption.
Qed.

(** Every text of digits writes a numeral. *)
Lemma digits_string_of_uint (text : string) :
  Forall (fun c => JS.is_digit c = true) (list_ascii_of_string text) ->
  exists d, NilEmpty.string_of_uint d = text.
Proof.
  induction text as [|c text IH]; intros Hdigits.
  - exists Decimal.Nil. reflexivity.
  - cbn [list_ascii_of_string] in Hdigits.
    apply Forall_cons in Hdigits as [Hc Htext].
    destruct (IH Htext) as [d <-].
    destruct c as [[] [] [] [] [] [] [] []]; try discriminate Hc;
      first [ exists (Decimal.D0 d); reflexivity | exists (Decimal.D1 d); reflexivity
            | exists (Decimal.D2 d); reflexivity | exists (Decimal.D3 d); reflexivity
            | exists (Decimal.D4 d); reflexivity | exists (Decimal.D5 d); reflexivity
            | exists (Decimal.D6 d); reflexivity | exists (Decimal.D7 d); reflexivity
            | exists (Decimal.D8 d); reflexivity | exists (Decimal.D9 d); reflexivity ].
Qed.

(** A text of digits with no leading zero, or the text ['0'], is the
    decimal string of its value. *)
Lemma digits_of_decimal_value (text : string) :
  Forall (fun c => JS.is_digit c = true) (list_ascii_of_string text) ->
  text = "0" \/ (exists c rest, text = String c rest /\ c <> "0"%char) ->
  JS.digits_of_Z (decimal_value text) = text.
Proof.
  intros Hdigits Hcanonical.
  destruct (digits_string_of_uint text Hdigits) as [d <-].
  rewrite decimal_value_of_uint. unfold JS.digits_of_Z.
  rewrite N2Z.id, DecimalN.Unsigned.to_of.
  assert (Hnorm : Decimal.unorm d = d).
  { destruct Hcanonical as [Hzero | (c & rest & Htext & Hc)].
    - destruct d as [|[]| | | | | | | | |]; try discriminate Hzero. reflexivity.
    - destruct d; try discriminate Htext; try reflexivity.
      cbn in Htext. injection Htext as <- _. congruence. }
  rewrite Hnorm. destruct d; try reflexivity.
  destruct Hcanonical as [Hzero | (c & rest & Htext & _)]; discriminate.
Qed.

Lemma decimal_value_digits_of_Z (n : Z) :
  0 <= n -> decimal_value (JS.digits_of_Z n) = n.
Proof.
  intros Hn. unfold JS.digits_of_Z.
  assert (Hstring : NilZero.string_of_uint (N.to_uint (Z.to_N n))
                    = NilEmpty.string_of_uint (N.to_uint (Z.to_N n))).
  { destruct (N.to_uint (Z.to_N n)) eqn:Huint; try reflexivity.
    destruct (Z.to_N n); [discriminate|].
    exfalso. exact (DecimalPos.Unsigned.to_uint_nonnil _ Huint). }
  rewrite Hstring, decimal_value_of_uint, DecimalN.Unsigned.of_to. lia.
Qed.

(** The decimal string of a positive integer: digits, the first one not 0. *)
Lemma digits_of_Z_canonical (n : Z) :
  0 < n ->
  Forall (fun c => JS.is_digit c = true) (list_ascii_of_string (JS.digits_of_Z n))
  /\ exists c rest, JS.digits_of_Z n = String c rest /\ c <> "0"%char.
Proof.
  intros Hn. unfold JS.digits_of_Z.
  destruct (Z.to_N n) as [|p] eqn:Hp; [lia|].
  pose proof (DecimalN.Unsigned.to_of (N.to_uint (N.pos p))) as Hnorm.
  rewrite DecimalN.Unsigned.of_to in Hnorm.
  pose proof (DecimalPos.Unsigned.to_uint_nonnil p) as Hnonnil.
  pose proof (DecimalPos.Unsigned.to_uint_nonzero p) as Hnonzero.
  cbn [N.to_uint] in *.
  set (d := Pos.to_uint p) in *.
  assert (Hstring : NilZero.string_of_uint d = NilEmpty.string_of_uint d)
    by (destruct d; [congruence | reflexivity..]).
  rewrite Hstring. split; [apply string_of_uint_digits|].
  destruct d as [|u| | | | | | | | |]; try congruence;
    try (eexists _, _; split; [reflexivity | discriminate]).
  exfalso. rewrite DecimalFacts.unorm_D0 in Hnorm.
  destruct (Decimal.nzhead u) eqn:Hhead;
    try (unfold Decimal.unorm in Hnorm; rewrite Hhead in Hnorm;
         first [discriminate Hnorm | exact (Hnonzero Hnorm)]).
  exact (DecimalFacts.nzhead_nonzero _ _ Hhead).
Qed.

(** ** Integers as doubles *)

Lemma digits2_pos_bounds (p : positive) :
  2 ^ (Z.pos (digits2_pos p) - 1) <= Z.pos p < 2 ^ Z.pos (digits2_pos p).
Proof.
  induction p as [p IH|p IH|]; cbn [digits2_pos]; [| |cbn; lia];
    rewrite Pos2Z.inj_succ;
    replace (Z.succ (Z.pos (digits2_pos p)) - 1)
      with (Z.succ (Z.pos (digits2_pos p) - 1)) by lia;
    rewrite !Z.pow_succ_r by lia; lia.
Qed.

Lemma iter_xO_value (n p : positive) :
  Z.pos (Pos.iter xO p n) = Z.pos p * 2 ^ Z.pos n
  /\ Z.pos (digits2_pos (Pos.iter xO p n)) = Z.pos (digits2_pos p) + Z.pos n.
Proof.
  induction n as [|n [IHv IHd]] using Pos.peano_ind.
  - cbn [Pos.iter digits2_pos]. rewrite Pos2Z.inj_succ. lia.
  - rewrite Pos.iter_succ. cbn [digits2_pos].
    rewrite !Pos2Z.inj_succ, Pos2Z.inj_xO, IHv, IHd, Z.pow_succ_r by lia. lia.
Qed.

(** A mantissa of 53 bits with an exponent in range is a double as it
    stands. *)
Lemma binary_round_aux_exact (m : positive) (e : Z) :
  Z.pos (digits2_pos m) = 53 -> -1074 <= e <= 971 ->
  binary_round_aux prec emax false (Z.pos m) e loc_Exact = S754_finite false m e.
Proof.
  intros Hd He. unfold binary_round_aux, shr_fexp, Zdigits2. rewrite Hd.
  replace (fexp prec emax (53 + e) - e) with 0
    by (unfold fexp, SpecFloat.emin, prec, emax; lia).
  cbn [shr shr_record_of_loc shr_m loc_of_shr_record shr_r shr_s round_nearest_even
       Zdigits2].
  rewrite Hd.
  replace (fexp prec emax (53 + e) - e) with 0
    by (unfold fexp, SpecFloat.emin, prec, emax; lia).
  cbn [shr shr_m].
  replace (e <=? emax - prec) with true
    by (symmetry; apply Z.leb_le; unfold prec, emax; lia).
  reflexivity.
Qed.

(** A positive integer below [2^53] is the double whose mantissa holds the
    integer shifted to 53 bits. *)
Lemma of_Z_mantissa (v : Z) :
  0 < v < 2 ^ 53 ->
  exists m e,
    Prim2SF (JS.of_Z v) = S754_finite false m e
    /\ Z.pos (digits2_pos m) = 53
    /\ -52 <= e <= 0
    /\ Z.pos m = v * 2 ^ (- e).
Proof.
  intros Hv. rewrite of_Z_Prim2SF by lia.
  destruct v as [|p|p]; try lia. unfold binary_normalize, binary_round.
  pose proof (digits2_pos_bounds p) as Hbits.
  assert (Hd : Z.pos (digits2_pos p) <= 53).
  { destruct (Z_le_gt_dec (Z.pos (digits2_pos p)) 53) as [Hle|Hgt]; [exact Hle|].
    exfalso. assert (2 ^ 53 <= 2 ^ (Z.pos (digits2_pos p) - 1))
      by (apply Z.pow_le_mono_r; lia). lia. }
  unfold shl_align.
  replace (fexp prec emax (Z.pos (digits2_pos p) + 0))
    with (Z.pos (digits2_pos p) - 53)
    by (unfold fexp, SpecFloat.emin, prec, emax; lia).
  rewrite Z.sub_0_r.
  destruct (Z.pos (digits2_pos p) - 53) as [|k|k] eqn:Hk; try lia.
  - exists p, 0. cbv iota beta. rewrite (binary_round_aux_exact p 0) by lia.
    repeat split; try lia.
  - destruct (iter_xO_value k p) as [Hvalue Hdigits].
    pose proof (Pos2Z.opp_pos k) as Hneg.
    exists (Pos.iter xO p k), (Z.neg k).
    cbv iota beta.
    rewrite (binary_round_aux_exact (Pos.iter xO p k) (Z.neg k)) by lia.
    repeat split; try lia.
    rewrite Hvalue, <- Hneg, Z.opp_involutive. reflexivity.
Qed.

(** ** The shortest digits of an integer *)

Lemma div_between (a U d : Z) : 0 <= d < U -> (a * U + d) / U = a.
Proof.
  intros Hd. rewrite Z.add_comm, Z.div_add by lia. rewrite Z.div_small by lia. lia.
Qed.

(** For the double of an integer [v] below [2^53] the interval of
    [shortest_at] is narrower than one unit: at an exponent [q >= 0] the
    only candidate is [v / 10^q], when [10^q] divides [v]. *)
Lemma shortest_at_integer (m : positive) (e q v : Z) :
  -52 <= e <= 0 -> 0 <= q -> 0 < v -> Z.pos m = v * 2 ^ (- e) ->
  JS.shortest_at m e q
  = if v mod 10 ^ q =? 0 then Some (v / 10 ^ q) else None.
Proof.
  intros He Hq Hv Hm. unfold JS.shortest_at, JS.pow10_num, JS.pow10_den,
    JS.pow2_num, JS.pow2_den, JS.ceil_div.
  replace (0 <=? q) with true by (symmetry; apply Z.leb_le; lia).
  replace (0 <=? e - 2) with false by (symmetry; apply Z.leb_gt; lia).
  replace (- (e - 2)) with (2 + - e) by lia.
  rewrite Z.pow_add_r by lia. change (2 ^ 2) with 4.
  set (W := 4 * 2 ^ (- e)). set (T := 10 ^ q).
  assert (HW : 4 <= W).
  { unfold W. assert (0 < 2 ^ (- e)) by (apply Z.pow_pos_nonneg; lia). lia. }
  assert (HT : 0 < T) by (apply Z.pow_pos_nonneg; lia).
  assert (HX : 4 * Z.pos m = v * W) by (unfold W; lia).
  rewrite HX. clear Hm HX.
  set (delta := if (Z.pos m =? 2 ^ 52) && (-1074 <? e) then 1 else 2).
  assert (Hdelta : 1 <= delta <= 2) by (unfold delta; destruct (_ && _); lia).
  replace (if (Z.pos m =? 2 ^ 52) && (-1074 <? e) then v * W - 1 else v * W - 2)
    with (v * W - delta) by (unfold delta; destruct (_ && _); reflexivity).
  rewrite ?Z.mul_1_r, ?Z.mul_1_l.
  pose proof (Z.div_mod v T ltac:(lia)) as Hdiv.
  pose proof (Z.mod_pos_bound v T HT) as Hr.
  set (a := v / T) in *. set (r := v mod T) in *.
  assert (HU : 0 < T * W) by nia.
  destruct (r =? 0) eqn:Hzero.
  - apply Z.eqb_eq in Hzero.
    assert (Hlo : - (v * W - delta) = (- a) * (T * W) + delta) by nia.
    assert (Hlo' : v * W - delta = (a - 1) * (T * W) + (T * W - delta)) by nia.
    assert (Hhi : v * W + 2 = a * (T * W) + 2) by nia.
    assert (Hhi' : - (v * W + 2) = (- a - 1) * (T * W) + (T * W - 2)) by nia.
    rewrite Hlo, Hhi', Hlo', Hhi, !div_between by nia.
    replace (if Z.even (Z.pos m) then - - a else a - 1 + 1) with a
      by (destruct (Z.even _); lia).
    replace (if Z.even (Z.pos m) then a else - (- a - 1) - 1) with a
      by (destruct (Z.even _); lia).
    rewrite Z.leb_refl. f_equal. lia.
  - apply Z.eqb_neq in Hzero.
    assert (Hlo : - (v * W - delta)
                  = (- a - 1) * (T * W) + (T * W - r * W + delta)) by nia.
    assert (Hlo' : v * W - delta = a * (T * W) + (r * W - delta)) by nia.
    assert (Hhi : v * W + 2 = a * (T * W) + (r * W + 2)) by nia.
    assert (Hhi' : - (v * W + 2)
                   = (- a - 1) * (T * W) + (T * W - r * W - 2)) by nia.
    rewrite Hlo, Hhi', Hlo', Hhi, !div_between by nia.
    replace (if Z.even (Z.pos m) then - (- a - 1) else a + 1) with (a + 1)
      by (destruct (Z.even _); lia).
    replace (if Z.even (Z.pos m) then a else - (- a - 1) - 1) with a
      by (destruct (Z.even _); lia).
    replace (a + 1 <=? a) with false by (symmetry; apply Z.leb_gt; lia).
    reflexivity.
Qed.

(** The search goes down to the first exponent that has a candidate. *)
Lemma shortest_from_first (m : positive) (e s tz : Z) (fuel : nat) :
  forall q,
    tz <= q -> q - tz < Z.of_nat fuel ->
    (forall q', tz < q' <= q -> JS.shortest_at m e q' = None) ->
    JS.shortest_at m e tz = Some s ->
    JS.shortest_from fuel m e q = (s, tz).
Proof.
  induction fuel as [|fuel IH]; intros q Hq Hfuel Hnone Hsome; [lia|].
  cbn [JS.shortest_from].
  destruct (Z.eq_dec q tz) as [->|Hne]; [rewrite Hsome; reflexivity|].
  rewrite Hnone by lia. apply IH; try lia; [|exact Hsome].
  intros q' Hq'. apply Hnone. lia.
Qed.

(** A positive integer without its trailing zeros. *)
Lemma trailing_zeros (n : nat) :
  forall v, 0 < v < Z.of_nat n ->
    exists s tz, v = s * 10 ^ tz /\ 0 < s /\ s mod 10 <> 0 /\ 0 <= tz.
Proof.
  induction n as [|n IH]; intros v Hv; [lia|].
  destruct (Z.eq_dec (v mod 10) 0) as [Hzero|Hnonzero].
  - pose proof (Z.div_mod v 10 ltac:(lia)) as Hdiv.
    destruct (IH (v / 10) ltac:(lia)) as (s & tz & Hs & Hpos & Hmod & Htz).
    exists s, (tz + 1). rewrite Z.pow_add_r by lia.
    repeat split; try lia.
  - exists v, 0. rewrite Z.mul_1_r. repeat split; try lia.
Qed.

Lemma not_divisible_above (s tz q : Z) :
  s mod 10 <> 0 -> 0 <= tz < q -> (s * 10 ^ tz) mod 10 ^ q <> 0.
Proof.
  intros Hs Hq Hmod.
  assert (Hten : 0 < 10 ^ tz) by (apply Z.pow_pos_nonneg; lia).
  assert (Hrest : 0 < 10 ^ (q - tz - 1)) by (apply Z.pow_pos_nonneg; lia).
  apply Z.mod_divide in Hmod; [|apply Z.pow_nonzero; lia].
  destruct Hmod as [c Hc].
  replace q with (tz + (1 + (q - tz - 1))) in Hc by lia.
  rewrite !Z.pow_add_r in Hc by lia. change (10 ^ 1) with 10 in Hc.
  assert (Heq : s = 10 * (c * 10 ^ (q - tz - 1))) by nia.
  apply Hs. rewrite Heq, Z.mul_comm. apply Z.mod_mul. lia.
Qed.

Lemma bound_covers_all :
  forallb (fun d => forallb (bound_covers d) (seq 0 17)) (seq 0 54) = true.
Proof. vm_compute. reflexivity. Qed.

Lemma exponent10_bound_covers (m : positive) (e v tz : Z) :
  Z.pos (digits2_pos m) = 53 -> -52 <= e <= 0 -> Z.pos m = v * 2 ^ (- e) ->
  0 <= tz -> 10 ^ tz <= v ->
  tz <= JS.exponent10_bound m e <= 17.
Proof.
  intros Hd He Hm Htz Hv. unfold JS.exponent10_bound. rewrite Hd.
  pose proof (digits2_pos_bounds m) as Hbits. rewrite Hd in Hbits.
  assert (Hpow : 2 ^ 53 = 2 ^ (53 + e) * 2 ^ (- e))
    by (rewrite <- Z.pow_add_r by lia; f_equal; lia).
  assert (Hpos : 0 < 2 ^ (- e)) by (apply Z.pow_pos_nonneg; lia).
  assert (Hbelow : v < 2 ^ (53 + e)) by nia.
  assert (Hsmall : tz < 16).
  { destruct (Z_lt_ge_dec tz 16) as [Hlt|Hge]; [exact Hlt|]. exfalso.
    assert (10 ^ 16 <= 10 ^ tz) by (apply Z.pow_le_mono_r; lia).
    assert (2 ^ (53 + e) <= 2 ^ 53) by (apply Z.pow_le_mono_r; lia).
    assert (2 ^ 53 < 10 ^ 16) by (vm_compute; reflexivity). lia. }
  pose proof bound_covers_all as Hall.
  rewrite forallb_forall in Hall.
  specialize (Hall (Z.to_nat (53 + e)) ltac:(apply in_seq; lia)).
  rewrite forallb_forall in Hall.
  specialize (Hall (Z.to_nat tz) ltac:(apply in_seq; lia)).
  unfold bound_covers in Hall. rewrite !Z2Nat.id in Hall by lia.
  apply orb_true_iff in Hall as [Hall|Hall]; [apply Z.ltb_lt in Hall; lia|].
  apply Z.leb_le in Hall. split; [exact Hall|].
  assert ((53 + e + 1) * 30103 / 100000 <= 54 * 30103 / 100000)
    by (apply Z.div_le_mono; lia).
  change (54 * 30103 / 100000) with 16 in *. lia.
Qed.

(** The shortest digits of the double of a positive integer below [2^53]
    are the integer without its trailing zeros. *)
Lemma shortest_digits_integer (m : positive) (e s tz : Z) :
  Z.pos (digits2_pos m) = 53 -> -52 <= e <= 0 ->
  Z.pos m = s * 10 ^ tz * 2 ^ (- e) ->
  0 < s -> s mod 10 <> 0 -> 0 <= tz ->
  JS.shortest_digits m e = (s, tz).
Proof.
  intros Hd He Hm Hs Hmod Htz.
  assert (Hten : 0 < 10 ^ tz) by (apply Z.pow_pos_nonneg; lia).
  assert (Hv : 0 < s * 10 ^ tz) by nia.
  destruct (exponent10_bound_covers m e (s * 10 ^ tz) tz Hd He Hm Htz ltac:(nia))
    as [Hlow Hhigh].
  unfold JS.shortest_digits. apply shortest_from_first; try lia.
  - intros q' Hq'.
    rewrite (shortest_at_integer m e q' (s * 10 ^ tz)) by (try exact Hm; lia).
    pose proof (not_divisible_above s tz q' Hmod ltac:(lia)) as Hnot.
    apply Z.eqb_neq in Hnot. rewrite Hnot. reflexivity.
  - rewrite (shortest_at_integer m e tz (s * 10 ^ tz)) by (try exact Hm; lia).
    rewrite Z.mod_mul, Z.eqb_refl, Z.div_mul by lia. reflexivity.
Qed.

(** ** Integers print as their decimal digits *)

Lemma zeros_digits (n : nat) :
  Forall (fun c => JS.is_digit c = true) (list_ascii_of_string (JS.zeros n)).
Proof. induction n; cbn; constructor; [reflexivity | assumption]. Qed.

Lemma zeros_length (n : nat) : String.length (JS.zeros n) = n.
Proof. induction n; cbn; congruence. Qed.

Lemma decimal_value_zeros (a : string) (n : nat) :
  decimal_value (a +:+ JS.zeros n) = decimal_value a * 10 ^ Z.of_nat n.
Proof.
  unfold decimal_value. rewrite list_ascii_of_string_append, fold_left_app.
  generalize (fold_left (fun acc c => 10 * acc + Z.of_nat (nat_of_ascii c - 48))
                (list_ascii_of_string a) 0).
  induction n as [|n IH]; intros acc; [cbn; lia|].
  cbn [JS.zeros list_ascii_of_string fold_left]. rewrite IH.
  rewrite Nat2Z.inj_succ, Z.pow_succ_r by lia.
  change (Z.of_nat (nat_of_ascii "0" - 48)) with 0. lia.
Qed.

(** Trailing zeros of an integer are trailing zeros of its digits. *)
Lemma digits_of_Z_trailing (s : Z) (n : nat) :
  0 < s ->
  JS.digits_of_Z (s * 10 ^ Z.of_nat n) = JS.digits_of_Z s +:+ JS.zeros n.
Proof.
  intros Hs. destruct (digits_of_Z_canonical s Hs) as (Hdigits & c & rest & Hds & Hc).
  rewrite <- (decimal_value_digits_of_Z s) at 1 by lia.
  rewrite <- decimal_value_zeros. apply digits_of_decimal_value.
  - rewrite list_ascii_of_string_append. apply Forall_app.
    split; [exact Hdigits | apply zeros_digits].
  - right. exists c, (rest +:+ JS.zeros n). rewrite Hds. split; [reflexivity | exact Hc].
Qed.

Lemma nonzero_digit_value (c : ascii) :
  JS.is_digit c = true -> c <> "0"%char -> (1 <= nat_of_ascii c - 48)%nat.
Proof.
  unfold JS.is_digit. intros Hdigit Hc. apply andb_prop in Hdigit as [Hlow _].
  apply Nat.leb_le in Hlow.
  destruct (Nat.eq_dec (nat_of_ascii c) 48%nat) as [Heq|Hne]; [|lia].
  exfalso. apply Hc. rewrite <- (ascii_nat_embedding c), Heq. reflexivity.
Qed.

(** An integer below [2^53] has at most 16 digits. *)
Lemma digits_of_Z_length (v : Z) :
  0 < v < 2 ^ 53 -> (String.length (JS.digits_of_Z v) <= 16)%nat.
Proof.
  intros Hv.
  destruct (digits_of_Z_canonical v ltac:(lia)) as (Hdigits & c & rest & Hds & Hc).
  pose proof (decimal_value_digits_of_Z v ltac:(lia)) as Hvalue.
  rewrite Hds in *. cbn [list_ascii_of_string] in Hdigits.
  apply Forall_cons in Hdigits as [Hdigit Hrest].
  unfold decimal_value in Hvalue. cbn [list_ascii_of_string fold_left] in Hvalue.
  pose proof (nonzero_digit_value c Hdigit Hc) as Hfirst.
  pose proof (decimal_fold_bounds (list_ascii_of_string rest)
                (10 * 0 + Z.of_nat (nat_of_ascii c - 48)) Hrest ltac:(lia)) as Hbounds.
  rewrite Hvalue, <- string_length_list in Hbounds.
  cbn [String.length].
  destruct (le_gt_dec (String.length rest) 15%nat) as [Hle|Hgt]; [lia|]. exfalso.
  assert (Hpow : 10 ^ 16 <= 10 ^ Z.of_nat (String.length rest))
    by (apply Z.pow_le_mono_r; lia).
  assert (2 ^ 53 < 10 ^ 16) by (vm_compute; reflexivity). nia.
Qed.

(** [String(v)] for an integer [v] of up to 53 bits: its decimal digits. *)
Lemma toString_of_Z (v : Z) :
  0 <= v < 2 ^ 53 -> JS.toString (JS.of_Z v) = JS.digits_of_Z v.
Proof.
  intros Hv. destruct (Z.eq_dec v 0) as [->|Hne].
  { unfold JS.toString. rewrite of_Z_Prim2SF by lia. reflexivity. }
  destruct (of_Z_mantissa v ltac:(lia)) as (m & e & Hfloat & Hd & He & Hm).
  destruct (trailing_zeros (S (Z.to_nat v)) v ltac:(lia))
    as (s & tz & Hs & Hpos & Hmod & Htz).
  assert (Hn : exists n, tz = Z.of_nat n) by (exists (Z.to_nat tz); lia).
  destruct Hn as [n ->].
  unfold JS.toString. rewrite Hfloat. unfold JS.toString_pos.
  rewrite (shortest_digits_integer m e s (Z.of_nat n))
    by (try rewrite <- Hs; assumption).
  pose proof (digits_of_Z_length v ltac:(lia)) as Hlen.
  rewrite Hs in Hlen |- *.
  rewrite digits_of_Z_trailing in Hlen |- * by exact Hpos.
  rewrite string_length_append, zeros_length in Hlen.
  replace (_ && _) with true
    by (symmetry; apply andb_true_intro; split; apply Z.leb_le; lia).
  replace (Z.to_nat _) with n by lia. reflexivity.
Qed.

(** ** Whole calculations *)

Lemma string_append_nil_r (a : string) : a +:+ "" = a.
Proof.
  induction a as [|c a IH]; [reflexivity|].
  change (String c a +:+ "") with (String c (a +:+ "")). now rewrite IH.
Qed.

Lemma text_of_digits (keys : list string) :
  Forall (fun d => digit_key d = true) keys ->
  Forall (fun c => JS.is_digit c = true) (list_ascii_of_string (text_of keys))
  /\ String.length (text_of keys) = length keys.
Proof.
  induction 1 as [|d keys Hd Hkeys [IHdigits IHlength]]; [split; [constructor | reflexivity]|].
  destruct d as [|c [|c' d]]; try discriminate Hd. cbn in Hd.
  cbn [text_of fold_right]. fold (text_of keys).
  change (String c "" +:+ text_of keys) with (String c (text_of keys)).
  cbn [list_ascii_of_string String.length length].
  split; [constructor; assumption | now rewrite IHlength].
Qed.

Lemma typed_strategy (keys : list string) :
  forall w : App,
    currentStrategy (model (typed keys w)) = currentStrategy (model w).
Proof.
  induction keys as [|d keys IH]; intros w; [reflexivity|].
  cbn [typed fold_left]. fold (typed keys). rewrite IH, inputNumber_eq. cbv zeta.
  destruct (isWaitingForOperand _); [reflexivity|].
  destruct (15 <? _)%nat; reflexivity.
Qed.

(** A plain number typed on a fresh entry reads back as its text, and
    changes nothing else. *)
Lemma typed_plain (keys : list string) (w : App) :
  let s := state (model w) in
  plain_number keys ->
  isWaitingForOperand s = true \/ currentValue s = "0" ->
  model (typed keys w)
  = {| state := with_currentValue (text_of keys) false s;
       calculationHistory := calculationHistory (model w);
       currentStrategy := currentStrategy (model w) |}.
Proof.
  cbv zeta. intros (Hkeys & Hlen & Hlead) Hstart.
  destruct keys as [|d keys]; [contradiction|].
  apply Forall_cons in Hkeys as [Hd Hkeys].
  pose proof (digit_key_length d Hd) as Hd1.
  assert (Hfirst : fst (CalculatorController.inputNumber d w) = entered d w).
  { rewrite inputNumber_eq. cbv zeta.
    destruct (isWaitingForOperand (state (model w))) eqn:Hwait; [reflexivity|].
    destruct Hstart as [Hw | Hcur]; [discriminate|]. rewrite Hcur.
    cbn [String.eqb Ascii.eqb Bool.eqb]. rewrite Hd1. reflexivity. }
  change (typed (d :: keys) w)
    with (typed keys (fst (CalculatorController.inputNumber d w))).
  rewrite Hfirst.
  destruct keys as [|d' keys].
  - cbn [typed fold_left text_of fold_right]. rewrite string_append_nil_r. reflexivity.
  - pose proof (typed_strategy (d' :: keys) (entered d w)) as Hstrategy.
    pose proof (typed_appends (d' :: keys) (entered d w)) as Happend.
    cbv zeta in Happend.
    cbn [entered model state currentValue isWaitingForOperand with_currentValue
         calculationHistory currentStrategy] in Happend, Hstrategy.
    destruct Happend as [Hstate Hlog].
    + reflexivity.
    + exact Hlead.
    + intros ->. discriminate Hd1.
    + exact Hkeys.
    + cbn [length] in Hlen |- *. rewrite Hd1. lia.
    + destruct (model (typed (d' :: keys) (entered d w))) as [s' log' strategy'].
      cbn [state calculationHistory currentStrategy] in *.
      subst s' log' strategy'. reflexivity.
Qed.

Lemma plain_number_text (keys : list string) :
  plain_number keys ->
  text_of keys <> ""
  /\ Forall (fun c => JS.is_digit c = true) (list_ascii_of_string (text_of keys))
  /\ (String.length (text_of keys) <= 15)%nat.
Proof.
  intros (Hkeys & Hlen & Hlead).
  destruct (text_of_digits keys Hkeys) as [Hdigits Hlength].
  split; [|split; [exact Hdigits | lia]].
  intros Hempty. rewrite Hempty in Hlength. destruct keys; [contradiction | discriminate].
Qed.

(** ** Plain numbers read and print as typed *)

Lemma plain_number_canonical (keys : list string) :
  plain_number keys ->
  text_of keys = "0"
  \/ exists c rest, text_of keys = String c rest /\ c <> "0"%char.
Proof.
  intros (Hkeys & _ & Hlead). destruct keys as [|d keys]; [contradiction|].
  apply Forall_cons in Hkeys as [Hd _].
  destruct d as [|c [|c' d]]; try discriminate Hd.
  cbn [text_of fold_right]. fold (text_of keys).
  change (String c "" +:+ text_of keys) with (String c (text_of keys)).
  destruct (ascii_dec c "0") as [->|Hc].
  - destruct keys as [|d' keys]; [left; reflexivity | contradiction Hlead; reflexivity].
  - right. exists c, (text_of keys). split; [reflexivity | exact Hc].
Qed.

(** A plain number is read as its value, an integer below [10^15], which
    prints as the text typed. *)
Lemma plain_number_round_trip (keys : list string) :
  let v := decimal_value (text_of keys) in
  plain_number keys ->
  0 <= v < 10 ^ 15
  /\ JS.parseFloat (text_of keys) = JS.of_Z v
  /\ JS.toString (JS.of_Z v) = text_of keys
  /\ JS.isNaN (JS.of_Z v) = false
  /\ (JS.strict_eq (JS.of_Z v) 0%float = true -> text_of keys = "0").
Proof.
  cbv zeta. intros Hplain.
  destruct (plain_number_text keys Hplain) as (Hne & Hdigits & Hlen).
  destruct (parseFloat_digits (text_of keys) Hne Hdigits ltac:(lia))
    as (Hparse & Hbounds & Hnan).
  pose proof (digits_of_decimal_value (text_of keys) Hdigits
                (plain_number_canonical keys Hplain)) as Hprint.
  assert (Hpow : 10 ^ Z.of_nat (String.length (text_of keys)) <= 10 ^ 15)
    by (apply Z.pow_le_mono_r; lia).
  assert (Hbig : 10 ^ 15 < 2 ^ 53) by (vm_compute; reflexivity).
  split; [lia|]. split; [exact Hparse|].
  split; [rewrite toString_of_Z by lia; exact Hprint|].
  split; [rewrite <- Hparse; exact Hnan|].
  destruct (Z.eq_dec (decimal_value (text_of keys)) 0) as [Hzero|Hnonzero].
  - intros _. rewrite Hzero in Hprint. symmetry. exact Hprint.
  - destruct (of_Z_mantissa (decimal_value (text_of keys)) ltac:(lia))
      as (m & e & Hfloat & _).
    unfold JS.strict_eq. rewrite FloatAxioms.eqb_spec, Hfloat. discriminate.
Qed.

Section CalculationProperties.
Context `{Host}.

(** X7.  The keys [a op b =] on a fresh entry, for plain numbers [a] and
    [b] of up to 15 digits: the operation is applied to the two integers
    typed.  When it completes with [r], the entry shows [r] formatted, the
    operator and the previous value are cleared, and the log receives
    ['a op b'], spelled as typed, with the formatted result; when it
    throws, the message is shown and the pending operation stays as
    typed. *)
Theorem calculation_typed_result (t : Clock) (a b : list string) (op : string)
  (w : App) :
  let s := state (model w) in
  let x := JS.of_Z (decimal_value (text_of a)) in
  let y := JS.of_Z (decimal_value (text_of b)) in
  let expression := text_of a +:+ " " +:+ op +:+ " " +:+ text_of b in
  plain_number a -> plain_number b ->
  previousValue s = "" ->
  isWaitingForOperand s = true \/ currentValue s = "0" ->
  (forall r,
     snd (CalculatorModel.calculate op x y w) = JS.Normal r ->
     engine (calculation_typed t a op b w)
     = (evaluated_state (formatted_or_zero r) expression s,
        take 100 (historyItem (t, expression, formatted_or_zero r)
                    :: calculationHistory (model w))))
  /\ (forall message,
        snd (CalculatorModel.calculate op x y w) = JS.Throw message ->
        engine (calculation_typed t a op b w)
        = ({| currentValue := text_of b; previousValue := text_of a;
              operator := Some op; isWaitingForOperand := false;
              history := text_of a +:+ " " +:+ op;
              memoryValue := memoryValue s |},
           calculationHistory (model w))
        /\ last (effects (calculation_typed t a op b w))
           = Some (View_showError message)).
Proof.
  cbv zeta. intros Ha Hb Hprev Hstart.
  destruct (plain_number_text a Ha) as (Ha_ne & _ & _).
  destruct (plain_number_round_trip a Ha) as (_ & Ha_parse & Ha_print & Ha_nan & _).
  destruct (plain_number_round_trip b Hb) as (_ & Hb_parse & Hb_print & Hb_nan & _).
  unfold calculation_typed.
  set (w1 := typed a w).
  assert (Hw1 : model w1 = {| state := with_currentValue (text_of a) false (state (model w));
                              calculationHistory := calculationHistory (model w);
                              currentStrategy := currentStrategy (model w) |})
    by (apply typed_plain; assumption).
  set (w2 := fst (CalculatorController.inputOperator op w1)).
  assert (Hw2 : model w2
                = {| state := with_operator (text_of a) (text_of a) op (state (model w));
                     calculationHistory := calculationHistory (model w);
                     currentStrategy := currentStrategy (model w) |}).
  { subst w2. rewrite inputOperator_eq. cbv zeta. rewrite Hw1.
    cbn [state currentValue with_currentValue previousValue].
    rewrite Ha_parse, Ha_nan, Hprev.
    change ("" =? "")%string with true. cbv iota. cbn [fst].
    unfold operator_entered. cbn [model]. rewrite Hw1, Ha_print. reflexivity. }
  set (w3 := typed b w2).
  assert (Hw3 : model w3
                = {| state := with_currentValue (text_of b) false (state (model w2));
                     calculationHistory := calculationHistory (model w2);
                     currentStrategy := currentStrategy (model w2) |}).
  { apply typed_plain; [exact Hb|]. left. rewrite Hw2. reflexivity. }
  rewrite Hw2 in Hw3. cbn [state calculationHistory currentStrategy] in Hw3.
  rewrite controller_calculate_eq. cbv zeta. rewrite Hw3.
  cbn [state operator with_currentValue with_operator previousValue currentValue
       currentStrategy].
  rewrite Ha_parse, Hb_parse, Hb_nan, Hb_print.
  apply String.eqb_neq in Ha_ne. rewrite Ha_ne. cbn [orb].
  rewrite calculate_eq.
  destruct (apply_operation _ _ _ _) as [r|message] eqn:Hresult; cbn [snd]; split.
  - intros r' [= <-]. unfold engine, evaluated. cbn [fst model state calculationHistory].
    rewrite !calculate_eq, !controller_formatNumber_eq. rewrite Hw3.
    cbn [currentStrategy]. rewrite Hresult. cbn [fst].
    destruct (CalculatorModel.formatNumber r); cbn [model log_effect]; rewrite Hw3;
      reflexivity.
  - intros message [=].
  - intros r [=].
  - intros message' [= <-]. unfold engine. cbn [fst model log_effect]. rewrite Hw3.
    split; [reflexivity|].
    cbn [effects log_effect]. apply last_snoc.
Qed.

End CalculationProperties.

Lemma calculation_typed_result_witness :
  let w := app_of initial_state in
  plain_number ["1"; "2"] /\ plain_number ["3"; "0"]
  /\ snd (CalculatorModel.calculate (H := enUS_host) "+"
            (JS.of_Z (decimal_value (text_of ["1"; "2"])))
            (JS.of_Z (decimal_value (text_of ["3"; "0"]))) w)
     = JS.Normal 42%float
  /\ engine (calculation_typed (H := enUS_host) epoch ["1"; "2"] "+" ["3"; "0"] w)
     = ({| currentValue := "42"; previousValue := ""; operator := None;
           isWaitingForOperand := true; history := "12 + 30 =";
           memoryValue := 0%float |},
        [{| id := 0; expression := "12 + 30"; result := "42";
            timestamp := "1970-01-01T00:00:00.000Z" |}]).
Proof.
  cbv zeta.
  assert (Ha : plain_number ["1"; "2"])
    by (split; [repeat constructor | split; [cbn; lia | discriminate]]).
  assert (Hb : plain_number ["3"; "0"])
    by (split; [repeat constructor | split; [cbn; lia | discriminate]]).
  assert (Hr : snd (CalculatorModel.calculate (H := enUS_host) "+"
            (JS.of_Z (decimal_value (text_of ["1"; "2"])))
            (JS.of_Z (decimal_value (text_of ["3"; "0"]))) (app_of initial_state))
     = JS.Normal 42%float) by (vm_compute; reflexivity).
  split; [exact Ha | split; [exact Hb | split; [exact Hr|]]].
  rewrite (proj1 (calculation_typed_result (H := enUS_host) epoch ["1"; "2"] ["3"; "0"]
                    "+" (app_of initial_state) Ha Hb eq_refl (or_intror eq_refl))
             _ Hr).
  vm_compute. reflexivity.
Defined.

(** ** The history panel *)

Lemma loadFromHistory_eq (value : string) (w : App) :
  ControllerAPI.loadFromHistory value w
  = ({| model := {| state := with_currentValue value true (state (model w));
                    calculationHistory := calculationHistory (model w);
                    currentStrategy := currentStrategy (model w) |};
        effects := effects w ++ [Emit_valueChanged value]
                   ++ view_updates (with_currentValue value true (state (model w)))
                   ++ [View_showToast "Loaded from history" "success"] |},
     JS.Normal tt).
Proof.
  unfold ControllerAPI.loadFromHistory, with_currentValue.
  destruct w as [[[cur prev op waiting hist mem] log strategy] effs]. run_js.
Qed.

Section HistoryPanelProperties.
Context `{Host}.

(** X27.  A click on the newest entry of the history panel right after a
    calculation changes nothing in the model: [calculate()] logs the text
    it shows, and [loadFromHistory] puts the [result] of the entry back as
    the entry, awaiting an operand.  In general [loadFromHistory(value)]
    replaces the entry by [value], awaits an operand and keeps the rest of
    the model. *)
Theorem loadFromHistory_newest_result (t : Clock) (op : string) (r : JS.number)
  (w : App) :
  let s := state (model w) in
  let w' := fst (CalculatorController.calculate t w) in
  operator s = Some op -> previousValue s <> "" ->
  JS.isNaN (JS.parseFloat (currentValue s)) = false ->
  snd (CalculatorModel.calculate op (JS.parseFloat (previousValue s))
         (JS.parseFloat (currentValue s)) w) = JS.Normal r ->
  (exists item rest,
     snd (ModelAPI.getCalculationHistory w') = JS.Normal (item :: rest)
     /\ result item = currentValue (state (model w'))
     /\ model (fst (ControllerAPI.loadFromHistory (result item) w')) = model w')
  /\ (forall value,
        model (fst (ControllerAPI.loadFromHistory value w))
        = {| state := with_currentValue value true s;
             calculationHistory := calculationHistory (model w);
             currentStrategy := currentStrategy (model w) |}
        /\ snd (ControllerAPI.loadFromHistory value w) = JS.Normal tt).
Proof.
  cbv zeta. intros Hop Hprev Hnan Hresult. split.
  - rewrite controller_calculate_eq. cbv zeta. rewrite Hop, Hnan.
    apply String.eqb_neq in Hprev. rewrite Hprev. cbn [orb].
    rewrite calculate_eq in Hresult.
    destruct (apply_operation _ _ _ _) as [r'|message]; [|discriminate Hresult].
    cbn [fst]. unfold evaluated. cbn [take].
    eexists _, _. split; [reflexivity|]. split; [reflexivity|].
    rewrite loadFromHistory_eq. reflexivity.
  - intros value. rewrite loadFromHistory_eq. split; reflexivity.
Qed.

End HistoryPanelProperties.

Lemma loadFromHistory_newest_result_witness :
  let w := {| model := {| state := {| currentValue := "30"; previousValue := "12";
                                      operator := Some "+";
                                      isWaitingForOperand := false;
                                      history := "12 +"; memoryValue := 0%float |};
                          calculationHistory := []; currentStrategy := "basic" |};
              effects := [] |} in
  let w' := fst (CalculatorController.calculate (H := enUS_host) epoch w) in
  exists item rest,
    snd (ModelAPI.getCalculationHistory w') = JS.Normal (item :: rest)
    /\ result item = currentValue (state (model w'))
    /\ model (fst (ControllerAPI.loadFromHistory (result item) w')) = model w'.
Proof.
  cbv zeta.
  apply (loadFromHistory_newest_result (H := enUS_host) epoch "+" 42%float).
  - reflexivity.
  - discriminate.
  - vm_compute. reflexivity.
  - vm_compute. reflexivity.
Defined.

(** ** Grouped results read back *)

Lemma read_digits_until (l : list ascii) (c : ascii) (rest : list ascii) :
  forall acc count,
    Forall (fun c => JS.is_digit c = true) l -> JS.is_digit c = false ->
    JS.read_digits (l ++ c :: rest) acc count
    = (fold_left (fun acc c => 10 * acc + Z.of_nat (nat_of_ascii c - 48)) l acc,
       count + Z.of_nat (length l), c :: rest).
Proof.
  induction l as [|d l IH]; intros acc count Hdigits Hc.
  - cbn. rewrite Hc, Z.add_0_r. reflexivity.
  - apply Forall_cons in Hdigits as [Hd Hl]. cbn [app JS.read_digits fold_left length].
    rewrite Hd, IH by assumption.
    replace (count + 1 + Z.of_nat (length l)) with (count + Z.of_nat (S (length l)))
      by lia.
    reflexivity.
Qed.

(** [parseFloat] stops at a grouping comma: a text of digits followed by a
    comma is read as the digits before the comma. *)
Lemma parseFloat_stops_at_comma (digits rest : string) :
  digits <> "" ->
  Forall (fun c => JS.is_digit c = true) (list_ascii_of_string digits) ->
  JS.parseFloat (digits +:+ "," +:+ rest) = JS.parseFloat digits.
Proof.
  intros Hne Hdigits. unfold JS.parseFloat.
  rewrite list_ascii_of_string_append.
  change (list_ascii_of_string ("," +:+ rest))
    with (","%char :: list_ascii_of_string rest).
  destruct (list_ascii_of_string digits) as [|c l] eqn:Hlist.
  { destruct digits; [congruence | discriminate Hlist]. }
  apply Forall_cons in Hdigits as Hboth. destruct Hboth as [Hc Hl].
  set (tail := list_ascii_of_string rest).
  assert (Hstart : forall after,
            JS.read_sign (JS.skip_white_space (c :: after)) = (false, c :: after)
            /\ String.prefix "Infinity" (string_of_list_ascii (c :: after)) = false).
  { clear -Hc. intros after.
    destruct c as [[] [] [] [] [] [] [] []]; try discriminate Hc; split; reflexivity. }
  cbn [app].
  destruct (Hstart (l ++ ","%char :: tail)) as [-> ->].
  destruct (Hstart l) as [-> ->].
  change (c :: l ++ ","%char :: tail) with ((c :: l) ++ ","%char :: tail).
  rewrite (read_digits_until (c :: l) "," tail 0 0 Hdigits eq_refl).
  rewrite (read_digits_all (c :: l) 0 0 Hdigits).
  reflexivity.
Qed.

Section ReadBackProperties.
Context `{Host}.

(** X8.  A result shown with grouping commas is not read back as the
    number it shows: [parseFloat] stops at the first comma, so an entry
    [digits,rest] counts as [digits] alone.  The next operator stores that
    number as the previous value. *)
Theorem grouped_entry_read_as_first_group (next digits rest : string) (w : App) :
  let s := state (model w) in
  digits <> "" ->
  Forall (fun c => JS.is_digit c = true) (list_ascii_of_string digits) ->
  (String.length digits <= 18)%nat ->
  currentValue s = digits +:+ "," +:+ rest ->
  JS.parseFloat (currentValue s) = JS.of_Z (decimal_value digits)
  /\ (previousValue s = "" ->
      model (fst (CalculatorController.inputOperator next w))
      = {| state := with_operator (currentValue s)
                      (JS.toString (JS.of_Z (decimal_value digits))) next s;
           calculationHistory := calculationHistory (model w);
           currentStrategy := currentStrategy (model w) |}).
Proof.
  cbv zeta. intros Hne Hdigits Hlen Hcur.
  destruct (parseFloat_digits digits Hne Hdigits Hlen) as (Hparse & _ & Hnan).
  assert (Hread : JS.parseFloat (currentValue (state (model w)))
                  = JS.of_Z (decimal_value digits)).
  { rewrite Hcur, parseFloat_stops_at_comma by assumption. exact Hparse. }
  split; [exact Hread|].
  intros Hprev. rewrite inputOperator_eq. cbv zeta.
  rewrite Hread, <- Hparse, Hnan, Hprev. reflexivity.
Qed.

End ReadBackProperties.

Lemma grouped_entry_read_as_first_group_witness :
  let w := calculation_typed (H := enUS_host) epoch ["9"; "9"; "9"] "+" ["1"]
             (app_of initial_state) in
  currentValue (state (model w)) = "1" +:+ "," +:+ "000"
  /\ previousValue (state (model w)) = ""
  /\ previousValue
       (state (model (fst (CalculatorController.inputOperator (H := enUS_host)
                             "*" w))))
     = "1".
Proof.
  cbv zeta.
  assert (Hcur : currentValue
                   (state (model (calculation_typed (H := enUS_host) epoch
                                    ["9"; "9"; "9"] "+" ["1"] (app_of initial_state))))
                 = "1" +:+ "," +:+ "000") by (vm_compute; reflexivity).
  split; [exact Hcur | split; [vm_compute; reflexivity|]].
  rewrite (proj2 (grouped_entry_read_as_first_group (H := enUS_host) "*" "1" "000" _
                    ltac:(discriminate) ltac:(repeat constructor) ltac:(cbn; lia) Hcur));
    [|vm_compute; reflexivity].
  vm_compute. reflexivity.
Defined.

(** ** The strategies *)

Lemma basic_operations_names (op : string) :
  is_Some (CalculationStrategies.basic_operations op) ->
  op = "+" \/ op = "-" \/ op = "*" \/ op = "/" \/ op = "%".
Proof.
  unfold CalculationStrategies.basic_operations.
  destruct (String.eqb_spec op "+"); [tauto|].
  destruct (String.eqb_spec op "-"); [tauto|].
  destruct (String.eqb_spec op "*"); [tauto|].
  destruct (String.eqb_spec op "/"); [tauto|].
  destruct (String.eqb_spec op "%"); [tauto|].
  intros [f Hf]. discriminate Hf.
Qed.

Section StrategyModeProperties.
Context `{Host}.

Lemma setStrategy_known (strategy : string) (w : App) :
  strategy = "basic" \/ strategy = "scientific" ->
  ModelAPI.setStrategy strategy w
  = ({| model := {| state := state (model w);
                    calculationHistory := calculationHistory (model w);
                    currentStrategy := strategy |};
        effects := effects w
                   ++ [Logger_log "info" ("Strategy changed to: " +:+ strategy)] |},
     JS.Normal tt).
Proof. intros [-> | ->]; reflexivity. Qed.

(** X9.  Once the strategy is ['scientific'] ([setStrategy] accepts the two
    names of the table), the arithmetic of the basic table is unknown to
    [calculate]: every one of [+ - * / %] throws "Unknown operation", and
    [calculate()] with such an operator pending shows that message and
    leaves the model as it was.  Setting ['basic'] again restores them. *)
Theorem scientific_strategy_lacks_arithmetic (op : string) (w : App) :
  let w' := fst (ModelAPI.setStrategy "scientific" w) in
  is_Some (CalculationStrategies.basic_operations op) ->
  currentStrategy (model w') = "scientific"
  /\ state (model w') = state (model w)
  /\ (forall a b,
        snd (CalculatorModel.calculate op a b w')
        = JS.Throw ("Unknown operation: " +:+ op))
  /\ (forall t,
        operator (state (model w)) = Some op ->
        previousValue (state (model w)) <> "" ->
        JS.isNaN (JS.parseFloat (currentValue (state (model w)))) = false ->
        model (fst (CalculatorController.calculate t w')) = model w'
        /\ last (effects (fst (CalculatorController.calculate t w')))
           = Some (View_showError ("Unknown operation: " +:+ op)))
  /\ (forall a b,
        snd (CalculatorModel.calculate op a b
               (fst (ModelAPI.setStrategy "basic" w')))
        = apply_operation "basic" op a b
        /\ snd (CalculatorModel.calculate op a b
                  (fst (ModelAPI.setStrategy "basic" w')))
           <> JS.Throw ("Unknown operation: " +:+ op)).
Proof.
  cbv zeta. intros Hop.
  rewrite (setStrategy_known "scientific" w) by (right; reflexivity). cbn [fst].
  assert (Hunknown : forall a b,
            apply_operation "scientific" op a b
            = JS.Throw ("Unknown operation: " +:+ op)).
  { intros a b.
    destruct (basic_operations_names op Hop) as [-> | [-> | [-> | [-> | ->]]]];
      reflexivity. }
  split; [reflexivity | split; [reflexivity | split; [|split]]].
  - intros a b. rewrite calculate_eq. cbn [model currentStrategy].
    rewrite Hunknown. reflexivity.
  - intros t Hpending Hprev Hnan. rewrite controller_calculate_eq. cbv zeta.
    cbn [model state currentStrategy]. rewrite Hpending, Hnan.
    apply String.eqb_neq in Hprev. rewrite Hprev. cbn [orb].
    rewrite Hunknown. cbn [fst model log_effect effects].
    split; [reflexivity | apply last_snoc].
  - intros a b.
    rewrite (setStrategy_known "basic") by (left; reflexivity). cbn [fst].
    rewrite calculate_eq. cbn [model currentStrategy].
    assert (Hbasic : apply_operation "basic" op a b
                     <> JS.Throw ("Unknown operation: " +:+ op)).
    { unfold apply_operation. cbn.
      destruct (basic_operations_names op Hop) as [-> | [-> | [-> | [-> | ->]]]];
        cbn; try discriminate.
      destruct (JS.strict_eq b 0%float); discriminate. }
    destruct (apply_operation "basic" op a b) eqn:Hresult; cbn [snd];
      split; congruence.
Qed.

End StrategyModeProperties.

Lemma scientific_strategy_lacks_arithmetic_witness :
  is_Some (CalculationStrategies.basic_operations "+")
  /\ snd (CalculatorModel.calculate (H := enUS_host) "+" 2%float 3%float
            (fst (ModelAPI.setStrategy "scientific" (app_of initial_state))))
     = JS.Throw "Unknown operation: +"
  /\ snd (CalculatorModel.calculate (H := enUS_host) "+" 2%float 3%float
            (app_of initial_state))
     = JS.Normal 5%float.
Proof.
  assert (Hplus : is_Some (CalculationStrategies.basic_operations "+"))
    by (eexists; reflexivity).
  split; [exact Hplus | split; [|reflexivity]].
  apply (scientific_strategy_lacks_arithmetic (H := enUS_host) "+"
           (app_of initial_state) Hplus).
Defined.

(** ** The scientific functions *)

Section ScientificProperties.
Context `{Host}.


(** X11.  The constant keys do not need an entry: [pi] and [e] are
    formatted like every result, and their 16 digits make the formatter
    choose the exponential notation.  Whatever the state, the entry shows
    ['3.14159e+0'] (or ['2.71828e+0']), an operand is awaited, the log
    receives the constant's name with that text, and the number read back
    from the entry is not the constant. *)
Theorem constant_keys (t : Clock) (w : App) :
  let shown func :=
    state (model (fst (CalculatorController.performScientificFunction t func w))) in
  let logged func :=
    calculationHistory
      (model (fst (CalculatorController.performScientificFunction t func w))) in
  shown "pi" = scientific_state "3.14159e+0" (state (model w))
  /\ shown "e" = scientific_state "2.71828e+0" (state (model w))
  /\ logged "pi" = take 100 (historyItem (t, "pi", "3.14159e+0")
                               :: calculationHistory (model w))
  /\ logged "e" = take 100 (historyItem (t, "e", "2.71828e+0")
                              :: calculationHistory (model w))
  /\ JS.toString JS.Math_PI = "3.141592653589793"
  /\ JS.toString JS.Math_E = "2.718281828459045"
  /\ JS.strict_eq (JS.parseFloat "3.14159e+0") JS.Math_PI = false
  /\ JS.strict_eq (JS.parseFloat "2.71828e+0") JS.Math_E = false.
Proof.
  cbv beta zeta.
  assert (Hpi : CalculatorModel.formatNumber JS.Math_PI = JS.Normal "3.14159e+0")
    by (vm_compute; reflexivity).
  assert (He : CalculatorModel.formatNumber JS.Math_E = JS.Normal "2.71828e+0")
    by (vm_compute; reflexivity).
  rewrite !performScientificFunction_eq. cbv zeta.
  cbn [String.eqb Ascii.eqb Bool.eqb orb].
  rewrite !controller_formatNumber_eq. unfold formatted_or_zero.
  rewrite Hpi, He. cbn [fst].
  repeat split; vm_compute; reflexivity.
Qed.

End ScientificProperties.

(** ** The event emitter, once more *)


(** ** The command history, once more *)

Section HistoryRoundTrip.
Context {Calc Snapshot Operation Operand Result : Type}.
Variable getState : Calc -> Snapshot.
Variable setState : Snapshot -> Calc -> Calc.
Variable performOperation :
  Operation -> Operand -> Calc -> Calc * JS.completion Result.

Abbreviation Store := (@CommandHistory.Store Calc Snapshot Operation Operand).
Abbreviation execute := (CommandHistory.execute getState performOperation).
Abbreviation undo :=
  (@CommandHistory.undo Calc Snapshot Operation Operand setState).
Abbreviation canUndo :=
  (@CommandHistory.canUndo Calc Snapshot Operation Operand).
Abbreviation inv := HistoryInvariant.inv.
Abbreviation wf := (@HistoryInvariant.wf Calc Snapshot Operation Operand).
Abbreviation execute_each :=
  (HistoryInvariant.execute_each getState performOperation).
Abbreviation undo_many :=
  (@HistoryInvariant.undo_many Calc Snapshot Operation Operand setState).

(** X12.  [canUndo()] tells what [undo()] will do: on a history built by
    [execute()] and [undo()], [undo()] returns [true] exactly when
    [canUndo()] does, and [false] otherwise; a new history cannot undo, a
    history on which a command was just executed can. *)
Theorem canUndo_tells_undo (st : Store) :
  wf st ->
  (canUndo st = true <-> snd (undo st) = JS.Normal true)
  /\ (canUndo st = false <-> snd (undo st) = JS.Normal false)
  /\ (CommandHistory.this st = CommandHistory.new -> canUndo st = false)
  /\ (forall command result,
        snd (execute command st) = JS.Normal result ->
        canUndo (fst (execute command st)) = true).
Proof.
  intros Hwf. destruct (undo_wf getState setState performOperation st Hwf)
    as (Hpos & Hneg & _).
  unfold CommandHistory.canUndo.
  destruct (Z.leb_spec 0 (CommandHistory.currentIndex (CommandHistory.this st)))
    as [Hidx | Hidx].
  - destruct (Hpos Hidx) as (ref & cmd & snapshot & _ & _ & _ & ->). cbn [snd].
    repeat split; try congruence; try discriminate.
    + intros Hnew. rewrite Hnew in Hidx. cbn in Hidx. lia.
    + intros command result Hresult.
      destruct (history_step getState setState performOperation command st (proj1 Hwf))
        as (Hinv' & _ & Hpushed).
      destruct (Hpushed result Hresult) as (_ & _ & Hindex).
      unfold CommandHistory.index in Hindex.
      destruct (Z.ltb_spec (CommandHistory.currentIndex
                              (CommandHistory.this (fst (execute command st)))) 0);
        [discriminate|].
      apply Z.leb_le. lia.
  - rewrite (Hneg Hidx). cbn [snd].
    repeat split; try congruence; try discriminate.
    intros command result Hresult.
    destruct (history_step getState setState performOperation command st (proj1 Hwf))
      as (Hinv' & _ & Hpushed).
    destruct (Hpushed result Hresult) as (_ & _ & Hindex).
    unfold CommandHistory.index in Hindex.
    destruct (Z.ltb_spec (CommandHistory.currentIndex
                            (CommandHistory.this (fst (execute command st)))) 0);
      [discriminate|].
    apply Z.leb_le. lia.
Qed.

(** X14.  A command whose [execute()] throws is not recorded: the
    exception reaches the caller, the cursor stays, and the history keeps
    the commands up to the cursor.  The commands after the cursor are gone
    all the same (they were dropped before the command ran), and so is the
    command's earlier snapshot, overwritten before the operation ran. *)
Theorem execute_failure (command : nat) (st : Store) (e : string) :
  inv (CommandHistory.this st) ->
  snd (execute command st) = JS.Throw e ->
  let h := CommandHistory.this st in
  let h' := CommandHistory.this (fst (execute command st)) in
  CommandHistory.currentIndex h' = CommandHistory.currentIndex h
  /\ CommandHistory.commands h'
     = take (Z.to_nat (CommandHistory.currentIndex h + 1)) (CommandHistory.commands h)
  /\ Z.of_nat (length (CommandHistory.commands h')) = CommandHistory.currentIndex h + 1
  /\ (forall cmd,
        CommandHistory.heap st !! command = Some cmd ->
        CommandHistory.previousState
          <$> CommandHistory.heap (fst (execute command st)) !! command
        = Some (Some (getState (CommandHistory.calculator st)))).
Proof.
  intros Hinv Hthrow. cbv zeta.
  pose proof (execute_history getState performOperation command st Hinv) as Hhistory.
  cbv zeta in Hhistory. rewrite Hthrow in Hhistory. rewrite Hhistory. cbn.
  destruct Hinv as (Hrange & _ & _).
  repeat split.
  - rewrite length_take. lia.
  - intros cmd Hcmd. rewrite execute_heap, Hcmd, lookup_insert_eq. reflexivity.
Qed.







End HistoryRoundTrip.

(** ** The storage repository *)

Section RepositoryProperties.
Context {Data : Type}.
Variable JSON_stringify : Data -> JS.completion string.
Variable JSON_parse : string -> JS.completion Data.
Variable JSON_null : Data.
Variable setItem_fits : string -> string -> gmap string string -> bool.

Abbreviation save := (StorageRepository.save JSON_stringify setItem_fits).
Abbreviation load := (StorageRepository.load JSON_parse JSON_null).

(** X16.  What [save] stored is what [load] returns: when the data
    serialise to a text that fits and parses back, [save] answers [true] and
    a [load] under the same key returns the parsed data, leaving the
    storage as it is.  Other keys are not affected, and after [clear] the
    key loads as [null]. *)
Theorem save_then_load (storageKey : string) (data data' : Data) (text : string)
  (w : StorageRepository.World) :
  JSON_stringify data = JS.Normal text -> text <> "" ->
  setItem_fits storageKey text (StorageRepository.localStorage w) = true ->
  JSON_parse text = JS.Normal data' ->
  let w' := fst (save storageKey data w) in
  snd (save storageKey data w) = true
  /\ load storageKey w' = (w', data')
  /\ (forall other, other <> storageKey ->
        snd (load other w') = snd (load other w))
  /\ snd (load storageKey (fst (StorageRepository.clear storageKey w'))) = JSON_null
  /\ (forall other, other <> storageKey ->
        snd (load other (fst (StorageRepository.clear storageKey w')))
        = snd (load other w)).
Proof.
  intros Htext Hne Hfits Hparse. cbv zeta.
  unfold StorageRepository.save. rewrite Htext, Hfits. cbn [fst snd].
  apply String.eqb_neq in Hne.
  split; [reflexivity | split; [|split; [|split]]].
  - unfold StorageRepository.load. cbn [StorageRepository.localStorage].
    rewrite lookup_insert_eq, Hne, Hparse. reflexivity.
  - intros other Hother. unfold StorageRepository.load.
    cbn [StorageRepository.localStorage].
    rewrite lookup_insert_ne by congruence.
    destruct (StorageRepository.localStorage w !! other) as [stored|]; [|reflexivity].
    destruct (String.eqb stored ""); [reflexivity|].
    destruct (JSON_parse stored); reflexivity.
  - unfold StorageRepository.load, StorageRepository.clear.
    cbn [fst StorageRepository.localStorage]. rewrite lookup_delete_eq. reflexivity.
  - intros other Hother. unfold StorageRepository.load, StorageRepository.clear.
    cbn [fst StorageRepository.localStorage].
    rewrite lookup_delete_ne, lookup_insert_ne by congruence.
    destruct (StorageRepository.localStorage w !! other) as [stored|]; [|reflexivity].
    destruct (String.eqb stored ""); [reflexivity|].
    destruct (JSON_parse stored); reflexivity.
Qed.

(** X17.  The repository turns every failure into a result.  [load] never
    writes: a missing key, an empty string and a text that [JSON.parse]
    rejects all load as [null] (the last one logged).  [save] answers
    [false] when the data do not serialise or the value does not fit, and
    the storage is then as it was: what was stored before still loads. *)
Theorem repository_failures (storageKey : string) (data : Data)
  (w : StorageRepository.World) :
  StorageRepository.localStorage (fst (load storageKey w))
    = StorageRepository.localStorage w
  /\ (StorageRepository.localStorage w !! storageKey = None
      \/ StorageRepository.localStorage w !! storageKey = Some "" ->
      load storageKey w = (w, JSON_null))
  /\ (forall text e,
        StorageRepository.localStorage w !! storageKey = Some text ->
        text <> "" -> JSON_parse text = JS.Throw e ->
        load storageKey w
        = (StorageRepository.log_error "Failed to load data" w, JSON_null))
  /\ (snd (save storageKey data w) = false <->
      (exists e, JSON_stringify data = JS.Throw e)
      \/ (exists text, JSON_stringify data = JS.Normal text
                       /\ setItem_fits storageKey text
                            (StorageRepository.localStorage w) = false))
  /\ (snd (save storageKey data w) = false ->
      save storageKey data w
      = (StorageRepository.log_error "Failed to save data" w, false)
      /\ forall key, snd (load key (fst (save storageKey data w))) = snd (load key w)).
Proof.
  split; [|split; [|split; [|split]]].
  - unfold StorageRepository.load.
    destruct (StorageRepository.localStorage w !! storageKey) as [text|]; [|reflexivity].
    destruct (String.eqb text ""); [reflexivity|].
    destruct (JSON_parse text); reflexivity.
  - unfold StorageRepository.load. intros [-> | ->]; reflexivity.
  - intros text e Hstored Hne Hparse. unfold StorageRepository.load.
    apply String.eqb_neq in Hne. rewrite Hstored, Hne, Hparse. reflexivity.
  - unfold StorageRepository.save.
    destruct (JSON_stringify data) as [text|e]; cbn [snd].
    + destruct (setItem_fits storageKey text _) eqn:Hfits; cbn [snd].
      * split; [discriminate|].
        intros [[e He] | (text' & Htext & Hfull)]; [discriminate|].
        injection Htext as <-. congruence.
      * split; [|intros _; reflexivity]. intros _. right. exists text.
        split; [reflexivity | exact Hfits].
    + split; [|intros _; reflexivity]. intros _. left. exists e. reflexivity.
  - unfold StorageRepository.save.
    destruct (JSON_stringify data) as [text|e]; cbn [snd].
    + destruct (setItem_fits storageKey text _); cbn [snd fst]; [discriminate|].
      intros _. split; [reflexivity|]. intros key.
      unfold StorageRepository.load, StorageRepository.log_error.
      cbn [StorageRepository.localStorage].
      destruct (StorageRepository.localStorage w !! key) as [stored|]; [|reflexivity].
      destruct (String.eqb stored ""); [reflexivity|].
      destruct (JSON_parse stored); reflexivity.
    + intros _. split; [reflexivity|]. intros key.
      unfold StorageRepository.load, StorageRepository.log_error.
      cbn [fst StorageRepository.localStorage].
      destruct (StorageRepository.localStorage w !! key) as [stored|]; [|reflexivity].
      destruct (String.eqb stored ""); [reflexivity|].
      destruct (JSON_parse stored); reflexivity.
Qed.

End RepositoryProperties.

Lemma save_then_load_witness :
  DecimalJSON.stringify 42 = JS.Normal "42"
  /\ DecimalJSON.parse "42" = JS.Normal 42
  /\ snd (DecimalJSON.save "calculator-data" 42 DecimalJSON.empty) = true
  /\ snd (DecimalJSON.load "calculator-data"
            (fst (DecimalJSON.save "calculator-data" 42 DecimalJSON.empty)))
     = 42.
Proof.
  assert (Htext : DecimalJSON.stringify 42 = JS.Normal "42") by reflexivity.
  assert (Hparse : DecimalJSON.parse "42" = JS.Normal 42) by reflexivity.
  split; [exact Htext | split; [exact Hparse|]].
  pose proof (save_then_load DecimalJSON.stringify DecimalJSON.parse (-1)
                DecimalJSON.quota "calculator-data" 42 42 "42" DecimalJSON.empty
                Htext ltac:(discriminate) eq_refl Hparse) as (Hsaved & Hloaded & _).
  split; [exact Hsaved|].
  unfold DecimalJSON.load, DecimalJSON.save. rewrite Hloaded. reflexivity.
Defined.

(** ** The memory *)

Lemma sub_zero (x : JS.number) : (x - 0)%float = x.
Proof.
  apply FloatAxioms.Prim2SF_inj. rewrite FloatAxioms.sub_spec.
  change (Prim2SF 0%float) with (S754_zero false).
  destruct (Prim2SF x) as [[]|[]| |s m e]; reflexivity.
Qed.

Lemma add_zero (x : JS.number) :
  JS.isNaN x = false -> JS.strict_eq (x + 0)%float x = true.
Proof.
  unfold JS.isNaN, JS.strict_eq, is_nan.
  rewrite !FloatAxioms.eqb_spec, FloatAxioms.add_spec.
  change (Prim2SF 0%float) with (S754_zero false).
  destruct (Prim2SF x) as [[]|[]| |s m e]; intros Hnan;
    try discriminate Hnan; try reflexivity.
  unfold FloatAxioms.SF64add, SFadd. apply SFeqb_refl. discriminate.
Qed.

Lemma or_zero_cases (x : JS.number) :
  (JS.isNaN x = true \/ JS.strict_eq x 0%float = true -> ModelMemory.or_zero x = 0%float)
  /\ (JS.isNaN x = false -> JS.strict_eq x 0%float = false -> ModelMemory.or_zero x = x).
Proof.
  unfold ModelMemory.or_zero. split.
  - intros [-> | ->]; [reflexivity | rewrite orb_true_r; reflexivity].
  - intros -> ->. reflexivity.
Qed.

Lemma memory_operation_eq (o : MemoryOperation) (p : Page) :
  let memory := memoryValue (state (page_model p)) in
  memory_operation o p =
  (match o with
   | MemoryStore value =>
       let x := ModelMemory.or_zero (JS.parseFloat value) in
       memory_changed x ("Memory stored: " +:+ JS.toString x) p
   | MemoryAdd value =>
       let x := (memory + ModelMemory.or_zero (JS.parseFloat value))%float in
       memory_changed x
         ("Memory add: " +:+ value +:+ ", new value: " +:+ JS.toString x) p
   | MemorySubtract value =>
       let x := (memory - ModelMemory.or_zero (JS.parseFloat value))%float in
       memory_changed x
         ("Memory subtract: " +:+ value +:+ ", new value: " +:+ JS.toString x) p
   | MemoryClear => memory_changed 0%float "Memory cleared" p
   end, JS.Normal tt).
Proof.
  destruct p as [[[cur prev op waiting hist mem] log strategy] mode outputs].
  destruct o; cbn -[JS.toString JS.parseFloat ModelMemory.or_zero];
    unfold memory_changed; cbn; rewrite <- ?app_assoc; reflexivity.
Qed.

Lemma memoryRecall_eq (p : Page) :
  let memory := memoryValue (state (page_model p)) in
  ModelMemory.memoryRecall p =
  ({| page_model := page_model p; currentMode := currentMode p;
      trace := trace p ++ [Earlier (Logger_log "info"
                                      ("Memory recalled: " +:+ JS.toString memory))] |},
   JS.Normal (JS.toString memory)).
Proof. reflexivity. Qed.

(** X18.  What [memoryStore] stored is what [memoryRecall] returns, as a
    decimal string: it is the string of the number [parseFloat] read, and
    ['0'] when that is NaN or zero, as it is after [memoryClear()].  For a
    plain number of up to 15 digits it is the text stored, digit for
    digit.  [memoryRecall] itself changes nothing in the model. *)
Theorem memoryStore_then_recall (value : string) (p : Page) :
  let x := JS.parseFloat value in
  let recalled q := snd (ModelMemory.memoryRecall q) in
  (JS.isNaN x = false -> JS.strict_eq x 0%float = false ->
   recalled (fst (ModelMemory.memoryStore value p)) = JS.Normal (JS.toString x))
  /\ (JS.isNaN x = true \/ JS.strict_eq x 0%float = true ->
      recalled (fst (ModelMemory.memoryStore value p)) = JS.Normal "0")
  /\ (forall keys, plain_number keys -> value = text_of keys ->
      recalled (fst (ModelMemory.memoryStore value p)) = JS.Normal value)
  /\ recalled (fst (ModelMemory.memoryClear p)) = JS.Normal "0"
  /\ page_model (fst (ModelMemory.memoryRecall p)) = page_model p.
Proof.
  cbv beta zeta.
  pose proof (memory_operation_eq (MemoryStore value) p) as Hstore.
  pose proof (memory_operation_eq MemoryClear p) as Hclear.
  cbv zeta in Hstore, Hclear. cbn [memory_operation] in Hstore, Hclear.
  rewrite Hstore, Hclear, !memoryRecall_eq. cbv zeta.
  cbn [fst snd memory_changed page_model with_memoryValue set_state state memoryValue].
  destruct (or_zero_cases (JS.parseFloat value)) as [Hzero Hnumber].
  split; [|split; [|split; [|split]]].
  - intros Hnan Hnonzero. rewrite Hnumber by assumption. reflexivity.
  - intros Hfalsy. rewrite Hzero by assumption. reflexivity.
  - intros keys Hplain ->.
    destruct (plain_number_round_trip keys Hplain)
      as (_ & Hparse & Hprint & Hnan & Hzero').
    rewrite Hparse in Hzero, Hnumber |- *.
    destruct (JS.strict_eq (JS.of_Z (decimal_value (text_of keys))) 0%float) eqn:Heq.
    + rewrite Hzero by (right; reflexivity). rewrite Hzero' by reflexivity.
      reflexivity.
    + rewrite Hnumber by (exact Hnan || reflexivity). rewrite Hprint. reflexivity.
  - reflexivity.
  - reflexivity.
Qed.

(** X19.  An entry that [parseFloat] cannot read, or reads as zero, counts
    as 0 for the memory: [memoryStore] stores 0, [memorySubtract] leaves
    the memory exactly as it is, and [memoryAdd] leaves it equal (a memory
    of [-0] becomes [0]). *)
Theorem memory_ignores_unreadable (value : string) (p : Page) :
  let x := JS.parseFloat value in
  let memory := memoryValue (state (page_model p)) in
  let after operation := memoryValue (state (page_model (fst (operation value p)))) in
  JS.isNaN x = true \/ JS.strict_eq x 0%float = true ->
  after ModelMemory.memoryStore = 0%float
  /\ after ModelMemory.memorySubtract = memory
  /\ (JS.isNaN memory = false ->
      JS.strict_eq (after ModelMemory.memoryAdd) memory = true).
Proof.
  cbv beta zeta. intros Hfalsy.
  pose proof (memory_operation_eq (MemoryStore value) p) as Hstore.
  pose proof (memory_operation_eq (MemoryAdd value) p) as Hadd.
  pose proof (memory_operation_eq (MemorySubtract value) p) as Hsubtract.
  cbv zeta in Hstore, Hadd, Hsubtract.
  cbn [memory_operation] in Hstore, Hadd, Hsubtract.
  rewrite Hstore, Hadd, Hsubtract.
  cbn [fst memory_changed page_model with_memoryValue set_state state memoryValue].
  rewrite (proj1 (or_zero_cases _) Hfalsy).
  split; [reflexivity | split; [apply sub_zero | apply add_zero]].
Qed.

Lemma memory_ignores_unreadable_witness :
  let p := page_of (app_of (with_currentValue "7" false initial_state)) in
  JS.isNaN (JS.parseFloat "abc") = true
  /\ memoryValue (state (page_model (fst (ModelMemory.memoryAdd "5" p)))) = 5%float
  /\ memoryValue
       (state (page_model
                 (fst (ModelMemory.memorySubtract "abc"
                         (fst (ModelMemory.memoryAdd "5" p))))))
     = 5%float.
Proof.
  cbv zeta. split; [reflexivity | split; [reflexivity|]].
  rewrite (proj1 (proj2 (memory_ignores_unreadable "abc" _ (or_introl eq_refl)))).
  reflexivity.
Defined.

Lemma saves_app (a b : list Output) : saves (a ++ b) = saves a ++ saves b.
Proof. apply omap_app. Qed.

(** X20.  The memory operations touch the memory and nothing else of the
    model: the entry, the pending operation, the history label, the log and
    the strategy stay.  Each one saves: the last thing written to the
    storage repository is the new memory with the log, and the new memory
    is published as [memoryChanged]. *)
Theorem memory_operations_frame (o : MemoryOperation) (p : Page) :
  let p' := fst (memory_operation o p) in
  let memory' := memoryValue (state (page_model p')) in
  snd (memory_operation o p) = JS.Normal tt
  /\ beside_memory (page_model p') = beside_memory (page_model p)
  /\ currentMode p' = currentMode p
  /\ last (saves (trace p')) = Some (memory', calculationHistory (page_model p'))
  /\ (exists message,
        trace p' = trace p
                   ++ [Earlier (Storage_save memory' (calculationHistory (page_model p)));
                       Emit_memoryChanged memory';
                       Earlier (Logger_log "info" message)]).
Proof.
  cbv zeta. rewrite memory_operation_eq. cbv zeta. cbn [fst snd].
  destruct o; cbn [memory_changed page_model currentMode trace with_memoryValue
                   set_state state memoryValue calculationHistory];
    (split; [reflexivity | split; [reflexivity | split; [reflexivity | split]]];
     [rewrite saves_app; cbn; apply last_snoc | eexists; reflexivity]).
Qed.

(** ** Reset and state transfer *)

Lemma reset_eq (p : Page) :
  let s := state (page_model p) in
  ModelMemory.reset p =
  ({| page_model :=
        {| state := {| currentValue := "0"; previousValue := ""; operator := None;
                       isWaitingForOperand := false; history := "";
                       memoryValue := memoryValue s |};
           calculationHistory := calculationHistory (page_model p);
           currentStrategy := currentStrategy (page_model p) |};
      currentMode := currentMode p;
      trace := trace p
               ++ [Emit_reset (currentValue s) (previousValue s) (operator s)
                     (isWaitingForOperand s) (history s);
                   Earlier (Logger_log "info" "Calculator reset")] |},
   JS.Normal tt).
Proof.
  destruct p as [[[cur prev op waiting hist mem] log strategy] mode outputs].
  cbn. rewrite <- app_assoc. reflexivity.
Qed.

(** X21.  [reset()] clears the calculation in progress and nothing else:
    the entry is ['0'] again with no operator, no previous value and no
    history label, while the memory, the calculation log and the strategy
    stay, and nothing is written to the storage.  The state it replaced is
    published with the [reset] event; a second [reset()] changes nothing in
    the model, and a plain number typed next reads back as typed. *)
Theorem reset_clears_entry (p : Page) :
  let p' := fst (ModelMemory.reset p) in
  let s := state (page_model p) in
  state (page_model p')
    = {| currentValue := currentValue initial_state;
         previousValue := previousValue initial_state;
         operator := operator initial_state;
         isWaitingForOperand := isWaitingForOperand initial_state;
         history := history initial_state;
         memoryValue := memoryValue s |}
  /\ calculationHistory (page_model p') = calculationHistory (page_model p)
  /\ currentStrategy (page_model p') = currentStrategy (page_model p)
  /\ saves (trace p') = saves (trace p)
  /\ In (Emit_reset (currentValue s) (previousValue s) (operator s)
           (isWaitingForOperand s) (history s)) (trace p')
  /\ page_model (fst (ModelMemory.reset p')) = page_model p'
  /\ (forall keys, plain_number keys ->
        currentValue (state (model (typed keys (app_state p')))) = text_of keys).
Proof.
  cbv zeta. rewrite !reset_eq. cbv zeta. cbn [fst page_model trace state
    calculationHistory currentStrategy memoryValue].
  repeat split.
  - rewrite saves_app. cbn. apply app_nil_r.
  - apply in_or_app. right. left. reflexivity.
  - intros keys Hkeys. rewrite typed_plain; [reflexivity | exact Hkeys|].
    right. reflexivity.
Qed.

(** X22.  [setState] installs what [getState] reads: after [setState(s)],
    [getState()] returns [s], and [setState(getState())] leaves the model
    as it is.  The six fields of the state are all it restores: the
    calculation log and the strategy are not part of a snapshot, and the
    restored memory is not written to the storage. *)
Theorem setState_installs_snapshot (s : State) (p : Page) :
  let p' := fst (ModelMemory.setState s p) in
  snd (ModelMemory.getState p') = JS.Normal s
  /\ snd (ModelMemory.getState p) = JS.Normal (state (page_model p))
  /\ page_model (fst (ModelMemory.setState (state (page_model p)) p)) = page_model p
  /\ calculationHistory (page_model p') = calculationHistory (page_model p)
  /\ currentStrategy (page_model p') = currentStrategy (page_model p)
  /\ trace p' = trace p ++ [Emit_stateChanged s]
  /\ saves (trace p') = saves (trace p).
Proof.
  cbv zeta.
  destruct p as [[[cur prev op waiting hist mem] log strategy] mode outputs].
  destruct s as [cur' prev' op' waiting' hist' mem'].
  cbn. repeat split. rewrite saves_app. cbn. apply app_nil_r.
Qed.

(** ** The handlers of the mode toggle and of the memory keys *)

Section HandlerProperties.
Context `{Host}.

Lemma handleModeToggle_eq (target : Target) (p : Page) :
  let mode := dataset_mode target in
  let isScientific := bool_decide (mode = Some "scientific") in
  let strategy := if isScientific then "scientific" else "basic" in
  ControllerHandlers.handleModeToggle target p =
  ({| page_model := {| state := state (page_model p);
                       calculationHistory := calculationHistory (page_model p);
                       currentStrategy := strategy |};
      currentMode := mode;
      trace := trace p
               ++ [Earlier (Logger_log "info" ("Strategy changed to: " +:+ strategy));
                   View_toggleScientificMode isScientific;
                   View_updateModeToggles mode;
                   Earlier (View_showToast
                              (ControllerHandlers.template mode +:+ " mode activated")
                              "success")] |},
   JS.Normal tt).
Proof.
  cbv zeta. destruct p as [m mode outputs].
  unfold ControllerHandlers.handleModeToggle.
  destruct (bool_decide (dataset_mode target = Some "scientific"));
    cbn; rewrite <- ?app_assoc; reflexivity.
Qed.

(** X23.  The mode toggle never throws and always selects one of the two
    strategies: ['scientific'] for the mode ['scientific'], ['basic'] for any
    other mode, a missing one included; the engine state and the log stay.
    In the scientific mode the arithmetic of the basic table is unknown to
    [calculate], so [+ - * / %] throw "Unknown operation" until the basic
    mode is selected again. *)
Theorem handleModeToggle_selects_strategy (target : Target) (p : Page) :
  let p' := fst (ControllerHandlers.handleModeToggle target p) in
  snd (ControllerHandlers.handleModeToggle target p) = JS.Normal tt
  /\ currentMode p' = dataset_mode target
  /\ state (page_model p') = state (page_model p)
  /\ calculationHistory (page_model p') = calculationHistory (page_model p)
  /\ (dataset_mode target = Some "scientific" ->
      currentStrategy (page_model p') = "scientific"
      /\ forall op a b,
           is_Some (CalculationStrategies.basic_operations op) ->
           snd (CalculatorModel.calculate op a b (app_state p'))
           = JS.Throw ("Unknown operation: " +:+ op))
  /\ (dataset_mode target <> Some "scientific" ->
      currentStrategy (page_model p') = "basic"
      /\ forall op a b,
           snd (CalculatorModel.calculate op a b (app_state p'))
           = apply_operation "basic" op a b).
Proof.
  cbv zeta. rewrite handleModeToggle_eq. cbv zeta.
  cbn [fst snd page_model currentMode state calculationHistory currentStrategy].
  split; [reflexivity | split; [reflexivity | split; [reflexivity | split;
    [reflexivity | split]]]].
  - intros Hmode. rewrite bool_decide_eq_true_2 by exact Hmode.
    split; [reflexivity|]. intros op a b Hop.
    rewrite calculate_eq. unfold app_state. cbn [model page_model currentStrategy].
    destruct (basic_operations_names op Hop) as [-> | [-> | [-> | [-> | ->]]]];
      reflexivity.
  - intros Hmode. rewrite bool_decide_eq_false_2 by exact Hmode.
    split; [reflexivity|]. intros op a b.
    rewrite calculate_eq. unfold app_state. cbn [model page_model currentStrategy].
    destruct (apply_operation "basic" op a b); reflexivity.
Qed.

End HandlerProperties.

(** ** The log and the storage *)

Lemma clearHistory_eq (w : App) :
  ModelAPI.clearHistory w =
  ({| model := set_calculationHistory [] (model w);
      effects := effects w
                 ++ [Storage_save (memoryValue (state (model w))) [];
                     Emit_historyUpdated [];
                     Logger_log "info" "History cleared"] |}, JS.Normal tt).
Proof.
  destruct w as [[s log strategy] es].
  unfold ModelAPI.clearHistory, CalculatorModel.saveState. run_js.
Qed.

Section LogProperties.
Context `{Host}.

Lemma log_operation_sync (o : LogOperation) (w : App) :
  let w' := log_operation o w in
  state (model w') = state (model w)
  /\ currentStrategy (model w') = currentStrategy (model w)
  /\ ((length (calculationHistory (model w)) <= 100)%nat ->
      (length (calculationHistory (model w')) <= 100)%nat)
  /\ last (saved (effects w'))
     = Some (memoryValue (state (model w')), calculationHistory (model w'))
  /\ match o with
     | AddToHistory t expression result =>
         calculationHistory (model w')
         = take 100 (historyItem (t, expression, result) :: calculationHistory (model w))
     | ClearHistory => calculationHistory (model w') = []
     end.
Proof.
  cbv zeta. destruct o as [t expression result|]; cbn [log_operation].
  - unfold CalculatorModel.addCalculationToHistory. rewrite addToHistory_eq.
    cbv zeta. cbn [fst model effects state set_calculationHistory calculationHistory
      currentStrategy].
    repeat split.
    + intros _. rewrite length_take. lia.
    + unfold saved. rewrite omap_app. cbn. apply last_snoc.
  - rewrite clearHistory_eq.
    cbn [fst model effects state set_calculationHistory calculationHistory
      currentStrategy].
    repeat split.
    + cbn. lia.
    + unfold saved. rewrite omap_app. cbn. apply last_snoc.
Qed.

(** X24.  The storage follows the log.  Across any sequence of insertions
    into the calculation log and of [clearHistory()], the log stays within
    100 entries and the engine state and the strategy stay as they are; after
    each operation the last thing saved is the memory with the log as it
    now is.  [clearHistory()] leaves the log empty whatever it held, so the
    entries inserted after it are all the log holds. *)
Theorem log_operations_sync (os : list LogOperation) (w : App) :
  let w' := log_operations os w in
  (length (calculationHistory (model w)) <= 100)%nat ->
  (length (calculationHistory (model w')) <= 100)%nat
  /\ state (model w') = state (model w)
  /\ currentStrategy (model w') = currentStrategy (model w)
  /\ (os <> [] ->
      last (saved (effects w'))
      = Some (memoryValue (state (model w')), calculationHistory (model w')))
  /\ (forall entries,
        calculationHistory
          (model (addAllToHistory entries (fst (ModelAPI.clearHistory w'))))
        = take 100 (rev (map historyItem entries))).
Proof.
  cbv zeta. intros Hcap.
  assert (Hall : forall os w,
            (length (calculationHistory (model w)) <= 100)%nat ->
            (length (calculationHistory (model (log_operations os w))) <= 100)%nat
            /\ state (model (log_operations os w)) = state (model w)
            /\ currentStrategy (model (log_operations os w)) = currentStrategy (model w)
            /\ (os <> [] ->
                last (saved (effects (log_operations os w)))
                = Some (memoryValue (state (model (log_operations os w))),
                        calculationHistory (model (log_operations os w))))).
  { clear. intros os. induction os as [|o os IH] using rev_ind; intros w Hcap.
    - repeat split; [exact Hcap | congruence].
    - unfold log_operations. rewrite fold_left_app. cbn [fold_left].
      fold (log_operations os w).
      destruct (IH w Hcap) as (Hcap' & Hstate & Hstrategy & _).
      destruct (log_operation_sync o (log_operations os w))
        as (Hstate' & Hstrategy' & Hcap'' & Hsaved & _).
      repeat split; [auto | congruence | congruence | intros _; exact Hsaved]. }
  destruct (Hall os w Hcap) as (Hcap' & Hstate & Hstrategy & Hsaved).
  split; [exact Hcap' | split; [exact Hstate | split; [exact Hstrategy | split;
    [exact Hsaved|]]]].
  intros entries.
  rewrite (addAllToHistory_from entries _ []).
  - rewrite app_nil_r. reflexivity.
  - rewrite clearHistory_eq. reflexivity.
Qed.

End LogProperties.

Lemma log_operations_sync_witness :
  let os := [AddToHistory epoch "1 + 1" "2"; ClearHistory;
             AddToHistory epoch "2 * 3" "6"] in
  (length (calculationHistory (model (app_of initial_state))) <= 100)%nat
  /\ last (saved (effects (log_operations (H := enUS_host) os (app_of initial_state))))
     = Some (0%float, [historyItem (epoch, "2 * 3", "6")]).
Proof.
  cbv zeta. split; [cbn; lia|].
  rewrite (proj1 (proj2 (proj2 (proj2
             (log_operations_sync (H := enUS_host) _ (app_of initial_state)
                ltac:(cbn; lia)))))) by discriminate.
  reflexivity.
Defined.

(** ** Input validation *)

(** X25.  [validateInput] accepts one character at a time: every digit key
    and every operator of the basic table pass, as do the point, the
    parentheses and the equals sign; the empty string, any text of two or
    more characters (a number like ['10'], a scientific function name) and
    any other character are rejected. *)
Theorem validateInput_accepts_keys (input : string) :
  (digit_key input = true -> ModelAPI.validateInput input = true)
  /\ (is_Some (CalculationStrategies.basic_operations input) ->
      ModelAPI.validateInput input = true)
  /\ (ModelAPI.validateInput input = true -> String.length input = 1%nat)
  /\ (forall host : Host,
        is_Some (CalculationStrategies.scientific_operations (H := host) input) ->
        ModelAPI.validateInput input = false)
  /\ (ModelAPI.validateInput input = true <->
      exists c, input = String c ""
                /\ (JS.is_digit c = true
                    \/ In c ["+"; "-"; "*"; "/"; "."; "%"; "("; ")"; "="]%char)).
Proof.
  split; [|split; [|split; [|split]]].
  - destruct input as [|c [|c' rest]]; cbn; try discriminate.
    intros ->. reflexivity.
  - intros Hop.
    destruct (basic_operations_names input Hop) as [-> | [-> | [-> | [-> | ->]]]];
      reflexivity.
  - destruct input as [|c [|c' rest]]; cbn; try discriminate. reflexivity.
  - intros host [f Hf]. unfold CalculationStrategies.scientific_operations in Hf.
    repeat match type of Hf with
           | (if String.eqb ?a ?b then _ else _) = _ =>
               destruct (String.eqb_spec a b) as [-> | _]; [reflexivity|]
           end.
    discriminate Hf.
  - destruct input as [|c [|c' rest]]; unfold ModelAPI.validateInput.
    + split; [discriminate | intros (c & Heq & _); discriminate].
    + split.
      * intros Hvalid. exists c. split; [reflexivity|].
        apply orb_prop in Hvalid as [Hdigit | Hclass]; [left; exact Hdigit | right].
        apply existsb_exists in Hclass as (x & Hin & Heq).
        apply Ascii.eqb_eq in Heq. subst x. exact Hin.
      * intros (x & [= <-] & [Hdigit | Hin]).
        -- rewrite Hdigit. reflexivity.
        -- apply orb_true_iff. right. apply existsb_exists. exists c.
           split; [exact Hin | apply Ascii.eqb_refl].
    + split; [discriminate | intros (x & Heq & _); discriminate].
Qed.

Section MemoryKeyProperties.
Context `{Host}.

(** X26.  The memory keys.  [M+] and [M-] take the number [parseFloat]
    reads from the entry (0 when it reads none) and leave the entry as it
    is; [MR] shows the memory as the entry and awaits an operand, so that
    the next digit replaces it, and leaves the memory as it is; [MC] stores
    0.  A click with any other action only animates the button.  The
    handler never throws. *)
Theorem handleMemoryClick_keys (target : Target) (p : Page) :
  let action := dataset_memory target in
  let s := state (page_model p) in
  let p' := fst (ControllerHandlers.handleMemoryClick target p) in
  let s' := state (page_model p') in
  let x := ModelMemory.or_zero (JS.parseFloat (currentValue s)) in
  snd (ControllerHandlers.handleMemoryClick target p) = JS.Normal tt
  /\ beside_entry (page_model p')
     = (previousValue s, operator s, history s, memoryValue s',
        calculationHistory (page_model p), currentStrategy (page_model p))
  /\ (action = Some "add" ->
      memoryValue s' = (memoryValue s + x)%float
      /\ currentValue s' = currentValue s
      /\ isWaitingForOperand s' = isWaitingForOperand s)
  /\ (action = Some "subtract" ->
      memoryValue s' = (memoryValue s - x)%float
      /\ currentValue s' = currentValue s
      /\ isWaitingForOperand s' = isWaitingForOperand s)
  /\ (action = Some "clear" ->
      memoryValue s' = 0%float /\ currentValue s' = currentValue s)
  /\ (action = Some "recall" ->
      memoryValue s' = memoryValue s
      /\ currentValue s' = JS.toString (memoryValue s)
      /\ isWaitingForOperand s' = true
      /\ forall d,
           currentValue
             (state (model (fst (CalculatorController.inputNumber d (app_state p')))))
           = d)
  /\ (action <> Some "add" -> action <> Some "subtract" ->
      action <> Some "clear" -> action <> Some "recall" ->
      p' = {| page_model := page_model p; currentMode := currentMode p;
              trace := trace p ++ [View_animateButton target] |}).
Proof.
  cbv zeta.
  destruct p as [[[cur prev op waiting hist mem] log strategy] mode outputs].
  unfold ControllerHandlers.handleMemoryClick.
  destruct (decide (dataset_memory target = Some "clear")) as [Hclear | Hclear].
  { rewrite Hclear. cbn -[JS.toString JS.parseFloat ModelMemory.or_zero].
    repeat split; try discriminate; congruence. }
  rewrite (bool_decide_eq_false_2 _ Hclear).
  destruct (decide (dataset_memory target = Some "recall")) as [Hrecall | Hrecall].
  { rewrite Hrecall. cbn -[JS.toString JS.parseFloat ModelMemory.or_zero
                           CalculatorController.inputNumber].
    repeat split; try discriminate; try congruence;
      try (intros d; rewrite inputNumber_eq; reflexivity). }
  rewrite (bool_decide_eq_false_2 _ Hrecall).
  destruct (decide (dataset_memory target = Some "add")) as [Hadd | Hadd].
  { rewrite Hadd. cbn -[JS.toString JS.parseFloat ModelMemory.or_zero].
    repeat split; try discriminate; congruence. }
  rewrite (bool_decide_eq_false_2 _ Hadd).
  destruct (decide (dataset_memory target = Some "subtract")) as [Hsubtract | Hsubtract].
  { rewrite Hsubtract. cbn -[JS.toString JS.parseFloat ModelMemory.or_zero].
    repeat split; try discriminate; congruence. }
  rewrite (bool_decide_eq_false_2 _ Hsubtract).
  cbn -[JS.toString JS.parseFloat ModelMemory.or_zero].
  repeat split; try congruence.
  intros _ _ _ _. rewrite app_nil_r. reflexivity.
Qed.

End MemoryKeyProperties.

(** ** Witnesses of the operator and history properties *)

Lemma inputOperator_registers_witness :
  let w := fst (CalculatorController.inputOperator (H := enUS_host) "+"
                  (typed ["1"; "2"] (app_of initial_state))) in
  JS.isNaN (JS.parseFloat (currentValue (state (model w)))) = false
  /\ state (model w)
     = {| currentValue := "12"; previousValue := "12"; operator := Some "+";
          isWaitingForOperand := true; history := "12 +";
          memoryValue := 0%float |}
  /\ state (model (fst (CalculatorController.inputOperator (H := enUS_host) "*" w)))
     = {| currentValue := "12"; previousValue := "12"; operator := Some "*";
          isWaitingForOperand := true; history := "12 *";
          memoryValue := 0%float |}.
Proof.
  cbv zeta.
  set (w := fst (CalculatorController.inputOperator (H := enUS_host) "+"
                   (typed ["1"; "2"] (app_of initial_state)))).
  assert (Hnan : JS.isNaN (JS.parseFloat (currentValue (state (model w)))) = false)
    by (vm_compute; reflexivity).
  split; [exact Hnan | split; [vm_compute; reflexivity|]].
  assert (Hprev : previousValue (state (model w)) <> "")
    by (vm_compute; discriminate).
  assert (Hwaiting : isWaitingForOperand (state (model w)) = true)
    by (vm_compute; reflexivity).
  rewrite (proj2 (inputOperator_registers (H := enUS_host) "*" w Hnan)
             Hprev (or_introl Hwaiting)).
  vm_compute. reflexivity.
Defined.

Lemma inputOperator_chains_witness :
  let w := typed ["3"]
             (fst (CalculatorController.inputOperator (H := enUS_host) "+"
                     (typed ["1"; "2"] (app_of initial_state)))) in
  operator (state (model w)) = Some "+"
  /\ state (model (fst (CalculatorController.inputOperator (H := enUS_host) "*" w)))
     = {| currentValue := "15"; previousValue := "15"; operator := Some "*";
          isWaitingForOperand := true; history := "15 *";
          memoryValue := 0%float |}
  /\ calculationHistory
       (model (fst (CalculatorController.inputOperator (H := enUS_host) "*" w)))
     = [].
Proof.
  cbv zeta. split; [reflexivity|].
  destruct (proj1 (inputOperator_chains (H := enUS_host) "*" "+"
                     (typed ["3"]
                        (fst (CalculatorController.inputOperator (H := enUS_host) "+"
                                (typed ["1"; "2"] (app_of initial_state)))))
                     ltac:(vm_compute; reflexivity) ltac:(vm_compute; discriminate)
                     eq_refl ltac:(discriminate) eq_refl)
              15%float ltac:(vm_compute; reflexivity)) as [Hmodel _].
  rewrite Hmodel. split; vm_compute; reflexivity.
Defined.

Lemma canUndo_tells_undo_witness :
  HistoryInvariant.wf (Accumulator.store 1)
  /\ CommandHistory.canUndo (Accumulator.store 1) = false
  /\ snd (CommandHistory.undo Accumulator.setState (Accumulator.store 1))
     = JS.Normal false.
Proof.
  assert (Hwf : HistoryInvariant.wf (Accumulator.store 1)).
  { unfold HistoryInvariant.wf, HistoryInvariant.inv. cbn.
    split; [lia | constructor]. }
  split; [exact Hwf | split; [reflexivity|]].
  apply (proj1 (proj2 (canUndo_tells_undo Accumulator.getState Accumulator.setState
                         Accumulator.performOperation (Accumulator.store 1) Hwf))).
  reflexivity.
Defined.


Lemma execute_failure_witness :
  let st := fst (CommandHistory.execute Accumulator.getState
                   Accumulator.performOperation 0%nat store_with_unknown_operation) in
  HistoryInvariant.inv (CommandHistory.this st)
  /\ snd (CommandHistory.execute Accumulator.getState Accumulator.performOperation
            1%nat st)
     = JS.Throw "Unknown operation: sub"
  /\ CommandHistory.commands
       (CommandHistory.this
          (fst (CommandHistory.execute Accumulator.getState
                  Accumulator.performOperation 1%nat st)))
     = [0%nat].
Proof.
  cbv zeta.
  assert (Hinv : HistoryInvariant.inv
            (CommandHistory.this
               (fst (CommandHistory.execute Accumulator.getState
                       Accumulator.performOperation 0%nat
                       store_with_unknown_operation)))).
  { assert (Hthis : CommandHistory.this
                      (fst (CommandHistory.execute Accumulator.getState
                              Accumulator.performOperation 0%nat
                              store_with_unknown_operation))
                    = {| CommandHistory.commands := [0%nat];
                         CommandHistory.currentIndex := 0;
                         CommandHistory.maxHistory := 50 |})
      by (vm_compute; reflexivity).
    rewrite Hthis. unfold HistoryInvariant.inv. cbn. lia. }
  assert (Hthrow : snd (CommandHistory.execute Accumulator.getState
                          Accumulator.performOperation 1%nat
                          (fst (CommandHistory.execute Accumulator.getState
                                  Accumulator.performOperation 0%nat
                                  store_with_unknown_operation)))
                   = JS.Throw "Unknown operation: sub") by (vm_compute; reflexivity).
  split; [exact Hinv | split; [exact Hthrow|]].
  rewrite (proj1 (proj2 (execute_failure Accumulator.getState
                           Accumulator.performOperation 1%nat _ _ Hinv Hthrow))).
  vm_compute. reflexivity.
Defined.

Lemma memoryStore_then_recall_witness :
  plain_number ["4"; "2"]
  /\ snd (ModelMemory.memoryRecall
            (fst (ModelMemory.memoryStore "42" (page_of (app_of initial_state)))))
     = JS.Normal "42".
Proof.
  assert (Hplain : plain_number ["4"; "2"])
    by (split; [repeat constructor | split; [cbn; lia | discriminate]]).
  split; [exact Hplain|].
  exact (proj1 (proj2 (proj2 (memoryStore_then_recall "42"
                                (page_of (app_of initial_state)))))
           ["4"; "2"] Hplain eq_refl).
Defined.

(** ** The dispatchers *)

Lemma run_eq {A : Type} (c : M A) (p : Page) :
  PageMonad.run c p
  = ({| page_model := model (fst (c (app_state p))); currentMode := currentMode p;
        trace := trace p ++ map Earlier (effects (fst (c (app_state p)))) |},
     snd (c (app_state p))).
Proof. unfold PageMonad.run, app_state. destruct (c _) as [w r]. reflexivity. Qed.

(** A page with one more output. *)
Lemma output_eq (o : Output) (p : Page) :
  PageMonad.output o p
  = ({| page_model := page_model p; currentMode := currentMode p;
        trace := trace p ++ [o] |}, JS.Normal tt).
Proof. reflexivity. Qed.

Lemma digit_between (c : ascii) :
  JS.is_digit c = true ->
  String.leb "0" (String c "") && String.leb (String c "") "9" = true.
Proof.
  destruct c as [[] [] [] [] [] [] [] []]; intros Hdigit;
    first [discriminate Hdigit | reflexivity].
Qed.


(** Runs the tests of a dispatcher on a known key. *)
Ltac dispatch :=
  unfold ControllerDispatch.handleKeyboard, ControllerDispatch.handleKeypadClick,
    PageMonad.bind;
  cbn [key_of KeyboardEvent.key KeyboardEvent.ctrlKey number_key operator_key
       action_key dataset_number dataset_operator dataset_action
       CalculatorController.truthy default from_option Datatypes.id];
  repeat match goal with
         | |- context [if ?b then _ else _] =>
             let v := eval vm_compute in b in
             match v with
             | true => change b with true
             | false => change b with false
             end; cbv iota
         end;
  cbv [PageMonad.ret PageMonad.output]; cbn [fst snd].

Section DispatchProperties.
Context `{Host}.
Variable call_on_this : string -> PageMonad.N unit.

Abbreviation handleKeypadClick := (ControllerDispatch.handleKeypadClick call_on_this).
Abbreviation handleKeyboard := (ControllerDispatch.handleKeyboard call_on_this).

Lemma handleKeypadClick_number (t : Clock) (target : Target) (d : string) (p : Page) :
  dataset_number target = Some d -> d <> "" ->
  handleKeypadClick t target p
  = PageMonad.run (CalculatorController.inputNumber d)
      (fst (PageMonad.output (View_animateButton target) p)).
Proof.
  intros Hd Hne. unfold ControllerDispatch.handleKeypadClick, PageMonad.bind.
  rewrite output_eq, Hd. cbn [CalculatorController.truthy default from_option fst].
  apply String.eqb_neq in Hne. rewrite Hne. reflexivity.
Qed.

Lemma handleKeyboard_digit (t : Clock) (ctrl : bool) (c : ascii) (p : Page) :
  JS.is_digit c = true ->
  handleKeyboard t (key_of ctrl (String c "")) p
  = PageMonad.run (CalculatorController.inputNumber (String c ""))
      (fst (PageMonad.output Event_preventDefault p)).
Proof.
  intros Hdigit. unfold ControllerDispatch.handleKeyboard, PageMonad.bind.
  cbn [key_of KeyboardEvent.key].
  assert (Hclass : ControllerDispatch.calculator_key (String c "") = true).
  { unfold ControllerDispatch.calculator_key. cbn [list_ascii_of_string existsb].
    rewrite Hdigit. reflexivity. }
  rewrite Hclass. cbn [orb]. rewrite output_eq, (digit_between c Hdigit). reflexivity.
Qed.

(** X28.  The keyboard reaches the same functions as the keypad.  A digit
    key and a click on that digit leave the model [inputNumber] leaves; each
    of [+ - * / %] and a click on that operator, the model [inputOperator]
    leaves; [Enter], [=] and the equals button, the model [calculate()]
    leaves; [Escape] and the clear button, the model [reset()] leaves.
    None of these depends on what [this] is in the handlers. *)
Theorem keyboard_matches_keypad (t : Clock) (ctrl : bool) (p : Page) :
  let after_key key := page_model (fst (handleKeyboard t (key_of ctrl key) p)) in
  let after_click target := page_model (fst (handleKeypadClick t target p)) in
  (forall d, digit_key d = true ->
     after_key d = after_click (number_key d)
     /\ after_key d
        = model (fst (CalculatorController.inputNumber d (app_state p))))
  /\ (forall op, is_Some (CalculationStrategies.basic_operations op) ->
        after_key op = after_click (operator_key op)
        /\ after_key op
           = model (fst (CalculatorController.inputOperator op (app_state p))))
  /\ (after_key "Enter" = after_click (action_key "equals")
      /\ after_key "=" = after_click (action_key "equals")
      /\ after_key "="
         = model (fst (CalculatorController.calculate t (app_state p))))
  /\ (after_key "Escape" = after_click (action_key "clear")
      /\ after_key "Escape" = page_model (fst (ModelMemory.reset p))).
Proof.
  cbv beta zeta. split; [|split; [|split]].
  - intros d Hd. destruct d as [|c [|c' d]]; try discriminate Hd. cbn in Hd.
    rewrite (handleKeypadClick_number t (number_key (String c "")) (String c ""))
      by (reflexivity || discriminate).
    rewrite handleKeyboard_digit by exact Hd.
    rewrite !run_eq. split; reflexivity.
  - intros op Hop.
    destruct (basic_operations_names op Hop) as [-> | [-> | [-> | [-> | ->]]]];
      dispatch; rewrite !run_eq; split; reflexivity.
  - dispatch. rewrite !run_eq. repeat split; reflexivity.
  - dispatch. rewrite !reset_eq. split; reflexivity.
Qed.

End DispatchProperties.

(** ** What the controller's functions do to the model depends on the model alone *)

Ltac same_model :=
  first [ reflexivity
        | cbn; match goal with Hmodel : model _ = model _ |- _ =>
                 rewrite <- ?Hmodel; reflexivity
               end ].

Section ModelOnly.
Context `{Host}.

Lemma inputNumber_model (d : string) (w w' : App) :
  model w = model w' ->
  model (fst (CalculatorController.inputNumber d w))
  = model (fst (CalculatorController.inputNumber d w')).
Proof.
  intros Hmodel. rewrite !inputNumber_eq. cbv zeta. rewrite <- Hmodel.
  destruct (isWaitingForOperand _); [unfold entered; same_model|].
  destruct (15 <? _)%nat; [same_model|].
  unfold entered. cbn. rewrite <- Hmodel. reflexivity.
Qed.

Lemma inputOperator_model (op : string) (w w' : App) :
  model w = model w' ->
  model (fst (CalculatorController.inputOperator op w))
  = model (fst (CalculatorController.inputOperator op w')).
Proof.
  intros Hmodel. rewrite !inputOperator_eq. cbv zeta. rewrite <- Hmodel.
  destruct (JS.isNaN _); [same_model|].
  destruct (String.eqb _ _);
    [unfold operator_entered; same_model|].
  destruct (_ && _);
    [|unfold operator_entered; same_model].
  destruct (apply_operation _ _ _ _) as [r|message] eqn:Hresult; [|same_model].
  rewrite !calculate_eq, !controller_formatNumber_eq, <- Hmodel, Hresult.
  unfold operator_entered.
  destruct (CalculatorModel.formatNumber r); same_model.
Qed.

Lemma calculate_model (t : Clock) (w w' : App) :
  model w = model w' ->
  model (fst (CalculatorController.calculate t w))
  = model (fst (CalculatorController.calculate t w')).
Proof.
  intros Hmodel. rewrite !controller_calculate_eq. cbv zeta. rewrite <- Hmodel.
  destruct (operator _) as [op|]; [|same_model].
  destruct (_ || _); [same_model|].
  destruct (apply_operation _ _ _ _) as [r|message] eqn:Hresult; [|same_model].
  rewrite !calculate_eq, !controller_formatNumber_eq, <- Hmodel, Hresult.
  unfold evaluated.
  destruct (CalculatorModel.formatNumber r); same_model.
Qed.

Lemma typed_model (keys : list string) :
  forall w w' : App,
    model w = model w' -> model (typed keys w) = model (typed keys w').
Proof.
  induction keys as [|d keys IH]; intros w w' Hmodel; [exact Hmodel|].
  cbn [typed fold_left]. fold (typed keys). apply IH, inputNumber_model, Hmodel.
Qed.

End ModelOnly.

Section KeyProperties.
Context `{Host}.
Variable call_on_this : string -> PageMonad.N unit.

Abbreviation handleKeypadClick := (ControllerDispatch.handleKeypadClick call_on_this).
Abbreviation handleKeyboard := (ControllerDispatch.handleKeyboard call_on_this).


Lemma click_number (t : Clock) (d : string) (p : Page) :
  d <> "" ->
  page_model (fst (handleKeypadClick t (number_key d) p))
  = model (fst (CalculatorController.inputNumber d (app_state p))).
Proof.
  intros Hd. rewrite (handleKeypadClick_number call_on_this t (number_key d) d)
    by (reflexivity || exact Hd).
  rewrite run_eq. reflexivity.
Qed.

Lemma click_all_numbers (t : Clock) (keys : list string) :
  forall (p : Page) (w : App),
    Forall (fun d => d <> "") keys ->
    page_model p = model w ->
    page_model (click_all call_on_this t (map number_key keys) p)
    = model (typed keys w).
Proof.
  induction keys as [|d keys IH]; intros p w Hkeys Hmodel; [exact Hmodel|].
  apply Forall_cons in Hkeys as [Hd Hkeys].
  cbn [map click_all fold_left typed].
  apply IH; [exact Hkeys|].
  rewrite click_number by exact Hd. apply inputNumber_model. exact Hmodel.
Qed.

Lemma click_all_app (t : Clock) (a b : list Target) (p : Page) :
  click_all call_on_this t (a ++ b) p
  = click_all call_on_this t b (click_all call_on_this t a p).
Proof. apply fold_left_app. Qed.

(** X30.  Clicks on the buttons of [a op b =] leave the model that the
    calls [inputNumber], [inputOperator] and [calculate()] leave, whatever
    [this] is in the handlers: so the keys [5 + 3 =] on a fresh calculator
    show ['8']. *)
Theorem keypad_calculation (t : Clock) (a b : list string) (op : string) (p : Page) :
  Forall (fun d => d <> "") a -> Forall (fun d => d <> "") b -> op <> "" ->
  page_model (click_all call_on_this t (calculation_clicks a op b) p)
  = model (calculation_typed t a op b (app_state p)).
Proof.
  intros Ha Hb Hop. unfold calculation_clicks, calculation_typed.
  rewrite !click_all_app.
  set (p1 := click_all call_on_this t (map number_key a) p).
  assert (Hp1 : page_model p1 = model (typed a (app_state p)))
    by (apply click_all_numbers; [exact Ha | reflexivity]).
  set (p2 := click_all call_on_this t [operator_key op] p1).
  assert (Hp2 : page_model p2
                = model (fst (CalculatorController.inputOperator op
                                (typed a (app_state p))))).
  { subst p2. cbn [click_all fold_left].
    unfold ControllerDispatch.handleKeypadClick, PageMonad.bind.
    rewrite output_eq.
    cbn [operator_key dataset_number dataset_operator CalculatorController.truthy
         default from_option Datatypes.id].
    apply String.eqb_neq in Hop. rewrite Hop. cbn [negb]. rewrite run_eq.
    cbn [fst page_model]. apply inputOperator_model. exact Hp1. }
  set (p3 := click_all call_on_this t (map number_key b) p2).
  assert (Hp3 : page_model p3
                = model (typed b (fst (CalculatorController.inputOperator op
                                         (typed a (app_state p))))))
    by (apply click_all_numbers; [exact Hb | exact Hp2]).
  cbn [click_all fold_left]. dispatch. rewrite run_eq. cbn [fst page_model].
  apply calculate_model. exact Hp3.
Qed.

End KeyProperties.

Lemma keypad_calculation_witness :
  currentValue
    (state (page_model
              (click_all (H := enUS_host) (fun _ => PageMonad.ret tt) epoch
                 (calculation_clicks ["5"] "+" ["3"])
                 (page_of (app_of initial_state)))))
  = "8".
Proof.
  rewrite (keypad_calculation (H := enUS_host) (fun _ => PageMonad.ret tt) epoch
             ["5"] ["3"] "+" (page_of (app_of initial_state)))
    by (repeat constructor; discriminate).
  vm_compute. reflexivity.
Defined.
